(** * Edresson/TTS: the Glow-TTS training script and the Tacotron model

    A shallow embedding of [TTS/bin/train_glow_tts.py] and
    [models/tacotron.py].  Python code that mutates objects and raises
    exceptions is written in a small monad that threads a program state,
    appends to a log of the calls made to collaborators (torch, the
    TTS helper modules, the file system) and can end in a raised
    exception or in an immediate process exit.  What a collaborator
    returns is read from a record of oracles, so that every theorem holds
    for whatever the collaborators answer. *)

From Stdlib Require Import ZArith QArith List Ascii String Bool Lia.
From stdpp Require Import base gmap strings list sorting.
Import ListNotations.

Set Default Proof Using "Type".
Set Warnings "-register-all".
Local Open Scope Z_scope.
Local Open Scope list_scope.

(** ** Python values the scripts compare *)

(** A Python [float] as far as the scripts look at one: they compare
    losses and never compute with them. *)
Inductive Float :=
| FFinite (q : Q)
| FPosInf
| FNegInf
| FNaN.

Definition isfinite (f : Float) : bool :=
  match f with FFinite _ => true | _ => false end.

(** [a < b] on floats: every comparison with NaN is false. *)
Definition float_lt (a b : Float) : bool :=
  match a, b with
  | FNaN, _ | _, FNaN => false
  | _, FNegInf => false
  | FPosInf, _ => false
  | FNegInf, _ => true
  | FFinite _, FPosInf => true
  | FFinite x, FFinite y => negb (Qle_bool y x)
  end.

(** The exception classes the scripts tell apart.  [KeyboardInterrupt],
    [SystemExit] and [GeneratorExit] derive from [BaseException] only;
    every other class derives from [Exception] and carries its name. *)
Inductive PyExc :=
| KeyboardInterrupt
| SystemExit (code : Z)
| GeneratorExit
| PyException (cls : string).

Definition isinstance_Exception (e : PyExc) : bool :=
  match e with PyException _ => true | _ => false end.

Definition isinstance_KeyboardInterrupt (e : PyExc) : bool :=
  match e with KeyboardInterrupt => true | _ => false end.

Definition isinstance_SystemExit (e : PyExc) : bool :=
  match e with SystemExit _ => true | _ => false end.

Definition RuntimeError : PyExc := PyException "RuntimeError".
Definition KeyError : PyExc := PyException "KeyError".
Definition IndexError : PyExc := PyException "IndexError".
Definition TypeError : PyExc := PyException "TypeError".
Definition AttributeError : PyExc := PyException "AttributeError".
Definition UnboundLocalError : PyExc := PyException "UnboundLocalError".
Definition ValueError : PyExc := PyException "ValueError".
Definition ZeroDivisionError : PyExc := PyException "ZeroDivisionError".

(** ** The monad: state, call log, exceptions, process exit *)

(** How a piece of Python ends: with a value, with a raised exception, or
    with the process gone ([os._exit]), which no handler sees. *)
Inductive Outcome (A : Type) :=
| Ok (a : A)
| Raise (e : PyExc)
| Exited (code : Z).
Arguments Ok {A} a.
Arguments Raise {A} e.
Arguments Exited {A} code.

Section Monad.
Context {S E : Type}.

(** State [S] survives a raise, as a mutated Python object does; the
    log of events [E] is what the computation appended. *)
Definition M (A : Type) : Type := S -> Outcome A * S * list E.

Definition ret {A} (a : A) : M A := fun s => (Ok a, s, []).

Definition bind {A B} (m : M A) (f : A -> M B) : M B :=
  fun s =>
    match m s with
    | (Ok a, s1, l1) =>
        match f a s1 with (r, s2, l2) => (r, s2, l1 ++ l2) end
    | (Raise e, s1, l1) => (Raise e, s1, l1)
    | (Exited n, s1, l1) => (Exited n, s1, l1)
    end.

Definition raise {A} (e : PyExc) : M A := fun s => (Raise e, s, []).
Definition os__exit {A} (code : Z) : M A := fun s => (Exited code, s, []).
Definition emit (ev : E) : M unit := fun s => (Ok tt, s, [ev]).
Definition get : M S := fun s => (Ok s, s, []).
Definition put (s : S) : M unit := fun _ => (Ok tt, s, []).
Definition modify (f : S -> S) : M unit := fun s => (Ok tt, f s, []).

(** What an oracle answered becomes the outcome of the call. *)
Definition lift {A} (o : Outcome A) : M A := fun s => (o, s, []).

(** [try: body / except <classes in catches>: handler].  An exception the
    clause does not name goes on; a process exit is never caught. *)
Definition try_except {A} (body : M A) (catches : PyExc -> bool)
    (handler : PyExc -> M A) : M A :=
  fun s =>
    match body s with
    | (Raise e, s1, l1) =>
        if catches e
        then match handler e s1 with (r, s2, l2) => (r, s2, l1 ++ l2) end
        else (Raise e, s1, l1)
    | other => other
    end.

(** [for x in xs: body x] *)
Fixpoint for_each {A} (xs : list A) (body : A -> M unit) : M unit :=
  match xs with
  | [] => ret tt
  | x :: rest => bind (body x) (fun _ => for_each rest body)
  end.

(** A loop that carries a value from one round to the next. *)
Fixpoint fold_each {A B} (xs : list A) (acc : B) (body : B -> A -> M B)
    : M B :=
  match xs with
  | [] => ret acc
  | x :: rest => bind (body acc x) (fun acc' => fold_each rest acc' body)
  end.

Definition when (b : bool) (m : M unit) : M unit :=
  if b then m else ret tt.

Definition outcome_of {A} (r : Outcome A * S * list E) : Outcome A := r.1.1.
Definition state_of {A} (r : Outcome A * S * list E) : S := r.1.2.
Definition log_of {A} (r : Outcome A * S * list E) : list E := r.2.

(** Every event a computation logs, from whatever state, satisfies [P]. *)
Definition emits_only (P : E -> Prop) {A} (m : M A) : Prop :=
  forall s, Forall P (log_of (m s)).

(** Whenever the computation returns, what it returns satisfies [Q]. *)
Definition returns_only {A} (Q : A -> Prop) (m : M A) : Prop :=
  forall s a, outcome_of (m s) = Ok a -> Q a.

(** Whenever the computation returns, it has logged exactly [n] events of
    the kind [p]. *)
Definition emits_exactly (p : E -> bool) (n : nat) {A} (m : M A) : Prop :=
  forall s a, outcome_of (m s) = Ok a ->
    length (List.filter p (log_of (m s))) = n.
End Monad.
Arguments M : clear implicits.

Declare Scope py_scope.
Delimit Scope py_scope with py.
Notation "x <- m ;; k" := (bind m (fun x => k))
  (at level 100, m at next level, right associativity) : py_scope.
Notation "m ;; k" := (bind m (fun _ => k))
  (at level 100, right associativity) : py_scope.
Local Open Scope py_scope.

(** Python's [a % b] on integers: the sign follows the divisor, as
    [Z.modulo] does, and a zero divisor raises. *)
Definition py_mod {S E} (a b : Z) : M S E Z :=
  if b =? 0 then raise ZeroDivisionError else ret (a mod b).

(** ** [os.path] and [max] *)

Fixpoint ends_with_slash (s : string) : bool :=
  match s with
  | EmptyString => false
  | String c EmptyString => Ascii.eqb c "/"%char
  | String _ rest => ends_with_slash rest
  end.

(** [os.path.join(a, b)] for a relative [b]. *)
Definition os_path_join (a b : string) : string :=
  match a with
  | EmptyString => b
  | _ => if ends_with_slash a then a +:+ b else a +:+ "/" +:+ b
  end.

(** [max(xs, key=key)]: the first element whose key no later one exceeds;
    [ValueError] on an empty list. *)
Fixpoint max_from {A} (key : A -> Z) (best : A) (xs : list A) : A :=
  match xs with
  | [] => best
  | x :: rest =>
      if key best <? key x then max_from key x rest
      else max_from key best rest
  end.

(** [enumerate(xs)] *)
Fixpoint enumerate_from {A} (k : nat) (xs : list A) : list (nat * A) :=
  match xs with
  | [] => []
  | x :: rest => (k, x) :: enumerate_from (S k) rest
  end.

Definition enumerate {A} (xs : list A) : list (nat * A) := enumerate_from 0 xs.

Definition py_max {A} (key : A -> Z) (xs : list A) : Outcome A :=
  match xs with
  | [] => Raise ValueError
  | x :: rest => Ok (max_from key x rest)
  end.

(** * [TTS/bin/train_glow_tts.py] *)

Module TrainGlowTTS.

(** ** Data *)

(** A tensor as the script sees it: a shape and contents it never reads. *)
Record Tensor := { t_shape : list nat; t_data : Z }.

Definition same_shape (a b : Tensor) : bool :=
  bool_decide (t_shape a = t_shape b).

(** What an oracle answers: collaborators return or raise. *)
Inductive Answer (A : Type) :=
| Returns (a : A)
| Raises (e : PyExc).
Arguments Returns {A} a.
Arguments Raises {A} e.

(** The optimizer's per-parameter state: empty in a new optimizer, or the
    moments a checkpoint stored, of which the script's fate depends on
    their shapes only: those the parameters had when it was saved. *)
Inductive OptState :=
| OptEmpty
| OptLoaded (shapes : list (list nat)).

Record ParamGroup := {
  pg_nparams : nat;
  pg_lr : Float;
  pg_initial_lr : option Float
}.

Record Optimizer := {
  opt_state : OptState;
  param_groups : list ParamGroup
}.

(** The record [torch.load] returns for a checkpoint file. *)
Record Checkpoint := {
  ck_model : gmap string Tensor;
  ck_optimizer : Optimizer;
  ck_step : Z;
  ck_amp : option Z
}.

(** The fields of the configuration [c] that steer the script.
    [c_reinit_layers] is truthy when it is a non-empty list;
    [c_apex_amp_level] is truthy when it names a level. *)
Record Config := {
  c_lr : Float;
  c_noam_schedule : bool;
  c_warmup_steps : Z;
  c_reinit_layers : list string;
  c_apex_amp_level : option string;
  c_epochs : nat;
  c_print_step : Z;
  c_tb_plot_step : Z;
  c_save_step : Z;
  c_checkpoint : bool;
  c_tb_model_param_stats : bool;
  c_run_eval : bool;
  c_print_eval : bool;
  c_test_delay_epochs : Z;
  c_test_sentences_file : option string;
  c_use_speaker_embedding : bool;
  c_use_external_speaker_embedding_file : bool;
  c_use_gst : bool;
  c_style_wav_for_test : option string;
  c_speaker_balancer_batch : bool;
  c_r : Z;
  c_output_path : string;
  c_run_name : string
}.

(** The parsed command line. *)
Record Args := {
  continue_path : string;
  restore_path : string;
  config_path : string;
  debug : bool;
  rank : Z;
  group_id : string;
  output_path : option string
}.

(** One batch of the data loader; [format_data] only re-arranges it. *)
Record Batch := { batch_id : Z }.

(** What [model.forward] returns; the script hands it to the criterion. *)
Record ForwardOut := { fo_id : Z }.

(** A data loader: the batches one pass over it yields, by epoch. *)
Definition Loader : Type := nat -> list Batch.

(** An activation-normalisation flow of the decoder; [has_set_ddi] says
    whether [getattr(f, "set_ddi", False)] is truthy. *)
Record Flow := { has_set_ddi : bool; ddi : bool }.

Inductive Mode := DDI | Train | Eval.

Inductive NoamLR := MkNoamLR (warmup_steps : Z) (last_epoch : Z).

(** The objects the script mutates. *)
Record World := {
  model_state : gmap string Tensor;
  model_flows : list Flow;
  model_training : bool;
  model_wrapped : bool;
  optimizer : Optimizer;
  dirs : gset string
}.

Definition set_model_state (f : gmap string Tensor -> gmap string Tensor)
    (w : World) : World :=
  {| model_state := f (model_state w); model_flows := model_flows w;
     model_training := model_training w; model_wrapped := model_wrapped w;
     optimizer := optimizer w; dirs := dirs w |}.

Definition set_model_flows (f : list Flow -> list Flow) (w : World) : World :=
  {| model_state := model_state w; model_flows := f (model_flows w);
     model_training := model_training w; model_wrapped := model_wrapped w;
     optimizer := optimizer w; dirs := dirs w |}.

Definition set_model_training (b : bool) (w : World) : World :=
  {| model_state := model_state w; model_flows := model_flows w;
     model_training := b; model_wrapped := model_wrapped w;
     optimizer := optimizer w; dirs := dirs w |}.

Definition set_model_wrapped (b : bool) (w : World) : World :=
  {| model_state := model_state w; model_flows := model_flows w;
     model_training := model_training w; model_wrapped := b;
     optimizer := optimizer w; dirs := dirs w |}.

Definition set_optimizer (f : Optimizer -> Optimizer) (w : World) : World :=
  {| model_state := model_state w; model_flows := model_flows w;
     model_training := model_training w; model_wrapped := model_wrapped w;
     optimizer := f (optimizer w); dirs := dirs w |}.

Definition set_dirs (f : gset string -> gset string) (w : World) : World :=
  {| model_state := model_state w; model_flows := model_flows w;
     model_training := model_training w; model_wrapped := model_wrapped w;
     optimizer := optimizer w; dirs := f (dirs w) |}.

(** The calls the script makes to its collaborators, in program order. *)
Inductive Event :=
| EvPrint (msg : string)
| EvPrintIdx (msg : string) (idx : nat)
| EvTraceback
| EvInitDistributed (rank : Z)
| EvAmpInitialize
| EvAmpLoadStateDict
| EvOptimizerLoadStateDict
| EvNoamLR (warmup_steps : Z) (last_epoch : Z)
| EvCuda
| EvSetDDI (flow : nat) (on : bool)
| EvForward (mode : Mode) (no_grad : bool) (b : Batch)
| EvCriterion (mode : Mode)
| EvSchedulerStep
| EvZeroGrad
| EvBackward (loss : Float) (scaled : bool)
| EvCheckUpdate
| EvOptimizerStep
| EvReduceTensor
| EvInference (mode : Mode)
| EvConsoleLog (what : string) (step : Z)
| EvTensorboard (what : string) (step : Z)
| EvSaveCheckpoint (rank : Z) (out_path : string) (step : Z)
| EvSaveBestModel (rank : Z) (out_path : string) (step : Z)
| EvSynthesis (idx : nat)
| EvMakedirs (path : string)
| EvMakedirsStep (audio_path : string) (step : Z)
| EvSaveWav (idx : nat)
| EvPlot (what : string)
| EvLoadConfig (path : string)
| EvCopyConfig (src dst : string)
| EvRemoveExperimentFolder (path : string).

(** The collaborators' answers.  A call is identified by the mode, the
    global step and what it is given, so the answers may change from one
    step to the next. *)
Record Externals := {
  (* setup_torch_training_env *)
  num_gpus : Z;
  use_cuda : bool;
  (* the file system and the configuration reader *)
  glob_glob : string -> list string;
  os_path_getctime : string -> Z;
  load_config : string -> Answer Config;
  check_config_tts : Config -> Answer unit;
  create_experiment_folder : string -> string -> bool -> string;
  (* AudioProcessor, make_symbols *)
  ext_audio_processor : Answer unit;
  (* load_meta_data, parse_speakers, setup_model *)
  ext_setup_model : Answer (gmap string Tensor * list Flow * nat);
  torch_load : string -> Answer Checkpoint;
  (* DataLoader(MyDataset(...)): is_val, verbose *)
  ext_loader : bool -> bool -> Loader;
  ext_forward : Mode -> Z -> Batch -> Answer ForwardOut;
  ext_criterion : Mode -> Z -> ForwardOut -> Answer (gmap string Float);
  ext_backward : Z -> Float -> Answer unit;
  ext_check_update : Z -> Answer (Float * bool);
  (* 1 - alignment_diagonal_score(alignments) *)
  ext_align_error : ForwardOut -> Float;
  ext_reduce_tensor : Float -> Z -> Float;
  (* KeepAverage: the averages after a history of updates *)
  ext_avg_values : list (gmap string Float) -> gmap string Float;
  ext_inference : Mode -> Z -> Answer unit;
  ext_diagnostics : Mode -> Z -> Answer unit;
  (* the lines of c.test_sentences_file *)
  ext_read_sentences : string -> Answer (list string);
  ext_pick_speaker_embedding : Answer unit;
  ext_synthesis : Z -> nat -> string -> Answer unit;
  ext_makedirs : Z -> nat -> Answer unit;
  ext_save_wav : Z -> nat -> Answer unit;
  ext_plot_spectrogram : Z -> nat -> Answer unit;
  ext_plot_alignment : Z -> nat -> Answer unit
}.

Abbreviation Py := (M World Event).

Definition call {A} (a : Answer A) : Py A :=
  match a with
  | Returns x => ret x
  | Raises e => raise e
  end.

(** ** [torch]: loading state dictionaries *)

Definition entry_matches (sd : gmap string Tensor) (k : string) (v : Tensor)
    : bool :=
  match sd !! k with
  | Some t => same_shape v t
  | None => false
  end.

(** The parameters of [model] overwritten by the entries of [sd] that have
    the same name and the same shape; the others keep their value. *)
Definition copy_matching (model sd : gmap string Tensor)
    : gmap string Tensor :=
  map_imap (fun k v =>
    match sd !! k with
    | Some t => if same_shape v t then Some t else Some v
    | None => Some v
    end) model.

(** No missing key, no unexpected key, no shape mismatch. *)
Definition loads_cleanly (model sd : gmap string Tensor) : bool :=
  bool_decide (map_Forall (fun k v => entry_matches sd k v = true) model)
  && bool_decide (dom sd ⊆ dom model).

(** [model.load_state_dict(sd)] (strict): torch copies each parameter
    whose entry has the right shape as it walks the modules, and raises
    [RuntimeError] at the end if anything did not fit. *)
Definition model_load_state_dict (sd : gmap string Tensor) : Py unit :=
  w <- get ;;
  modify (set_model_state (fun m => copy_matching m sd)) ;;
  if loads_cleanly (model_state w) sd then ret tt else raise RuntimeError.

Definition groups_fit (mine saved : list ParamGroup) : bool :=
  bool_decide (map pg_nparams mine = map pg_nparams saved).

(** [optimizer.load_state_dict(sd)]: [ValueError] when the parameter
    groups do not line up; otherwise state and groups are the saved ones. *)
Definition optimizer_load_state_dict (sd : Optimizer) : Py unit :=
  emit EvOptimizerLoadStateDict ;;
  w <- get ;;
  if groups_fit (param_groups (optimizer w)) (param_groups sd)
  then modify (set_optimizer (fun _ => sd))
  else raise ValueError.

(** The shapes of the model's parameters, in the order of the
    parameters. *)
Definition parameter_shapes (model : gmap string Tensor) : list (list nat) :=
  map (fun entry => t_shape entry.2) (map_to_list model).

(** Moments loaded from a checkpoint that are not of the shapes of the
    parameters they are now paired with. *)
Definition stale (o : Optimizer) (model : gmap string Tensor) : bool :=
  match opt_state o with
  | OptEmpty => false
  | OptLoaded shapes => negb (bool_decide (shapes = parameter_shapes model))
  end.

Definition partial_message : string := " > Partial model initialization.".

(** [for group in optimizer.param_groups: group['initial_lr'] = lr] *)
Definition reset_initial_lr (lr : Float) (o : Optimizer) : Optimizer :=
  {| opt_state := opt_state o;
     param_groups := map (fun group =>
       {| pg_nparams := pg_nparams group; pg_lr := pg_lr group;
          pg_initial_lr := Some lr |}) (param_groups o) |}.

(** [RAdam(model.parameters(), lr=c.lr, ...)]: one group, no state yet. *)
Definition RAdam (nparams : nat) (lr : Float) : Optimizer :=
  {| opt_state := OptEmpty;
     param_groups := [ {| pg_nparams := nparams; pg_lr := lr;
                          pg_initial_lr := None |} ] |}.

(** Modelled from the spec: [set_init_dict] of [TTS.utils.generic_utils]
    is not among the sources.  The spec has the partial load copy "only
    parameters whose name and shape match, leaving the rest at their
    freshly initialized values"; it gives the configuration no part in the
    choice. *)
Definition set_init_dict (model_dict checkpoint_state : gmap string Tensor)
    (c : Config) : gmap string Tensor :=
  copy_matching model_dict checkpoint_state.

(** ** Classes of events *)

Definition ddi_message : string := " > Data depended initialization ... ".

(** What only [data_depended_init] does: switching the flows'
    initialisation flag, its announcement, its forward pass. *)
Definition is_ddi_event (e : Event) : bool :=
  match e with
  | EvSetDDI _ _ => true
  | EvForward DDI _ _ => true
  | EvPrint msg => String.eqb msg ddi_message
  | _ => false
  end.

Definition is_ddi_print (e : Event) : bool :=
  match e with
  | EvPrint msg => String.eqb msg ddi_message
  | _ => false
  end.

Definition is_forward (e : Event) : bool :=
  match e with EvForward _ _ _ => true | _ => false end.

Definition is_optimizer_step (e : Event) : bool :=
  match e with EvOptimizerStep => true | _ => false end.

Definition is_checkpoint_write (e : Event) : bool :=
  match e with
  | EvSaveCheckpoint _ _ _ | EvSaveBestModel _ _ _ => true
  | _ => false
  end.

Definition is_synthesis (e : Event) : bool :=
  match e with EvSynthesis _ => true | _ => false end.

Definition is_error_report (e : Event) : bool :=
  match e with EvPrintIdx _ _ => true | _ => false end.

(** What [train] and [evaluate] do under [if args.rank == 0] only. *)
Definition is_rank0_event (e : Event) : bool :=
  match e with
  | EvTensorboard _ _ | EvSaveCheckpoint _ _ _ | EvInference _
  | EvSynthesis _ | EvMakedirsStep _ _ | EvSaveWav _ | EvPlot _
  | EvPrintIdx _ _ | EvTraceback => true
  | _ => false
  end.

(** What changes the model, the optimizer or the checkpoints. *)
Definition is_training_event (e : Event) : bool :=
  match e with
  | EvSchedulerStep | EvZeroGrad | EvBackward _ _ | EvCheckUpdate
  | EvOptimizerStep | EvSaveCheckpoint _ _ _ | EvSaveBestModel _ _ _ => true
  | EvForward _ no_grad _ => negb no_grad
  | _ => false
  end.

(** Running the model on evaluation data. *)
Definition is_evaluation_pass (e : Event) : bool :=
  match e with
  | EvForward Eval _ _ | EvCriterion Eval | EvInference Eval => true
  | _ => false
  end.

Definition is_cleanup (e : Event) : bool :=
  match e with EvRemoveExperimentFolder _ => true | _ => false end.

(** The flows after [f.set_ddi(on)] on those that have it. *)
Definition with_ddi (on : bool) (flows : list Flow) : list Flow :=
  map (fun f =>
         if has_set_ddi f then {| has_set_ddi := true; ddi := on |} else f)
      flows.

(** What holds of every checkpoint [train] saves: by the worker of rank
    0, into [OUT_PATH], with [c.checkpoint] on, at a step that is a multiple
    of [c.save_step]. *)
Definition saved_on_schedule (c : Config) (args : Args) (OUT_PATH : string)
    (e : Event) : Prop :=
  match e with
  | EvSaveCheckpoint r p s =>
      r = 0 /\ rank args = 0 /\ p = OUT_PATH /\ c_checkpoint c = true
      /\ c_save_step c <> 0 /\ s mod c_save_step c = 0
  | _ => True
  end.

(** ** The script *)

Section Script.
Variable ext : Externals.
Variable c : Config.
Variable args : Args.
(** The module-level [OUT_PATH]. *)
Variable OUT_PATH : string.

Definition dict_get {A} (d : gmap string A) (k : string) : Py A :=
  match d !! k with
  | Some v => ret v
  | None => raise KeyError
  end.

(** [setup_loader(ap, r, is_val, verbose, speaker_mapping)]: no loader
    for evaluation when [c.run_eval] is off.  The sampler is the
    distributed one when there are several GPUs, and the speaker
    balancer only announces itself when there is no sampler yet. *)
Definition setup_loader (is_val verbose : bool) : Py (option Loader) :=
  if is_val && negb (c_run_eval c) then ret None
  else
    let sampler_is_None := negb (1 <? num_gpus ext) in
    when (c_speaker_balancer_batch c && sampler_is_None && negb is_val)
         (emit (EvPrint "Using Speaker Balancer Batch")) ;;
    ret (Some (ext_loader ext is_val verbose)).

(** [format_data]: the batch with its speaker ids, which are [None]
    unless [c.use_speaker_embedding]. *)
Definition format_data (data : Batch) : Batch * option Z :=
  (data, if c_use_speaker_embedding c then Some (batch_id data) else None).

(** [for f in ...decoder.flows: if getattr(f, "set_ddi", False):
    f.set_ddi(on)] *)
Definition set_ddi_flows (on : bool) : Py unit :=
  w <- get ;;
  for_each (enumerate (model_flows w)) (fun '(i, f) =>
    when (has_set_ddi f) (emit (EvSetDDI i on))) ;;
  modify (set_model_flows (map (fun f =>
    if has_set_ddi f then {| has_set_ddi := true; ddi := on |} else f))).

(** [data_depended_init(model, ap, speaker_mapping)].  Both arms of
    [hasattr(model, 'module')] reach the same flows. *)
Definition data_depended_init : Py unit :=
  w <- get ;;
  (if model_wrapped w then set_ddi_flows true else set_ddi_flows true) ;;
  data_loader <- setup_loader false false ;;
  modify (set_model_training true) ;;
  emit (EvPrint ddi_message) ;;
  (* with torch.no_grad(): for _, data in enumerate(data_loader) *)
  match data_loader with
  | None => raise TypeError
  | Some loader =>
      match loader 0%nat with
      | [] => ret tt
      | data :: _ =>
          let '(batch, _) := format_data data in
          emit (EvForward DDI true batch) ;;
          _ <- call (ext_forward ext DDI 0 batch) ;;
          ret tt   (* break *)
      end
  end ;;
  w <- get ;;
  (if model_wrapped w then set_ddi_flows false else set_ddi_flows false).

(** [optimizer.step()]: the update of a parameter from moments of another
    shape is a [RuntimeError] of the tensor arithmetic. *)
Definition optimizer_step : Py unit :=
  emit EvOptimizerStep ;;
  w <- get ;;
  if stale (optimizer w) (model_state w) then raise RuntimeError else ret tt.

(** [optimizer.param_groups[0]['lr']] *)
Definition current_lr : Py Float :=
  w <- get ;;
  match param_groups (optimizer w) with
  | [] => raise IndexError
  | g :: _ => ret (pg_lr g)
  end.

(** [x[:1]] fails on [None]. *)
Definition slice_first {A} (x : option A) : Py A :=
  match x with
  | Some v => ret v
  | None => raise TypeError
  end.

(** [loss_dict[k] = reduce_tensor(loss_dict[k].data, num_gpus)] *)
Definition reduce_key (k : string) (loss_dict : gmap string Float)
    : Py (gmap string Float) :=
  v <- dict_get loss_dict k ;;
  emit EvReduceTensor ;;
  ret (<[k := ext_reduce_tensor ext v (num_gpus ext)]> loss_dict).

Definition reduce_losses (loss_dict : gmap string Float)
    : Py (gmap string Float) :=
  if 1 <? num_gpus ext then
    d <- reduce_key "log_mle" loss_dict ;;
    d <- reduce_key "loss_dur" d ;;
    reduce_key "loss" d
  else ret loss_dict.

(** [{'avg_' + key: value for key, value in loss_dict.items()}] *)
Definition avg_keys (loss_dict : gmap string Float) : gmap string Float :=
  list_to_map (map (fun kv => ("avg_" +:+ kv.1, kv.2))
                   (map_to_list loss_dict)).

(** One round of the loop of [train].  [amp] says whether apex is in
    use; the accumulator is the global step and the updates given to
    [keep_avg].  Times and the iteration counts shown on the console are
    not modelled; the figures and the audio of the diagnostics are one
    call, [ext_diagnostics]. *)
Definition train_step (amp : bool) (scheduler : option NoamLR)
    (epoch : nat) (acc : Z * list (gmap string Float)) (data : Batch)
    : Py (Z * list (gmap string Float)) :=
  let '(global_step, keep_avg) := acc in
  let '(batch, speaker_ids) := format_data data in
  let global_step := global_step + 1 in
  (* setup lr *)
  (if c_noam_schedule c then
     match scheduler with
     | Some _ => emit EvSchedulerStep
     | None => raise AttributeError
     end
   else ret tt) ;;
  emit EvZeroGrad ;;
  (* forward pass model *)
  emit (EvForward Train false batch) ;;
  out <- call (ext_forward ext Train global_step batch) ;;
  (* compute loss *)
  emit (EvCriterion Train) ;;
  loss_dict <- call (ext_criterion ext Train global_step out) ;;
  (* backward pass *)
  loss <- dict_get loss_dict "loss" ;;
  emit (EvBackward loss amp) ;;
  call (ext_backward ext global_step loss) ;;
  emit EvCheckUpdate ;;
  grad_norm_and_flag <- call (ext_check_update ext global_step) ;;
  let grad_norm := grad_norm_and_flag.1 in   (* grad_norm, _ = ... *)
  optimizer_step ;;
  _ <- current_lr ;;
  (* compute alignment error *)
  let loss_dict := <["align_error" := ext_align_error ext out]> loss_dict in
  (* aggregate losses from processes *)
  loss_dict <- reduce_losses loss_dict ;;
  (* update avg stats *)
  let keep_avg := keep_avg ++ [avg_keys loss_dict] in
  (* print training progress *)
  m <- py_mod global_step (c_print_step c) ;;
  when (m =? 0) (emit (EvConsoleLog "train_step" global_step)) ;;
  (if rank args =? 0 then
     m <- py_mod global_step (c_tb_plot_step c) ;;
     when (m =? 0) (emit (EvTensorboard "train_iter_stats" global_step)) ;;
     m <- py_mod global_step (c_save_step c) ;;
     if m =? 0 then
       (if c_checkpoint c then
          model_loss <- dict_get loss_dict "loss" ;;
          emit (EvSaveCheckpoint (rank args) OUT_PATH global_step)
        else ret tt) ;;
       (* diagnostic visualizations *)
       _ <- slice_first speaker_ids ;;
       emit (EvInference Train) ;;
       call (ext_inference ext Train global_step) ;;
       call (ext_diagnostics ext Train global_step) ;;
       emit (EvTensorboard "train_figures" global_step) ;;
       emit (EvTensorboard "train_audios" global_step)
     else ret tt
   else ret tt) ;;
  ret (global_step, keep_avg).

(** [train(model, data_loader, criterion, optimizer, scheduler, ap,
    global_step, epoch, amp, speaker_mapping)] *)
Definition train (data_loader : option Loader) (amp : bool)
    (scheduler : option NoamLR) (global_step : Z) (epoch : nat)
    : Py (gmap string Float * Z) :=
  modify (set_model_training true) ;;
  (* len(data_loader.dataset), enumerate(data_loader) *)
  loader <- match data_loader with
            | Some loader => ret loader
            | None => raise AttributeError
            end ;;
  emit (EvConsoleLog "train_start" global_step) ;;
  acc <- fold_each (loader epoch) (global_step, [])
           (train_step amp scheduler epoch) ;;
  let '(global_step, keep_avg) := acc in
  (* print epoch stats *)
  emit (EvConsoleLog "train_epoch_end" global_step) ;;
  (if rank args =? 0 then
     emit (EvTensorboard "train_epoch_stats" global_step) ;;
     when (c_tb_model_param_stats c)
          (emit (EvTensorboard "model_weights" global_step))
   else ret tt) ;;
  ret (ext_avg_values ext keep_avg, global_step).

(** One round of the loop of [evaluate]; the accumulator also keeps the
    speaker ids of the last batch, which the diagnostics slice. *)
Definition evaluate_step (global_step : Z)
    (acc : list (gmap string Float) * option (option Z)) (data : Batch)
    : Py (list (gmap string Float) * option (option Z)) :=
  let '(keep_avg, _) := acc in
  let '(batch, speaker_ids) := format_data data in
  emit (EvForward Eval true batch) ;;
  out <- call (ext_forward ext Eval global_step batch) ;;
  emit (EvCriterion Eval) ;;
  loss_dict <- call (ext_criterion ext Eval global_step out) ;;
  let loss_dict := <["align_error" := ext_align_error ext out]> loss_dict in
  loss_dict <- reduce_losses loss_dict ;;
  let keep_avg := keep_avg ++ [avg_keys loss_dict] in
  when (c_print_eval c) (emit (EvConsoleLog "eval_step" global_step)) ;;
  ret (keep_avg, Some speaker_ids).

Definition raises {A} (a : Answer A) : bool :=
  match a with Raises _ => true | Returns _ => false end.

(** Whether something in the [try] for sentence [idx] raises. *)
Definition sentence_fails (global_step : Z) (idx : nat)
    (test_sentence : string) : bool :=
  raises (ext_synthesis ext global_step idx test_sentence)
  || raises (ext_makedirs ext global_step idx)
  || raises (ext_save_wav ext global_step idx)
  || raises (ext_plot_spectrogram ext global_step idx)
  || raises (ext_plot_alignment ext global_step idx).

Definition default_test_sentences : list string :=
  [ "It took me quite a long time to develop a voice, and now that I have it I'm not going to be silent.";
    "Be a voice, not an echo.";
    "I'm sorry Dave. I'm afraid I can't do that.";
    "This cake is great. It's so delicious and moist.";
    "Prior to November 22, 1963." ].

Definition test_sentence_error : string :=
  " !! Error creating Test Sentence -".

(** The body of the [try] for one test sentence: synthesis, the folder
    of the step, the wav file and the two figures. *)
Definition synthesize_one (global_step : Z) (idx : nat)
    (test_sentence : string) : Py unit :=
  emit (EvSynthesis idx) ;;
  call (ext_synthesis ext global_step idx test_sentence) ;;
  emit (EvMakedirsStep (os_path_join OUT_PATH "test_audios") global_step) ;;
  call (ext_makedirs ext global_step idx) ;;
  emit (EvSaveWav idx) ;;
  call (ext_save_wav ext global_step idx) ;;
  emit (EvPlot "prediction") ;;
  call (ext_plot_spectrogram ext global_step idx) ;;
  emit (EvPlot "alignment") ;;
  call (ext_plot_alignment ext global_step idx).

(** [for idx, test_sentence in enumerate(test_sentences): try: ...
    except: print(" !! Error creating Test Sentence -", idx);
    traceback.print_exc()] *)
Definition synthesize_test_sentences (global_step : Z)
    (test_sentences : list string) : Py unit :=
  for_each (enumerate test_sentences)
    (fun '(idx, test_sentence) =>
       try_except (synthesize_one global_step idx test_sentence)
         (fun _ => true)
         (fun _ => emit (EvPrintIdx test_sentence_error idx) ;;
                   emit EvTraceback)).

(** [evaluate(model, data_loader, criterion, ap, global_step, epoch,
    speaker_mapping)] *)
Definition evaluate (data_loader : option Loader) (global_step : Z)
    (epoch : nat) : Py (gmap string Float) :=
  modify (set_model_training false) ;;
  emit (EvConsoleLog "eval_start" global_step) ;;
  keep_avg <-
    match data_loader with
    | None => ret []
    | Some loader =>
        acc <- fold_each (loader epoch) ([], None)
                 (evaluate_step global_step) ;;
        let '(keep_avg, last) := acc in
        (if rank args =? 0 then
           (* the names bound in the loop body *)
           speaker_ids <- match last with
                          | Some ids => ret ids
                          | None => raise UnboundLocalError
                          end ;;
           _ <- slice_first speaker_ids ;;
           emit (EvInference Eval) ;;
           call (ext_inference ext Eval global_step) ;;
           call (ext_diagnostics ext Eval global_step) ;;
           emit (EvTensorboard "eval_audios" global_step) ;;
           emit (EvTensorboard "eval_stats" global_step) ;;
           emit (EvTensorboard "eval_figures" global_step)
         else ret tt) ;;
        ret keep_avg
    end ;;
  (if (rank args =? 0) && (c_test_delay_epochs c <=? Z.of_nat epoch) then
     test_sentences <-
       match c_test_sentences_file c with
       | None => ret default_test_sentences
       | Some f => call (ext_read_sentences ext f)
       end ;;
     emit (EvPrint " | > Synthesizing test sentences") ;;
     (if c_use_speaker_embedding c
         && c_use_external_speaker_embedding_file c
      then call (ext_pick_speaker_embedding ext) else ret tt) ;;
     (match c_style_wav_for_test c with
      | None =>
          when (c_use_gst c)
            (emit (EvPrint "WARNING: You don't provided a gst style wav, for this reason we use a zero tensor!"))
      | Some _ => ret tt
      end) ;;
     synthesize_test_sentences global_step test_sentences ;;
     emit (EvTensorboard "test_audios" global_step) ;;
     emit (EvTensorboard "test_figures" global_step)
   else ret tt) ;;
  ret (ext_avg_values ext keep_avg).

(** Modelled from the spec: [save_best_model] of [TTS.tts.utils.io] is
    not among the sources.  The spec has the "best" checkpoint
    "overwritten only when loss improves": the epoch's target loss is
    compared against the best-seen loss and the best checkpoint updated
    if improved.  It is given no rank. *)
Definition save_best_model (target_loss best_loss : Float)
    (current_step : Z) : Py Float :=
  if float_lt target_loss best_loss then
    emit (EvSaveBestModel (rank args) OUT_PATH current_step) ;;
    ret target_loss
  else ret best_loss.

(** The restore block of [main]: the [if args.restore_path:] statement.
    Returns [args.restore_step]. *)
Definition restore (amp : bool) : Py Z :=
  if negb (String.eqb (restore_path args) "") then
    checkpoint <- call (torch_load ext (restore_path args)) ;;
    try_except
      ((if negb (c_noam_schedule c)
        then optimizer_load_state_dict (ck_optimizer checkpoint)
        else ret tt) ;;
       (match c_reinit_layers c with
        | [] => ret tt
        | _ => raise RuntimeError
        end) ;;
       model_load_state_dict (ck_model checkpoint))
      (fun _ => true)
      (fun _ =>
         emit (EvPrint partial_message) ;;
         w <- get ;;
         let model_dict := model_state w in
         let model_dict := set_init_dict model_dict (ck_model checkpoint) c in
         model_load_state_dict model_dict) ;;
    when (amp && bool_decide (is_Some (ck_amp checkpoint)))
         (emit EvAmpLoadStateDict) ;;
    modify (set_optimizer (reset_initial_lr (c_lr c))) ;;
    emit (EvPrint " > Model restored from step") ;;
    ret (ck_step checkpoint)
  else ret 0.

(** [main] up to and including the construction of the scheduler.
    Returns [amp], [args.restore_step] and the scheduler. *)
Definition main_setup : Py (bool * Z * option NoamLR) :=
  call (ext_audio_processor ext) ;;
  (* DISTRUBUTED *)
  when (1 <? num_gpus ext) (emit (EvInitDistributed (rank args))) ;;
  fresh <- call (ext_setup_model ext) ;;
  let '(fresh_state, fresh_flows, nparams) := fresh in
  modify (set_model_state (fun _ => fresh_state)) ;;
  modify (set_model_flows (fun _ => fresh_flows)) ;;
  modify (set_model_wrapped false) ;;
  modify (set_optimizer (fun _ => RAdam nparams (c_lr c))) ;;
  amp <- match c_apex_amp_level c with
         | Some _ => emit EvCuda ;; emit EvAmpInitialize ;; ret true
         | None => ret false
         end ;;
  restore_step <- restore amp ;;
  when (use_cuda ext) (emit EvCuda) ;;
  (* DISTRUBUTED: DDP is imported in the apex branch only *)
  (if 1 <? num_gpus ext then
     if amp then modify (set_model_wrapped true)
     else raise UnboundLocalError
   else ret tt) ;;
  scheduler <-
    (if c_noam_schedule c then
       emit (EvNoamLR (c_warmup_steps c) (restore_step - 1)) ;;
       ret (Some (MkNoamLR (c_warmup_steps c) (restore_step - 1)))
     else ret None) ;;
  emit (EvPrint " > Model has parameters") ;;
  ret (amp, restore_step, scheduler).

(** One round of [for epoch in range(0, c.epochs)]; the accumulator is
    the global step and the best loss. *)
Definition main_epoch (amp : bool) (scheduler : option NoamLR)
    (train_data_loader eval_data_loader : option Loader)
    (acc : Z * Float) (epoch : nat) : Py (Z * Float) :=
  let '(global_step, best_loss) := acc in
  emit (EvConsoleLog "epoch_start" (Z.of_nat epoch)) ;;
  r <- train train_data_loader amp scheduler global_step epoch ;;
  let '(train_avg_loss_dict, global_step) := r in
  eval_avg_loss_dict <- evaluate eval_data_loader global_step epoch ;;
  emit (EvConsoleLog "epoch_end" (Z.of_nat epoch)) ;;
  target_loss <- dict_get train_avg_loss_dict "avg_loss" ;;
  target_loss <- (if c_run_eval c
                  then dict_get eval_avg_loss_dict "avg_loss"
                  else ret target_loss) ;;
  best_loss <- save_best_model target_loss best_loss global_step ;;
  ret (global_step, best_loss).

(** [main] from [global_step = args.restore_step] on. *)
Definition main_run (amp : bool) (restore_step : Z)
    (scheduler : option NoamLR) : Py unit :=
  let best_loss := FPosInf in
  let global_step := restore_step in
  (* ignore data depend inicialization if continue training *)
  (if global_step =? 0 then data_depended_init else ret tt) ;;
  train_data_loader <- setup_loader false true ;;
  eval_data_loader <- setup_loader true false ;;
  _ <- fold_each (seq 0 (c_epochs c)) (global_step, best_loss)
         (main_epoch amp scheduler train_data_loader eval_data_loader) ;;
  ret tt.

(** [main(args)] *)
Definition main : Py unit :=
  r <- main_setup ;;
  let '(amp, restore_step, scheduler) := r in
  main_run amp restore_step scheduler.
End Script.

(** Modelled from the spec: [remove_experiment_folder] of
    [TTS.utils.generic_utils] is not among the sources.  The spec has the
    clean-up be the "deletion of the in-progress experiment output
    directory": the folder and what is inside it are gone afterwards. *)
Definition inside (folder d : string) : bool :=
  String.eqb d folder || String.prefix (folder +:+ "/") d.

Definition remove_experiment_folder (experiment_path : string) : Py unit :=
  emit (EvRemoveExperimentFolder experiment_path) ;;
  modify (set_dirs (filter (fun d => inside experiment_path d = false))).

(** [sys.exit(n)] *)
Definition sys_exit {A} (n : Z) : Py A := raise (SystemExit n).

(** The [if args.continue_path != '':] statement of the script. *)
Definition continue_training (ext : Externals) (args : Args) : Py Args :=
  if negb (String.eqb (continue_path args) "") then
    let list_of_files :=
      glob_glob ext (continue_path args +:+ "/*.pth.tar") in
    latest_model_file <- lift (py_max (os_path_getctime ext) list_of_files) ;;
    emit (EvPrint (" > Training continues for " +:+ latest_model_file)) ;;
    ret {| continue_path := continue_path args;
           restore_path := latest_model_file;
           config_path := os_path_join (continue_path args) "config.json";
           debug := debug args; rank := rank args;
           group_id := group_id args;
           output_path := Some (continue_path args) |}
  else ret args.

(** [args] with another [--config_path]. *)
Definition with_config_path (p : string) (args : Args) : Args :=
  {| continue_path := continue_path args; restore_path := restore_path args;
     config_path := p; debug := debug args; rank := rank args;
     group_id := group_id args; output_path := output_path args |}.

(** The [try] statement around [main(args)], for any body. *)
Definition guarded (body : Py unit) (OUT_PATH : string) : Py unit :=
  try_except body
    (fun e => isinstance_KeyboardInterrupt e || isinstance_Exception e)
    (fun e =>
       if isinstance_KeyboardInterrupt e then
         remove_experiment_folder OUT_PATH ;;
         try_except (sys_exit 0) isinstance_SystemExit (fun _ => os__exit 0)
       else
         remove_experiment_folder OUT_PATH ;;
         emit EvTraceback ;;
         sys_exit 1).

(** The module body under [if __name__ == '__main__':], after
    [parser.parse_args()] and before the [try]: the arguments as
    rewritten, the configuration and [OUT_PATH]. *)
Definition startup (ext : Externals) (args : Args)
    : Py (Args * Config * string) :=
  args <- continue_training ext args ;;
  (* setup output paths and read configs *)
  emit (EvLoadConfig (config_path args)) ;;
  c <- call (load_config ext (config_path args)) ;;
  call (check_config_tts ext c) ;;
  when (bool_decide (is_Some (c_apex_amp_level c)))
       (emit (EvPrint "   >  apex AMP level: ")) ;;
  OUT_PATH <-
    (if String.eqb (continue_path args) "" then
       let p := create_experiment_folder ext (c_output_path c) (c_run_name c)
                  (debug args) in
       modify (set_dirs (fun d => {[p]} ∪ d)) ;;
       ret p
     else ret (continue_path args)) ;;
  let AUDIO_PATH := os_path_join OUT_PATH "test_audios" in
  (if rank args =? 0 then
     emit (EvMakedirs AUDIO_PATH) ;;
     modify (set_dirs (fun d => {[OUT_PATH; AUDIO_PATH]} ∪ d)) ;;
     emit (EvCopyConfig (config_path args)
             (os_path_join OUT_PATH "config.json")) ;;
     emit (EvTensorboard "model-description" 0)
   else ret tt) ;;
  ret (args, c, OUT_PATH).

(** The whole module body: start-up, then [main(args)] under the [try]. *)
Definition script (ext : Externals) (args : Args) : Py unit :=
  r <- startup ext args ;;
  let '(args, c, OUT_PATH) := r in
  guarded (main ext c args OUT_PATH) OUT_PATH.

(** The status the interpreter leaves with, as the shell sees it: the low
    eight bits of an exit code, 1 for an exception nothing caught, and for
    a [KeyboardInterrupt] nothing caught 128 plus the number of SIGINT. *)
Definition exit_status {A} (o : Outcome A) : Z :=
  match o with
  | Ok _ => 0
  | Raise (SystemExit n) => n mod 256
  | Raise KeyboardInterrupt => 130
  | Raise _ => 1
  | Exited n => n mod 256
  end.

End TrainGlowTTS.

(** * [models/tacotron.py] *)

Module Tacotron.

(** A tensor as nested arrays: [Stack] is one more leading dimension. *)
Inductive Tensor :=
| Scalar (v : Z)
| Stack (items : list Tensor).

(** [torch.flip(x, dims=(1,))]: every item of the batch has the order of
    its second dimension, time, reversed.  A tensor with no second
    dimension is an [IndexError]; a [Stack] of nothing is taken for a batch
    of no item. *)
Definition flip_item (item : Tensor) : Outcome Tensor :=
  match item with
  | Stack frames => Ok (Stack (rev frames))
  | Scalar _ => Raise IndexError
  end.

Fixpoint flip_items (items : list Tensor) : Outcome (list Tensor) :=
  match items with
  | [] => Ok []
  | item :: rest =>
      match flip_item item, flip_items rest with
      | Ok flipped, Ok others => Ok (flipped :: others)
      | Raise e, _ => Raise e
      | Exited n, _ => Exited n
      | _, Raise e => Raise e
      | _, Exited n => Exited n
      end
  end.

Definition flip_dim1 (x : Tensor) : Outcome Tensor :=
  match x with
  | Stack items =>
      match flip_items items with
      | Ok flipped => Ok (Stack flipped)
      | Raise e => Raise e
      | Exited n => Exited n
      end
  | Scalar _ => Raise IndexError
  end.

(** A sub-module owns parameters: addresses into the parameter store. *)
Record Layer := { parameters : list nat }.

(** What the layers and the torch operations compute.  A layer is given
    the current values of its own parameters. *)
Record Torch := {
  Embedding : list Tensor -> Tensor -> Tensor;
  Encoder : list Tensor -> Tensor -> Tensor;
  Decoder : list Tensor -> Tensor -> Tensor -> Tensor -> option Tensor
            -> Tensor * Tensor * Tensor;
  Decoder_inference : list Tensor -> Tensor -> option Tensor
                      -> Tensor * Tensor * Tensor;
  PostCBHG : list Tensor -> Tensor -> Tensor;
  Linear : list Tensor -> Tensor -> Tensor;
  speaker_project : list Tensor -> Tensor -> Tensor;
  GST : list Tensor -> Tensor -> Tensor;
  sequence_mask : Tensor -> Tensor;
  expand_cat : Tensor -> Tensor -> Tensor;
  transpose_0_1 : Tensor -> Tensor;
  transpose_1_2 : Tensor -> Tensor;
  squeeze_1 : Tensor -> Tensor
}.

(** The values the constructors of the layers give their parameters. *)
Record Init := {
  init_embedding : list Tensor;
  init_encoder : list Tensor;
  init_decoder : list Tensor;
  init_postnet : list Tensor;
  init_last_linear : list Tensor;
  init_speaker_project_mel : list Tensor;
  init_gst_layer : list Tensor
}.

(** The attributes of a [Tacotron] that its methods read.  A layer the
    constructor does not create is [None]: touching it is an
    [AttributeError]. *)
Record Self := {
  gst : bool;
  num_speakers : Z;
  bidirectional_decoder : bool;
  embedding : Layer;
  encoder : Layer;
  decoder : Layer;
  decoder_backward : option Layer;
  postnet : Layer;
  last_linear : Layer;
  speaker_project_mel : option Layer;
  gst_layer : option Layer
}.

(** What the methods mutate: the parameter store and the two speaker
    attributes. *)
Record Heap := {
  store : list Tensor;
  speaker_embeddings : option Tensor;
  speaker_embeddings_projected : option Tensor
}.

Inductive DecoderField := decoder_ | decoder_backward_.

(** The calls made to a decoder. *)
Inductive Call :=
| CallDecoder (field : DecoderField) (owner : Layer)
    (memory mel mask : Tensor) (speaker : option Tensor)
| CallDecoderInference (field : DecoderField) (owner : Layer)
    (memory : Tensor) (speaker : option Tensor).

Abbreviation Py := (M Heap Call).

(** A new layer: its parameters are appended to the store. *)
Definition new_layer (values : list Tensor) : Py Layer :=
  h <- get ;;
  put {| store := store h ++ values;
         speaker_embeddings := speaker_embeddings h;
         speaker_embeddings_projected := speaker_embeddings_projected h |} ;;
  ret {| parameters := seq (length (store h)) (length values) |}.

Definition values_of (h : Heap) (l : Layer) : list Tensor :=
  omap (fun a => store h !! a) (parameters l).

Definition call_field (c : Call) : DecoderField :=
  match c with
  | CallDecoder f _ _ _ _ _ | CallDecoderInference f _ _ _ => f
  end.

Definition call_speaker (c : Call) : option Tensor :=
  match c with
  | CallDecoder _ _ _ _ _ s | CallDecoderInference _ _ _ s => s
  end.

(** The encoder outputs a call hands to the decoder as its memory. *)
Definition call_memory (c : Call) : Tensor :=
  match c with
  | CallDecoder _ _ m _ _ _ | CallDecoderInference _ _ m _ => m
  end.

Definition optional_parameters (l : option Layer) : list nat :=
  match l with
  | Some layer => parameters layer
  | None => []
  end.

(** The parameters of a model, layer by layer in the order the constructor
    creates the layers. *)
Definition all_parameters (self : Self) : list nat :=
  parameters (embedding self) ++ parameters (encoder self)
  ++ parameters (decoder self) ++ optional_parameters (decoder_backward self)
  ++ parameters (postnet self) ++ parameters (last_linear self)
  ++ optional_parameters (speaker_project_mel self)
  ++ optional_parameters (gst_layer self).

(** The heap with both speaker attributes [None]. *)
Definition without_speaker (h : Heap) : Heap :=
  {| store := store h;
     speaker_embeddings := None;
     speaker_embeddings_projected := None |}.

(** [copy.deepcopy(layer)]: a layer with parameters of its own, holding
    copies of the values. *)
Definition deepcopy (l : Layer) : Py Layer :=
  h <- get ;;
  new_layer (values_of h l).

Definition attr {A} (x : option A) : Py A :=
  match x with
  | Some v => ret v
  | None => raise AttributeError
  end.

Section Methods.
Variable torch : Torch.

(** [Tacotron.__init__], with the arguments that decide which layers
    exist. *)
Definition __init__ (init : Init) (num_speakers_ : Z)
    (gst_ bidirectional_decoder_ : bool) : Py Self :=
  embedding_ <- new_layer (init_embedding init) ;;
  encoder_ <- new_layer (init_encoder init) ;;
  decoder_ <- new_layer (init_decoder init) ;;
  decoder_backward_ <-
    (if bidirectional_decoder_
     then d <- deepcopy decoder_ ;; ret (Some d)
     else ret None) ;;
  postnet_ <- new_layer (init_postnet init) ;;
  last_linear_ <- new_layer (init_last_linear init) ;;
  speaker_project_mel_ <-
    (if 1 <? num_speakers_
     then l <- new_layer (init_speaker_project_mel init) ;;
          modify without_speaker ;;
          ret (Some l)
     else ret None) ;;
  gst_layer_ <-
    (if gst_
     then l <- new_layer (init_gst_layer init) ;; ret (Some l)
     else ret None) ;;
  ret {| gst := gst_; num_speakers := num_speakers_;
         bidirectional_decoder := bidirectional_decoder_;
         embedding := embedding_; encoder := encoder_;
         decoder := decoder_; decoder_backward := decoder_backward_;
         postnet := postnet_; last_linear := last_linear_;
         speaker_project_mel := speaker_project_mel_;
         gst_layer := gst_layer_ |}.

Definition _init_states : Py unit := modify without_speaker.

Definition set_speaker_embeddings_projected (t : Tensor) : Py unit :=
  modify (fun h => {| store := store h;
                      speaker_embeddings := speaker_embeddings h;
                      speaker_embeddings_projected := Some t |}).

Definition _concat_speaker_embedding (outputs speaker_embeddings_ : Tensor)
    : Tensor :=
  expand_cat torch outputs speaker_embeddings_.

(** Applying a layer to an input reads the layer's parameters. *)
Definition apply_layer (f : list Tensor -> Tensor -> Tensor) (l : Layer)
    (x : Tensor) : Py Tensor :=
  h <- get ;;
  ret (f (values_of h l) x).

Definition compute_gst (self : Self) (inputs mel_specs : Tensor)
    : Py (Tensor * Tensor) :=
  layer <- attr (gst_layer self) ;;
  gst_outputs <- apply_layer (GST torch) layer mel_specs ;;
  let inputs := _concat_speaker_embedding inputs gst_outputs in
  ret (inputs, gst_outputs).

Definition _backward_inference (self : Self)
    (mel_specs encoder_outputs mask : Tensor) : Py (Tensor * Tensor) :=
  layer <- attr (decoder_backward self) ;;
  flipped <- lift (flip_dim1 mel_specs) ;;
  h <- get ;;
  emit (CallDecoder decoder_backward_ layer encoder_outputs flipped mask
          (speaker_embeddings_projected h)) ;;
  let '(decoder_outputs_b, alignments_b, _) :=
    Decoder torch (values_of h layer) encoder_outputs flipped mask
      (speaker_embeddings_projected h) in
  let decoder_outputs_b := transpose_1_2 torch decoder_outputs_b in
  ret (decoder_outputs_b, alignments_b).

(** [Tacotron.forward]: four outputs, and the two of the backward
    decoder when [bidirectional_decoder] is set. *)
Definition forward (self : Self)
    (characters text_lengths mel_specs : Tensor)
    (speaker_embeddings_ : option Tensor)
    : Py (Tensor * Tensor * Tensor * Tensor * option (Tensor * Tensor)) :=
  _init_states ;;
  let mask := sequence_mask torch text_lengths in
  inputs <- apply_layer (Embedding torch) (embedding self) characters ;;
  encoder_outputs <- apply_layer (Encoder torch) (encoder self) inputs ;;
  r <- (if gst self
        then r <- compute_gst self encoder_outputs mel_specs ;;
             ret (r.1, Some r.2)
        else ret (encoder_outputs, None)) ;;
  let '(encoder_outputs, gts_embedding) := r in
  encoder_outputs <-
    match speaker_embeddings_ with
    | Some spk =>
        let encoder_outputs :=
          transpose_0_1 torch
            (_concat_speaker_embedding
               (transpose_0_1 torch encoder_outputs) spk) in
        project <- attr (speaker_project_mel self) ;;
        (if gst self then
           g <- match gts_embedding with
                | Some g => ret g
                | None => raise UnboundLocalError
                end ;;
           p <- apply_layer (speaker_project torch) project
                  (_concat_speaker_embedding (transpose_0_1 torch g) spk) ;;
           set_speaker_embeddings_projected
             (squeeze_1 torch (transpose_0_1 torch p))
         else
           p <- apply_layer (speaker_project torch) project spk ;;
           set_speaker_embeddings_projected (squeeze_1 torch p)) ;;
        ret encoder_outputs
    | None => ret encoder_outputs
    end ;;
  h <- get ;;
  emit (CallDecoder decoder_ (decoder self) encoder_outputs mel_specs mask
          (speaker_embeddings_projected h)) ;;
  let '(decoder_outputs, alignments, stop_tokens) :=
    Decoder torch (values_of h (decoder self)) encoder_outputs mel_specs
      mask (speaker_embeddings_projected h) in
  postnet_outputs <- apply_layer (PostCBHG torch) (postnet self)
                       decoder_outputs ;;
  postnet_outputs <- apply_layer (Linear torch) (last_linear self)
                       postnet_outputs ;;
  let decoder_outputs := transpose_1_2 torch decoder_outputs in
  if bidirectional_decoder self then
    b <- _backward_inference self mel_specs encoder_outputs mask ;;
    ret (decoder_outputs, postnet_outputs, alignments, stop_tokens, Some b)
  else
    ret (decoder_outputs, postnet_outputs, alignments, stop_tokens, None).

(** [Tacotron.inference] *)
Definition inference (self : Self) (characters : Tensor)
    (speaker_embedding style_mel : option Tensor)
    : Py (Tensor * Tensor * Tensor * Tensor) :=
  inputs <- apply_layer (Embedding torch) (embedding self) characters ;;
  _init_states ;;
  encoder_outputs <- apply_layer (Encoder torch) (encoder self) inputs ;;
  (* if self.gst and style_mel is not None *)
  r <- match style_mel with
       | Some mel =>
           if gst self
           then r <- compute_gst self encoder_outputs mel ;;
                ret (r.1, Some r.2)
           else ret (encoder_outputs, None)
       | None => ret (encoder_outputs, None)
       end ;;
  let '(encoder_outputs, gst_embedding) := r in
  encoder_outputs <-
    match speaker_embedding with
    | Some spk =>
        let encoder_outputs :=
          transpose_0_1 torch
            (_concat_speaker_embedding
               (transpose_0_1 torch encoder_outputs) spk) in
        project <- attr (speaker_project_mel self) ;;
        (* if self.gst and style_mel is not None: gst_embedding is bound *)
        (match gst_embedding with
         | Some g =>
             p <- apply_layer (speaker_project torch) project
                    (_concat_speaker_embedding (transpose_0_1 torch g) spk) ;;
             set_speaker_embeddings_projected
               (squeeze_1 torch (transpose_0_1 torch p))
         | None =>
             p <- apply_layer (speaker_project torch) project spk ;;
             set_speaker_embeddings_projected (squeeze_1 torch p)
         end) ;;
        ret encoder_outputs
    | None => ret encoder_outputs
    end ;;
  h <- get ;;
  emit (CallDecoderInference decoder_ (decoder self) encoder_outputs
          (speaker_embeddings_projected h)) ;;
  let '(decoder_outputs, alignments, stop_tokens) :=
    Decoder_inference torch (values_of h (decoder self)) encoder_outputs
      (speaker_embeddings_projected h) in
  postnet_outputs <- apply_layer (PostCBHG torch) (postnet self)
                       decoder_outputs ;;
  postnet_outputs <- apply_layer (Linear torch) (last_linear self)
                       postnet_outputs ;;
  let decoder_outputs := transpose_1_2 torch decoder_outputs in
  ret (decoder_outputs, postnet_outputs, alignments, stop_tokens).
End Methods.

End Tacotron.

(** * Concrete runs *)

Module Samples.
Import TrainGlowTTS.

Definition tensor (shape : list nat) (data : Z) : Tensor :=
  {| t_shape := shape; t_data := data |}.

(** A model freshly built: three parameters, two flows of which the first
    is an activation normalisation. *)
Definition fresh_state : gmap string Tensor :=
  {[ "encoder.emb.weight" := tensor [10; 4]%nat 0;
     "decoder.flows.0.logs" := tensor [1; 80; 1]%nat 0;
     "duration_predictor.proj.bias" := tensor [1]%nat 0 ]}.

Definition fresh_flows : list Flow :=
  [ {| has_set_ddi := true; ddi := false |};
    {| has_set_ddi := false; ddi := false |} ].

(** A checkpoint of an older architecture: the embedding has another
    shape, one parameter has gone and one is unknown to the new model. *)
Definition old_state : gmap string Tensor :=
  {[ "encoder.emb.weight" := tensor [12; 4]%nat 7;
     "decoder.flows.0.logs" := tensor [1; 80; 1]%nat 8;
     "postnet.bias" := tensor [1]%nat 9 ]}.

Definition old_checkpoint (step : Z) : Checkpoint :=
  {| ck_model := old_state;
     ck_optimizer :=
       {| opt_state := OptLoaded (parameter_shapes old_state);
          param_groups := [ {| pg_nparams := 3; pg_lr := FFinite (1 # 2000);
                               pg_initial_lr := None |} ] |};
     ck_step := step;
     ck_amp := None |}.

(** A checkpoint of the same architecture. *)
Definition trained_state : gmap string Tensor :=
  {[ "encoder.emb.weight" := tensor [10; 4]%nat 7;
     "decoder.flows.0.logs" := tensor [1; 80; 1]%nat 8;
     "duration_predictor.proj.bias" := tensor [1]%nat 9 ]}.

Definition same_checkpoint (step : Z) : Checkpoint :=
  {| ck_model := trained_state;
     ck_optimizer :=
       {| opt_state := OptLoaded (parameter_shapes trained_state);
          param_groups := [ {| pg_nparams := 3; pg_lr := FFinite (1 # 2000);
                               pg_initial_lr := None |} ] |};
     ck_step := step;
     ck_amp := None |}.

Definition config (noam : bool) (amp_level : option string) (epochs : nat)
    : Config :=
  {| c_lr := FFinite (1 # 1000);
     c_noam_schedule := noam;
     c_warmup_steps := 4000;
     c_reinit_layers := [];
     c_apex_amp_level := amp_level;
     c_epochs := epochs;
     c_print_step := 25;
     c_tb_plot_step := 100;
     c_save_step := 1000;
     c_checkpoint := true;
     c_tb_model_param_stats := false;
     c_run_eval := false;
     c_print_eval := false;
     c_test_delay_epochs := 0;
     c_test_sentences_file := None;
     c_use_speaker_embedding := true;
     c_use_external_speaker_embedding_file := false;
     c_use_gst := false;
     c_style_wav_for_test := None;
     c_speaker_balancer_batch := false;
     c_r := 1;
     c_output_path := "out";
     c_run_name := "glow";
     |}.

Definition arguments (continue_ restore config_ : string) (rank_ : Z)
    : Args :=
  {| continue_path := continue_; restore_path := restore;
     config_path := config_; debug := false; rank := rank_;
     group_id := ""; output_path := None |}.

Definition losses (loss : Float) : gmap string Float :=
  {[ "loss" := loss; "log_mle" := loss; "loss_dur" := FFinite 0 ]}.

(** Collaborators that answer the same at every step; the averages kept
    follow the newest update. *)
Definition externals (gpus : Z) (files : list (string * Z))
    (conf : Answer Config) (checkpoint : Answer Checkpoint)
    (batches : list Batch) (forward_ : Answer ForwardOut) (loss : Float)
    (synthesis : nat -> Answer unit) : Externals :=
  {| num_gpus := gpus;
     use_cuda := false;
     glob_glob := fun _ => map fst files;
     os_path_getctime := fun p =>
       match list_find (fun f => f.1 = p) files with
       | Some (_, f) => f.2
       | None => 0
       end;
     load_config := fun _ => conf;
     check_config_tts := fun _ => Returns tt;
     create_experiment_folder := fun o n _ => os_path_join o n;
     ext_audio_processor := Returns tt;
     ext_setup_model := Returns (fresh_state, fresh_flows, 3%nat);
     torch_load := fun _ => checkpoint;
     ext_loader := fun _ _ _ => batches;
     ext_forward := fun _ _ _ => forward_;
     ext_criterion := fun _ _ _ => Returns (losses loss);
     ext_backward := fun _ _ => Returns tt;
     ext_check_update := fun _ => Returns (loss, negb (isfinite loss));
     ext_align_error := fun _ => FFinite (1 # 2);
     ext_reduce_tensor := fun v _ => v;
     ext_avg_values := fun updates => default ∅ (last updates);
     ext_inference := fun _ _ => Returns tt;
     ext_diagnostics := fun _ _ => Returns tt;
     ext_read_sentences := fun _ => Returns [];
     ext_pick_speaker_embedding := Returns tt;
     ext_synthesis := fun _ idx _ => synthesis idx;
     ext_makedirs := fun _ _ => Returns tt;
     ext_save_wav := fun _ _ => Returns tt;
     ext_plot_spectrogram := fun _ _ => Returns tt;
     ext_plot_alignment := fun _ _ => Returns tt |}.

Definition world (folders : list string) : World :=
  {| model_state := ∅; model_flows := []; model_training := false;
     model_wrapped := false;
     optimizer := {| opt_state := OptEmpty; param_groups := [] |};
     dirs := list_to_set folders |}.

Definition batch (n : Z) : Batch := {| batch_id := n |}.
Definition output (n : Z) : ForwardOut := {| fo_id := n |}.

(** The world once [main] has built model and optimizer. *)
Definition built_world : World :=
  {| model_state := fresh_state; model_flows := fresh_flows;
     model_training := false; model_wrapped := false;
     optimizer := RAdam 3 (FFinite (1 # 1000));
     dirs := ∅ |}.

Definition plain_config : Config := config true None 1.
Definition plain_args : Args := arguments "" "" "config.json" 0.

(** A first run on one GPU, one batch an epoch, every loss 1. *)
Definition fresh_externals : Externals :=
  externals 1 [] (Returns plain_config) (Returns (same_checkpoint 0))
    [batch 1] (Returns (output 1)) (FFinite 1) (fun _ => Returns tt).

(** The same run with a criterion that returns NaN. *)
Definition nan_externals : Externals :=
  externals 1 [] (Returns plain_config) (Returns (same_checkpoint 0))
    [batch 1] (Returns (output 1)) FNaN (fun _ => Returns tt).

(** The same run interrupted by the user during the first forward pass,
    and one in which that pass fails. *)
Definition interrupted_externals : Externals :=
  externals 1 [] (Returns plain_config) (Returns (same_checkpoint 0))
    [batch 1] (Raises KeyboardInterrupt) (FFinite 1) (fun _ => Returns tt).

Definition failing_externals : Externals :=
  externals 1 [] (Returns plain_config) (Returns (same_checkpoint 0))
    [batch 1] (Raises RuntimeError) (FFinite 1) (fun _ => Returns tt).

(** The worker of rank 1 of a run on two GPUs, with apex. *)
Definition distributed_config : Config := config true (Some "O1") 1.
Definition rank1_args : Args := arguments "" "" "config.json" 1.
Definition distributed_externals : Externals :=
  externals 2 [] (Returns distributed_config) (Returns (same_checkpoint 0))
    [batch 1] (Returns (output 1)) (FFinite 1) (fun _ => Returns tt).

(** Fine-tuning from a checkpoint of an older architecture, saved at step
    5. *)
Definition restore_args : Args :=
  arguments "" "old/checkpoint_5.pth.tar" "config.json" 0.
Definition restore_externals : Externals :=
  externals 1 [] (Returns plain_config) (Returns (old_checkpoint 5))
    [batch 1] (Returns (output 1)) (FFinite 1) (fun _ => Returns tt).

(** The same fine-tuning with a constant learning rate: [noam_schedule]
    is off, so the optimizer state of the checkpoint is loaded. *)
Definition constant_lr_config : Config := config false None 1.
Definition stale_externals : Externals :=
  externals 1 [] (Returns constant_lr_config) (Returns (old_checkpoint 5))
    [batch 1] (Returns (output 1)) (FFinite 1) (fun _ => Returns tt).

(** Continuing in a folder with three checkpoints. *)
Definition continue_args : Args := arguments "out/run" "" "other.json" 0.
Definition continue_externals : Externals :=
  externals 1
    [ ("out/run/checkpoint_10.pth.tar", 100);
      ("out/run/best_model.pth.tar", 250);
      ("out/run/checkpoint_20.pth.tar", 200) ]
    (Returns plain_config) (Returns (same_checkpoint 20))
    [batch 1] (Returns (output 1)) (FFinite 1) (fun _ => Returns tt).

(** Variations of [plain_config]. *)
Definition config_with (print_step : Z) (run_eval use_speaker_embedding : bool)
    : Config :=
  {| c_lr := c_lr plain_config;
     c_noam_schedule := c_noam_schedule plain_config;
     c_warmup_steps := c_warmup_steps plain_config;
     c_reinit_layers := c_reinit_layers plain_config;
     c_apex_amp_level := c_apex_amp_level plain_config;
     c_epochs := c_epochs plain_config;
     c_print_step := print_step;
     c_tb_plot_step := c_tb_plot_step plain_config;
     c_save_step := c_save_step plain_config;
     c_checkpoint := c_checkpoint plain_config;
     c_tb_model_param_stats := c_tb_model_param_stats plain_config;
     c_run_eval := run_eval;
     c_print_eval := c_print_eval plain_config;
     c_test_delay_epochs := c_test_delay_epochs plain_config;
     c_test_sentences_file := c_test_sentences_file plain_config;
     c_use_speaker_embedding := use_speaker_embedding;
     c_use_external_speaker_embedding_file :=
       c_use_external_speaker_embedding_file plain_config;
     c_use_gst := c_use_gst plain_config;
     c_style_wav_for_test := c_style_wav_for_test plain_config;
     c_speaker_balancer_batch := c_speaker_balancer_batch plain_config;
     c_r := c_r plain_config;
     c_output_path := c_output_path plain_config;
     c_run_name := c_run_name plain_config |}.

(** Two GPUs and no apex. *)
Definition no_apex_externals : Externals :=
  externals 2 [] (Returns plain_config) (Returns (same_checkpoint 0))
    [batch 1] (Returns (output 1)) (FFinite 1) (fun _ => Returns tt).

(** A run of three batches an epoch. *)
Definition three_batch_externals : Externals :=
  externals 1 [] (Returns plain_config) (Returns (same_checkpoint 0))
    [batch 1; batch 2; batch 3] (Returns (output 1)) (FFinite 1)
    (fun _ => Returns tt).

(** A run whose loaders yield no batch. *)
Definition no_batch_externals : Externals :=
  externals 1 [] (Returns plain_config) (Returns (same_checkpoint 0))
    [] (Returns (output 1)) (FFinite 1) (fun _ => Returns tt).

(** A configuration file that cannot be read. *)
Definition no_config_externals : Externals :=
  externals 1 [] (Raises (PyException "FileNotFoundError"))
    (Returns (same_checkpoint 0))
    [batch 1] (Returns (output 1)) (FFinite 1) (fun _ => Returns tt).

(** Two checkpoints written in the same instant, then an older one. *)
Definition tied_externals : Externals :=
  externals 1
    [ ("out/run/checkpoint_10.pth.tar", 300);
      ("out/run/best_model.pth.tar", 300);
      ("out/run/checkpoint_5.pth.tar", 100) ]
    (Returns plain_config) (Returns (same_checkpoint 10))
    [batch 1] (Returns (output 1)) (FFinite 1) (fun _ => Returns tt).

(** Restoring a checkpoint of the same architecture. *)
Definition same_externals : Externals :=
  externals 1 [] (Returns plain_config) (Returns (same_checkpoint 5))
    [batch 1] (Returns (output 1)) (FFinite 1) (fun _ => Returns tt).

(** Test sentences of which the second and the fourth fail. *)
Definition flaky_externals : Externals :=
  externals 1 [] (Returns plain_config) (Returns (same_checkpoint 0))
    [batch 1] (Returns (output 1)) (FFinite 1)
    (fun idx => if Nat.odd idx then Raises RuntimeError else Returns tt).

End Samples.

Module TacotronSamples.
Import Tacotron.

(** Layers that let their input through, a decoder that returns the
    target it is given as its frames and the memory as its alignments. *)
Definition toy_torch : Torch :=
  {| Embedding := fun _ x => x;
     Encoder := fun _ x => x;
     Decoder := fun _ memory mel mask _ => (mel, memory, mask);
     Decoder_inference := fun _ memory _ => (memory, memory, memory);
     PostCBHG := fun _ x => x;
     Linear := fun _ x => x;
     speaker_project := fun _ x => x;
     GST := fun _ x => x;
     sequence_mask := fun x => x;
     expand_cat := fun a b => Stack [a; b];
     transpose_0_1 := fun x => x;
     transpose_1_2 := fun x => x;
     squeeze_1 := fun x => x |}.

Definition toy_init : Init :=
  {| init_embedding := [Scalar 1];
     init_encoder := [Scalar 2];
     init_decoder := [Scalar 3; Scalar 4];
     init_postnet := [Scalar 5];
     init_last_linear := [Scalar 6];
     init_speaker_project_mel := [Scalar 7];
     init_gst_layer := [Scalar 8] |}.

Definition empty_heap : Heap :=
  {| store := []; speaker_embeddings := None;
     speaker_embeddings_projected := None |}.

(** One utterance of three frames. *)
Definition three_frames : Tensor :=
  Stack [Stack [Scalar 10; Scalar 20; Scalar 30]].

Definition characters : Tensor := Stack [Stack [Scalar 1; Scalar 2]].
Definition text_lengths : Tensor := Stack [Scalar 2].

End TacotronSamples.

(** * [setup_loader]: the speaker balancer *)

Module SpeakerBalancer.

(** [bind] for a computation with no state and no log. *)
Definition and_then {A B} (o : Outcome A) (f : A -> Outcome B) : Outcome B :=
  match o with
  | Ok a => f a
  | Raise e => Raise e
  | Exited n => Exited n
  end.

(** [[f(x) for x in xs]] *)
Fixpoint comprehension {A B} (f : A -> Outcome B) (xs : list A)
    : Outcome (list B) :=
  match xs with
  | [] => Ok []
  | x :: rest =>
      and_then (f x) (fun y =>
      and_then (comprehension f rest) (fun ys => Ok (y :: ys)))
  end.

(** [np.unique(xs).tolist()]: the distinct names, sorted. *)
Definition np_unique (xs : list string) : list string :=
  merge_sort String.le (remove_dups xs).

(** [xs.index(s)]: the first position of [s]; [ValueError] when there is
    none. *)
Fixpoint index_from (k : nat) (xs : list string) (s : string) : Outcome nat :=
  match xs with
  | [] => Raise ValueError
  | x :: rest => if String.eqb x s then Ok k else index_from (S k) rest s
  end.

Definition py_index (xs : list string) (s : string) : Outcome nat :=
  index_from 0 xs s.

(** [len(np.where(speaker_names == s)[0])] *)
Definition count_speaker (speaker_names : list string) (s : string) : nat :=
  length (List.filter (String.eqb s) speaker_names).

(** An entry of [1. / speaker_count]: the float one over a count. *)
Inductive Weight := OneOver (count : nat).

(** [weight[i]] *)
Definition array_get {A} (xs : list A) (i : nat) : Outcome A :=
  match xs !! i with
  | Some x => Ok x
  | None => Raise IndexError
  end.

(** The weights [setup_loader] hands to [WeightedRandomSampler], from the
    speaker names of the items of the dataset. *)
Definition samples_weight (speaker_names : list string)
    : Outcome (list Weight) :=
  let unique_speaker_names := np_unique speaker_names in
  and_then (comprehension (py_index unique_speaker_names) speaker_names)
    (fun speaker_ids =>
  (* count number samples by speaker *)
  let speaker_count :=
    map (count_speaker speaker_names) unique_speaker_names in
  (* create weight *)
  let weight := map OneOver speaker_count in
  comprehension (array_get weight) speaker_ids).

End SpeakerBalancer.

(** * Facts about the monad *)

Section MonadFacts.
Context {S E : Type}.
Implicit Types (P : E -> Prop).

Lemma run_bind {A B} (m : M S E A) (f : A -> M S E B) s :
  bind m f s =
  match outcome_of (m s) with
  | Ok a =>
      (outcome_of (f a (state_of (m s))), state_of (f a (state_of (m s))),
       log_of (m s) ++ log_of (f a (state_of (m s))))
  | Raise e => (Raise e, state_of (m s), log_of (m s))
  | Exited n => (Exited n, state_of (m s), log_of (m s))
  end.
Proof.
  unfold bind, outcome_of, state_of, log_of.
  destruct (m s) as [[[a|e|n] s1] l1]; simpl; try reflexivity.
  destruct (f a s1) as [[r s2] l2]; reflexivity.
Qed.

Lemma log_bind {A B} (m : M S E A) (f : A -> M S E B) s :
  log_of (bind m f s) =
  log_of (m s) ++
  match outcome_of (m s) with
  | Ok a => log_of (f a (state_of (m s)))
  | _ => []
  end.
Proof.
  rewrite run_bind. destruct (outcome_of (m s)); simpl;
    unfold log_of; simpl; rewrite ?app_nil_r; reflexivity.
Qed.

Lemma run_bind_ok {A B} (m : M S E A) (f : A -> M S E B) s a s1 l1 :
  m s = (Ok a, s1, l1) ->
  bind m f s = (outcome_of (f a s1), state_of (f a s1), l1 ++ log_of (f a s1)).
Proof. intros H. rewrite run_bind, H. reflexivity. Qed.

Lemma run_try_except {A} (body : M S E A) catches handler s :
  try_except body catches handler s =
  match outcome_of (body s) with
  | Raise e =>
      if catches e
      then (outcome_of (handler e (state_of (body s))),
            state_of (handler e (state_of (body s))),
            log_of (body s) ++ log_of (handler e (state_of (body s))))
      else body s
  | _ => body s
  end.
Proof.
  unfold try_except, outcome_of, state_of, log_of.
  destruct (body s) as [[[a|e|n] s1] l1]; simpl; try reflexivity.
  destruct (catches e); [|reflexivity].
  destruct (handler e s1) as [[r s2] l2]; reflexivity.
Qed.

Lemma emits_only_ret P {A} (a : A) : emits_only P (ret a : M S E A).
Proof. intros s. constructor. Qed.

Lemma emits_only_raise P {A} e : emits_only P (raise e : M S E A).
Proof. intros s. constructor. Qed.

Lemma emits_only_os__exit P {A} n : emits_only P (os__exit n : M S E A).
Proof. intros s. constructor. Qed.

Lemma emits_only_get P : emits_only P (get : M S E S).
Proof. intros s. constructor. Qed.

Lemma emits_only_put P s' : emits_only P (put s' : M S E unit).
Proof. intros s. constructor. Qed.

Lemma emits_only_modify P f : emits_only P (modify f : M S E unit).
Proof. intros s. constructor. Qed.

Lemma emits_only_lift P {A} (o : Outcome A) : emits_only P (lift o : M S E A).
Proof. intros s. constructor. Qed.

Lemma emits_only_emit P ev : P ev -> emits_only P (emit ev : M S E unit).
Proof. intros H s. repeat constructor. exact H. Qed.

Lemma emits_only_bind P {A B} (m : M S E A) (f : A -> M S E B) :
  emits_only P m -> (forall a, emits_only P (f a)) -> emits_only P (bind m f).
Proof.
  intros Hm Hf s. rewrite log_bind. apply Forall_app. split; [apply Hm|].
  destruct (outcome_of (m s)); [apply Hf | constructor | constructor].
Qed.

Lemma emits_only_try_except P {A} (body : M S E A) catches handler :
  emits_only P body -> (forall e, emits_only P (handler e)) ->
  emits_only P (try_except body catches handler).
Proof.
  intros Hb Hh s. rewrite run_try_except.
  destruct (outcome_of (body s)); try apply Hb.
  destruct (catches e); [|apply Hb].
  apply Forall_app. split; [apply Hb | apply Hh].
Qed.

Lemma emits_only_when P b (m : M S E unit) :
  emits_only P m -> emits_only P (when b m).
Proof. destruct b; [trivial | intros _; apply emits_only_ret]. Qed.

Lemma emits_only_for_each P {A} (xs : list A) (body : A -> M S E unit) :
  (forall x, emits_only P (body x)) -> emits_only P (for_each xs body).
Proof.
  intros Hb. induction xs as [|x xs IH]; simpl.
  - apply emits_only_ret.
  - apply emits_only_bind; [apply Hb | intros _; exact IH].
Qed.

Lemma emits_only_fold_each P {A B} (xs : list A) (acc : B)
    (body : B -> A -> M S E B) :
  (forall b x, emits_only P (body b x)) -> emits_only P (fold_each xs acc body).
Proof.
  intros Hb. revert acc. induction xs as [|x xs IH]; intros acc; simpl.
  - apply emits_only_ret.
  - apply emits_only_bind; [apply Hb | intros b; apply IH].
Qed.

Lemma log_bind_app {A B} (m : M S E A) (f : A -> M S E B) s :
  exists after, log_of (bind m f s) = log_of (m s) ++ after.
Proof. rewrite log_bind. eexists. reflexivity. Qed.

Lemma bind_ok_let {A B} (m : M S E A) (f : A -> M S E B) s a s1 l1 :
  m s = (Ok a, s1, l1) ->
  bind m f s = let '(r, s2, l2) := f a s1 in (r, s2, l1 ++ l2).
Proof. intros H. unfold bind. rewrite H. reflexivity. Qed.

Lemma for_each_silent_run {A} (xs : list A) (body : A -> M S E unit) :
  (forall x s, exists l, body x s = (Ok tt, s, l)) ->
  forall s, exists l, for_each xs body s = (Ok tt, s, l).
Proof.
  intros Hb. induction xs as [|x xs IH]; intros s; simpl.
  - eexists; reflexivity.
  - destruct (Hb x s) as [l1 H1]. destruct (IH s) as [l2 H2].
    exists (l1 ++ l2). unfold bind. rewrite H1, H2. reflexivity.
Qed.
End MonadFacts.

Lemma filter_quiet {A} (p : A -> bool) l :
  Forall (fun e => p e = false) l -> List.filter p l = [].
Proof.
  induction 1 as [|e l He _ IH]; simpl; [reflexivity|]. rewrite He. exact IH.
Qed.

Lemma if_same {A} (b : bool) (x : A) : (if b then x else x) = x.
Proof. destruct b; reflexivity. Qed.

(** Breaks a goal [emits_only P m] down along the structure of [m]. *)
Ltac emits_only_step :=
  lazymatch goal with
  | |- emits_only _ (bind _ _) => apply emits_only_bind; [|intros; cbv beta]
  | |- emits_only _ (ret _) => apply emits_only_ret
  | |- emits_only _ (raise _) => apply emits_only_raise
  | |- emits_only _ (os__exit _) => apply emits_only_os__exit
  | |- emits_only _ get => apply emits_only_get
  | |- emits_only _ (put _) => apply emits_only_put
  | |- emits_only _ (modify _) => apply emits_only_modify
  | |- emits_only _ (lift _) => apply emits_only_lift
  | |- emits_only _ (emit _) => apply emits_only_emit; first [reflexivity | done]
  | |- emits_only _ (when _ _) => apply emits_only_when
  | |- emits_only _ (try_except _ _ _) =>
      apply emits_only_try_except; [|intros; cbv beta]
  | |- emits_only _ (for_each _ _) => apply emits_only_for_each; intros; cbv beta
  | |- emits_only _ (fold_each _ _ _) =>
      apply emits_only_fold_each; intros; cbv beta
  | |- emits_only _ (if ?b then _ else _) => destruct b
  | |- emits_only _ (match ?x with _ => _ end) => destruct x
  end.

Module TrainGlowTTSFacts.
Import TrainGlowTTS.
#[local] Open Scope Z_scope.

Create HintDb script discriminated.
#[export] Hint Unfold call dict_get py_mod setup_loader set_ddi_flows
  data_depended_init optimizer_step current_lr slice_first reduce_key reduce_losses
  train_step train evaluate_step synthesize_one synthesize_test_sentences
  evaluate save_best_model model_load_state_dict optimizer_load_state_dict
  restore main_setup main_epoch main_run main sys_exit
  remove_experiment_folder : script.

Ltac emits_only_auto :=
  repeat first [ emits_only_step | progress autounfold with script ].

(** Evaluates one step of a run without unfolding the state. *)
Ltac run_simpl :=
  cbn [outcome_of state_of log_of get put modify emit ret raise lift
       TrainGlowTTS.call fst snd app].

(** Runs a computation as far as its calls are known. *)
Ltac run_cbn :=
  cbn [bind when outcome_of state_of log_of get put modify emit ret raise lift
       TrainGlowTTS.call fst snd app].
Tactic Notation "run_cbn" "in" hyp(H) :=
  cbn [bind when outcome_of state_of log_of get put modify emit ret raise lift
       TrainGlowTTS.call fst snd app] in H.

(** ** The set-up of [main] *)

Lemma main_setup_quiet ext c args :
  emits_only (fun e => is_ddi_event e = false /\ is_optimizer_step e = false)
    (main_setup ext c args).
Proof. emits_only_auto. Qed.

(** ** The data-dependent initialisation *)

Lemma set_ddi_flows_run on w :
  exists l,
    set_ddi_flows on w =
      (Ok tt,
       set_model_flows (map (fun f =>
         if has_set_ddi f then {| has_set_ddi := true; ddi := on |} else f)) w,
       l)
    /\ Forall (fun e => is_ddi_print e = false /\ is_forward e = false
                        /\ is_optimizer_step e = false) l.
Proof.
  destruct (for_each_silent_run (S:=World) (enumerate (model_flows w))
              (fun '(i, f) => when (has_set_ddi f) (emit (EvSetDDI i on))))
    with (s := w) as [l Hl].
  { intros [i f] s. destruct (has_set_ddi f); eexists; reflexivity. }
  exists l. split.
  - unfold set_ddi_flows, bind, get, modify. rewrite Hl.
    rewrite app_nil_r. reflexivity.
  - assert (H : emits_only (fun e => is_ddi_print e = false /\ is_forward e = false
                        /\ is_optimizer_step e = false)
             (for_each (enumerate (model_flows w))
                (fun '(i, f) => when (has_set_ddi f) (emit (EvSetDDI i on)))
              : M World Event unit)).
    { emits_only_auto. }
    specialize (H w). rewrite Hl in H. exact H.
Qed.

Lemma setup_loader_train_run ext c verbose w :
  exists l,
    setup_loader ext c false verbose w =
      (Ok (Some (ext_loader ext false verbose)), w, l)
    /\ Forall (fun e => is_ddi_print e = false /\ is_forward e = false
                        /\ is_optimizer_step e = false) l.
Proof.
  unfold setup_loader. simpl.
  match goal with |- context [when ?b _] => destruct b end;
    eexists; (split; [reflexivity | repeat constructor]).
Qed.

(** The log of the initialisation: the announcement, then the forward
    pass over the first batch if there is one, between events of other
    kinds. *)
Lemma data_depended_init_shape ext c w :
  exists before after,
    log_of (data_depended_init ext c w) =
      before ++ [EvPrint ddi_message] ++
      match ext_loader ext false false 0%nat with
      | [] => []
      | b :: _ => [EvForward DDI true b]
      end ++ after
    /\ Forall (fun e => is_ddi_print e = false /\ is_forward e = false
                        /\ is_optimizer_step e = false) before
    /\ Forall (fun e => is_ddi_print e = false /\ is_forward e = false
                        /\ is_optimizer_step e = false) after.
Proof.
  destruct (set_ddi_flows_run true w) as (l1 & H1 & F1).
  set (w1 := set_model_flows _ w) in H1.
  destruct (setup_loader_train_run ext c false w1) as (l2 & H2 & F2).
  destruct (set_ddi_flows_run false (set_model_training true w1))
    as (l3 & H3 & F3).
  unfold data_depended_init.
  rewrite run_bind. run_simpl. rewrite !if_same.
  rewrite (run_bind_ok _ _ _ _ _ _ H1). run_simpl.
  rewrite (run_bind_ok _ _ _ _ _ _ H2). run_simpl.
  rewrite run_bind. run_simpl. rewrite run_bind. run_simpl.
  exists (l1 ++ l2).
  destruct (ext_loader ext false false 0%nat) as [|data rest].
  - exists l3. split; [|split; [apply Forall_app; split; assumption | exact F3]].
    rewrite run_bind. run_simpl. rewrite run_bind. run_simpl.
    rewrite if_same, H3. run_simpl. rewrite <- !app_assoc. reflexivity.
  - unfold format_data. rewrite run_bind. run_simpl.
    rewrite run_bind. run_simpl. rewrite run_bind.
    destruct (ext_forward ext DDI 0 data) as [out|e]; run_simpl.
    + exists l3. split; [|split; [apply Forall_app; split; assumption | exact F3]].
      rewrite run_bind. run_simpl.
      rewrite if_same, H3. run_simpl. rewrite <- !app_assoc. reflexivity.
    + exists []. split; [|split; [apply Forall_app; split; assumption | constructor]].
      rewrite <- !app_assoc. reflexivity.
Qed.

Lemma data_depended_init_log ext c w :
  let ddi := log_of (data_depended_init ext c w) in
  List.filter is_ddi_print ddi = [EvPrint ddi_message]
  /\ List.filter is_forward ddi =
       match ext_loader ext false false 0%nat with
       | [] => []
       | b :: _ => [EvForward DDI true b]
       end
  /\ Forall (fun e => is_optimizer_step e = false) ddi.
Proof.
  intros ddi. subst ddi.
  destruct (data_depended_init_shape ext c w) as (l1 & l2 & -> & F1 & F2).
  rewrite !List.filter_app.
  rewrite (filter_quiet is_ddi_print l1), (filter_quiet is_forward l1),
    (filter_quiet is_ddi_print l2), (filter_quiet is_forward l2);
    try (eapply Forall_impl; [eassumption | simpl; tauto]).
  repeat split.
  - destruct (ext_loader ext false false 0%nat); reflexivity.
  - destruct (ext_loader ext false false 0%nat); reflexivity.
  - repeat (apply Forall_app; split);
      try (eapply Forall_impl; [eassumption | simpl; tauto]).
    + repeat constructor.
    + destruct (ext_loader ext false false 0%nat); repeat constructor.
Qed.

Lemma main_run_log ext c args OUT amp step sched w :
  exists rest,
    log_of (main_run ext c args OUT amp step sched w) =
      log_of ((if step =? 0 then data_depended_init ext c else ret tt) w)
      ++ rest
    /\ Forall (fun e => is_ddi_event e = false) rest
    /\ (forall e,
          outcome_of ((if step =? 0 then data_depended_init ext c else ret tt)
                        w) = Raise e ->
          outcome_of (main_run ext c args OUT amp step sched w) = Raise e
          /\ rest = []).
Proof.
  unfold main_run. rewrite log_bind. eexists.
  split; [reflexivity|]. split.
  - destruct (outcome_of _); [|constructor..].
    match goal with
    | |- Forall ?P (log_of (?m ?s)) => enough (H : emits_only P m) by apply H
    end.
    emits_only_auto.
  - intros e He. rewrite run_bind, He. split; reflexivity.
Qed.

(** C1.  Once the set-up of [main] has returned with the restored step,
    the log of [main] is the log of the set-up, then that of the
    data-dependent initialisation, then the rest.  Neither the set-up nor
    the rest does anything of the initialisation, and the set-up takes no
    optimizer step.  With a step other than 0 the middle part is empty.
    With step 0 it is one run of [data_depended_init], which takes no
    optimizer step, announces itself at most once and makes at most one
    forward pass, without gradient and over the first batch of its loader;
    when that run returns it has announced itself once and made that
    forward pass (none if its loader is empty); when it raises, [main] ends
    in its exception and nothing follows. *)
Theorem main_data_depended_init_iff_step_0 ext c args OUT w amp step sched :
  outcome_of (main_setup ext c args w) = Ok (amp, step, sched) ->
  let before := log_of (main_setup ext c args w) in
  let w0 := state_of (main_setup ext c args w) in
  exists ddi rest,
    log_of (main ext c args OUT w) = before ++ ddi ++ rest
    /\ Forall (fun e => is_ddi_event e = false /\ is_optimizer_step e = false)
         before
    /\ Forall (fun e => is_ddi_event e = false) rest
    /\ (step <> 0 -> ddi = [])
    /\ (step = 0 ->
        ddi = log_of (data_depended_init ext c w0)
        /\ Forall (fun e => is_optimizer_step e = false) ddi
        /\ (length (List.filter is_ddi_print ddi) <= 1)%nat
        /\ (length (List.filter is_forward ddi) <= 1)%nat
        /\ (forall e, In e (List.filter is_forward ddi) ->
              exists b later,
                ext_loader ext false false 0%nat = b :: later
                /\ e = EvForward DDI true b)
        /\ (forall a, outcome_of (data_depended_init ext c w0) = Ok a ->
              List.filter is_ddi_print ddi = [EvPrint ddi_message]
              /\ List.filter is_forward ddi =
                   match ext_loader ext false false 0%nat with
                   | [] => []
                   | b :: _ => [EvForward DDI true b]
                   end)
        /\ (forall e, outcome_of (data_depended_init ext c w0) = Raise e ->
              outcome_of (main ext c args OUT w) = Raise e /\ rest = [])).
Proof.
  intros Hsetup before w0.
  destruct (main_run_log ext c args OUT amp step sched w0)
    as (rest & Hrun & Hrest & Hraise).
  exists (log_of ((if step =? 0 then data_depended_init ext c else ret tt) w0)), rest.
  split; [|split; [|split; [|split]]].
  - unfold main. rewrite log_bind, Hsetup. fold w0. rewrite Hrun. reflexivity.
  - apply main_setup_quiet.
  - exact Hrest.
  - intros Hne. apply Z.eqb_neq in Hne. rewrite Hne. reflexivity.
  - intros ->. cbn [Z.eqb] in Hraise |- *.
    destruct (data_depended_init_log ext c w0) as (Hprint & Hforward & Hsteps).
    cbv zeta in Hprint, Hforward.
    split; [reflexivity|]. split; [exact Hsteps|].
    split; [rewrite Hprint; cbn [length]; lia|].
    split; [rewrite Hforward;
            destruct (ext_loader ext false false 0%nat); cbn [length]; lia|].
    split.
    { intros e. rewrite Hforward.
      destruct (ext_loader ext false false 0%nat) as [|b later];
        [intros []|].
      intros [<- | []]. exists b, later. split; reflexivity. }
    split; [intros a _; split; assumption|].
    intros e He. destruct (Hraise e He) as [Hout ->].
    split; [|reflexivity].
    unfold main. rewrite run_bind, Hsetup. fold w0.
    cbn [outcome_of fst]. exact Hout.
Qed.

Lemma main_data_depended_init_fresh_run :
  outcome_of (main_setup Samples.fresh_externals Samples.plain_config
                Samples.plain_args (Samples.world []))
  = Ok (false, 0, Some (MkNoamLR 4000 (-1)))
  /\ exists ddi rest,
       log_of (main Samples.fresh_externals Samples.plain_config
                 Samples.plain_args "out/glow" (Samples.world []))
       = log_of (main_setup Samples.fresh_externals Samples.plain_config
                   Samples.plain_args (Samples.world [])) ++ ddi ++ rest
       /\ List.filter is_ddi_print ddi = [EvPrint ddi_message]
       /\ List.filter is_forward ddi = [EvForward DDI true (Samples.batch 1)]
       /\ Forall (fun e => is_optimizer_step e = false) ddi
       /\ Forall (fun e => is_ddi_event e = false) rest.
Proof.
  assert (H : outcome_of (main_setup Samples.fresh_externals
                Samples.plain_config Samples.plain_args (Samples.world []))
              = Ok (false, 0, Some (MkNoamLR 4000 (-1))))
    by (vm_compute; reflexivity).
  split; [exact H|].
  destruct (main_data_depended_init_iff_step_0 Samples.fresh_externals
              Samples.plain_config Samples.plain_args "out/glow"
              (Samples.world []) false 0 (Some (MkNoamLR 4000 (-1))) H)
    as (ddi & rest & Hlog & _ & Hrest & _ & Hfresh).
  destruct (Hfresh eq_refl) as (Hddi & Hsteps & _ & _ & _ & Hreturns & _).
  assert (Hok : outcome_of (data_depended_init Samples.fresh_externals
                  Samples.plain_config
                  (state_of (main_setup Samples.fresh_externals
                               Samples.plain_config Samples.plain_args
                               (Samples.world [])))) = Ok tt)
    by (vm_compute; reflexivity).
  destruct (Hreturns tt Hok) as (Hprint & Hforward).
  exists ddi, rest. repeat split; assumption.
Defined.

(** ** The training step *)

(** [optimizer.step()] is one call, whether it returns or raises. *)
Lemma optimizer_step_run w :
  optimizer_step w
  = (if stale (optimizer w) (model_state w) then Raise RuntimeError else Ok tt,
     w, [EvOptimizerStep]).
Proof.
  unfold optimizer_step. run_cbn.
  destruct (stale (optimizer w) (model_state w)); reflexivity.
Qed.

(** C2, as amended.  [train] does not look at whether the loss is finite:
    in a training step in which the forward pass, the criterion, the
    backward pass and [check_update] return, [optimizer.step()] is called
    right after [check_update], whatever the loss and whatever
    [check_update] answers. *)
Theorem train_step_calls_optimizer_whatever_the_loss
    ext c args OUT amp sched epoch global_step keep_avg data w
    out loss_dict loss grad :
  (c_noam_schedule c = true -> is_Some sched) ->
  ext_forward ext Train (global_step + 1) data = Returns out ->
  ext_criterion ext Train (global_step + 1) out = Returns loss_dict ->
  loss_dict !! "loss" = Some loss ->
  ext_backward ext (global_step + 1) loss = Returns tt ->
  ext_check_update ext (global_step + 1) = Returns grad ->
  exists before after,
    log_of (train_step ext c args OUT amp sched epoch
              (global_step, keep_avg) data w)
    = before ++ [EvBackward loss amp; EvCheckUpdate; EvOptimizerStep] ++ after
    /\ Forall (fun e => is_optimizer_step e = false) before.
Proof.
  intros Hsched Hfwd Hcrit Hloss Hback Hcheck.
  unfold train_step, format_data.
  assert (Hlr : exists l0,
    (if c_noam_schedule c
     then match sched with
          | Some _ => emit EvSchedulerStep
          | None => raise AttributeError
          end
     else ret tt) w = (Ok tt, w, l0)
    /\ Forall (fun e => is_optimizer_step e = false) l0).
  { destruct (c_noam_schedule c).
    - destruct (Hsched eq_refl) as [s ->]. eexists.
      split; [reflexivity | repeat constructor].
    - eexists. split; [reflexivity | constructor]. }
  destruct Hlr as (l0 & Hlr & Hl0).
  rewrite (run_bind_ok _ _ _ _ _ _ Hlr). run_simpl.
  do 2 (rewrite run_bind; run_simpl).
  rewrite run_bind, Hfwd; run_simpl.
  rewrite run_bind; run_simpl.
  rewrite run_bind, Hcrit; run_simpl.
  unfold dict_get at 1. rewrite run_bind, Hloss; run_simpl.
  rewrite run_bind; run_simpl.
  rewrite run_bind, Hback; run_simpl.
  rewrite run_bind; run_simpl.
  rewrite run_bind, Hcheck; run_simpl.
  match goal with
  | |- context [log_of (bind ?m ?f ?s)] =>
      destruct (log_bind_app m f s) as [after ->]
  end.
  rewrite optimizer_step_run. run_simpl.
  exists (l0 ++ [EvZeroGrad; EvForward Train false data; EvCriterion Train]),
    after.
  split.
  - rewrite <- !app_assoc. reflexivity.
  - apply Forall_app. split; [exact Hl0 | repeat constructor].
Qed.

Lemma train_step_calls_optimizer_on_finite_loss :
  exists before after,
    log_of (train_step Samples.fresh_externals Samples.plain_config
              Samples.plain_args "out/glow" false
              (Some (MkNoamLR 4000 (-1))) 0%nat (0, [])
              (Samples.batch 1) Samples.built_world)
    = before ++ [EvBackward (FFinite 1) false; EvCheckUpdate; EvOptimizerStep]
      ++ after
    /\ Forall (fun e => is_optimizer_step e = false) before.
Proof.
  apply (train_step_calls_optimizer_whatever_the_loss
           Samples.fresh_externals Samples.plain_config Samples.plain_args
           "out/glow" false (Some (MkNoamLR 4000 (-1))) 0%nat 0 []
           (Samples.batch 1) Samples.built_world (Samples.output 1)
           (Samples.losses (FFinite 1)) (FFinite 1) (FFinite 1, false)).
  - intros _. eexists. reflexivity.
  - reflexivity.
  - reflexivity.
  - vm_compute. reflexivity.
  - reflexivity.
  - reflexivity.
Defined.

(** C2, as stated, fails: with a criterion that returns NaN the step runs
    to its end and the optimizer step is taken. *)
Lemma train_step_takes_optimizer_step_on_nan_loss :
  ext_criterion Samples.nan_externals Train 1 (Samples.output 1)
  = Returns (Samples.losses FNaN)
  /\ Samples.losses FNaN !! "loss" = Some FNaN
  /\ isfinite FNaN = false
  /\ (exists acc,
        outcome_of (train_step Samples.nan_externals Samples.plain_config
                      Samples.plain_args "out/glow" false
                      (Some (MkNoamLR 4000 (-1))) 0%nat (0, [])
                      (Samples.batch 1) Samples.built_world) = Ok acc)
  /\ log_of (train_step Samples.nan_externals Samples.plain_config
               Samples.plain_args "out/glow" false
               (Some (MkNoamLR 4000 (-1))) 0%nat (0, [])
               (Samples.batch 1) Samples.built_world)
     = [EvSchedulerStep; EvZeroGrad; EvForward Train false (Samples.batch 1);
        EvCriterion Train; EvBackward FNaN false; EvCheckUpdate;
        EvOptimizerStep].
Proof.
  split; [reflexivity|]. split; [vm_compute; reflexivity|].
  split; [reflexivity|]. split.
  - eexists. vm_compute. reflexivity.
  - vm_compute. reflexivity.
Qed.

(** C3, at the failing input: the worker of rank 1 of a run on two GPUs
    writes the best-model checkpoint at the end of the first epoch. *)
Theorem best_model_is_written_by_rank_1 :
  num_gpus Samples.distributed_externals = 2
  /\ rank Samples.rank1_args = 1
  /\ outcome_of (main Samples.distributed_externals Samples.distributed_config
                   Samples.rank1_args "out/glow" (Samples.world [])) = Ok tt
  /\ List.filter is_checkpoint_write
       (log_of (main Samples.distributed_externals Samples.distributed_config
                  Samples.rank1_args "out/glow" (Samples.world [])))
     = [EvSaveBestModel 1 "out/glow" 1].
Proof. repeat split; vm_compute; reflexivity. Qed.

(** ** Restoring a checkpoint *)

Lemma same_shape_refl t : same_shape t t = true.
Proof. unfold same_shape. apply bool_decide_eq_true. reflexivity. Qed.

Lemma lookup_copy_matching (model sd : gmap string Tensor) k :
  copy_matching model sd !! k =
  match model !! k with
  | Some v => Some match sd !! k with
                   | Some t => if same_shape v t then t else v
                   | None => v
                   end
  | None => None
  end.
Proof.
  unfold copy_matching. rewrite map_lookup_imap.
  destruct (model !! k) as [v|]; simpl; [|reflexivity].
  destruct (sd !! k) as [t|]; [destruct (same_shape v t)|]; reflexivity.
Qed.

Lemma dom_copy_matching (model sd : gmap string Tensor) :
  dom (copy_matching model sd) = dom model.
Proof.
  apply set_eq. intros k. rewrite !elem_of_dom, lookup_copy_matching.
  destruct (model !! k); split; intros [? ?]; eauto; discriminate.
Qed.

(** A dictionary made by [copy_matching] from the model's own loads into
    the model without complaint, and loading it gives that dictionary. *)
Lemma loads_cleanly_copy_matching (model sd : gmap string Tensor) :
  loads_cleanly model (copy_matching model sd) = true.
Proof.
  unfold loads_cleanly. apply andb_true_iff. split.
  - apply bool_decide_eq_true. intros k v Hk. unfold entry_matches.
    rewrite lookup_copy_matching, Hk.
    destruct (sd !! k) as [t|]; [|apply same_shape_refl].
    destruct (same_shape v t) eqn:Ht; [exact Ht | apply same_shape_refl].
  - apply bool_decide_eq_true. rewrite dom_copy_matching. reflexivity.
Qed.

Lemma copy_matching_absorb (model sd : gmap string Tensor) :
  copy_matching model (copy_matching model sd) = copy_matching model sd.
Proof.
  apply map_eq. intros k. rewrite !lookup_copy_matching.
  destruct (model !! k) as [v|]; [|reflexivity]. f_equal.
  destruct (sd !! k) as [t|]; [|rewrite same_shape_refl; reflexivity].
  destruct (same_shape v t) eqn:Ht; [rewrite Ht | rewrite same_shape_refl];
    reflexivity.
Qed.

Lemma copy_matching_again (model sd : gmap string Tensor) :
  copy_matching (copy_matching model sd) sd = copy_matching model sd.
Proof.
  apply map_eq. intros k. rewrite !lookup_copy_matching.
  destruct (model !! k) as [v|]; [|reflexivity]. f_equal.
  destruct (sd !! k) as [t|]; [|reflexivity].
  destruct (same_shape v t) eqn:Ht; [rewrite same_shape_refl | rewrite Ht];
    reflexivity.
Qed.

(** The run of [model.load_state_dict(sd)]. *)
Lemma model_load_state_dict_run sd w :
  model_load_state_dict sd w =
    (if loads_cleanly (model_state w) sd then Ok tt else Raise RuntimeError,
     set_model_state (fun m => copy_matching m sd) w, []).
Proof.
  unfold model_load_state_dict. rewrite run_bind. run_simpl.
  rewrite run_bind. run_simpl.
  destruct (loads_cleanly (model_state w) sd); reflexivity.
Qed.

(** The fallback of [restore]: whatever state the model is in after a
    failed attempt, the partial load goes through. *)
Lemma partial_load_run (c : Config) sd w :
  (w0 <- get ;;
   model_load_state_dict (set_init_dict (model_state w0) sd c)) w
  = (Ok tt, set_model_state (fun m => copy_matching m sd) w, []).
Proof.
  rewrite run_bind. run_simpl. rewrite model_load_state_dict_run.
  unfold set_init_dict. rewrite loads_cleanly_copy_matching. run_simpl.
  f_equal. f_equal. unfold set_model_state. simpl.
  rewrite copy_matching_absorb. reflexivity.
Qed.

Lemma optimizer_load_state_dict_run sd w :
  optimizer_load_state_dict sd w =
    if groups_fit (param_groups (optimizer w)) (param_groups sd)
    then (Ok tt, set_optimizer (fun _ => sd) w, [EvOptimizerLoadStateDict])
    else (Raise ValueError, w, [EvOptimizerLoadStateDict]).
Proof.
  unfold optimizer_load_state_dict. rewrite run_bind. run_simpl.
  rewrite run_bind. run_simpl.
  destruct (groups_fit _ _); reflexivity.
Qed.



(** The [try] statement of the restore block: it ends normally whatever
    the full load does, with the parameters that fit copied. *)
Lemma restore_try_run (c : Config) (ck : Checkpoint) w :
  exists w1 l1,
    try_except
      ((if negb (c_noam_schedule c)
        then optimizer_load_state_dict (ck_optimizer ck)
        else ret tt) ;;
       (match c_reinit_layers c with
        | [] => ret tt
        | _ => raise RuntimeError
        end) ;;
       model_load_state_dict (ck_model ck))
      (fun _ => true)
      (fun _ =>
         emit (EvPrint partial_message) ;;
         w0 <- get ;;
         model_load_state_dict (set_init_dict (model_state w0) (ck_model ck) c))
      w = (Ok tt, w1, l1)
    /\ model_state w1 = copy_matching (model_state w) (ck_model ck)
    /\ model_flows w1 = model_flows w
    /\ model_wrapped w1 = model_wrapped w
    /\ optimizer w1 =
         (if c_noam_schedule c then optimizer w
          else if groups_fit (param_groups (optimizer w))
                    (param_groups (ck_optimizer ck))
               then ck_optimizer ck else optimizer w)
    /\ (In EvOptimizerLoadStateDict l1 -> c_noam_schedule c = false)
    /\ (loads_cleanly (model_state w) (ck_model ck) = false ->
        In (EvPrint partial_message) l1).
Proof.
  rewrite run_try_except, run_bind.
  destruct (c_noam_schedule c); cbn [negb].
  - (* the optimizer is left alone *)
    run_simpl. rewrite run_bind.
    destruct (c_reinit_layers c) as [|layer layers]; run_simpl.
    + rewrite model_load_state_dict_run.
      destruct (loads_cleanly (model_state w) (ck_model ck)) eqn:Hfit; run_simpl.
      * do 2 eexists. split; [reflexivity|]. simpl.
        repeat split; try reflexivity; intros; try contradiction; discriminate.
      * rewrite run_bind. run_simpl. rewrite partial_load_run. run_simpl.
        do 2 eexists. split; [reflexivity|]. simpl.
        rewrite copy_matching_again.
        repeat split; try reflexivity; intros; try tauto.
        destruct H as [H|[]]; discriminate.
    + rewrite run_bind. run_simpl. rewrite partial_load_run. run_simpl.
      do 2 eexists. split; [reflexivity|]. simpl.
      repeat split; try reflexivity; intros; try tauto.
      destruct H as [H|[]]; discriminate.
  - (* the optimizer state of the checkpoint is loaded first *)
    rewrite optimizer_load_state_dict_run.
    destruct (groups_fit _ _); run_simpl.
    + rewrite run_bind.
      destruct (c_reinit_layers c) as [|layer layers]; run_simpl.
      * rewrite model_load_state_dict_run. cbn [model_state set_optimizer].
        destruct (loads_cleanly (model_state w) (ck_model ck)) eqn:Hfit; run_simpl.
        -- do 2 eexists. split; [reflexivity|]. simpl.
           repeat split; try reflexivity; intros; try tauto; discriminate.
        -- rewrite run_bind. run_simpl. rewrite partial_load_run. run_simpl.
           do 2 eexists. split; [reflexivity|]. simpl.
           rewrite copy_matching_again.
           repeat split; try reflexivity; intros; tauto.
      * rewrite run_bind. run_simpl. rewrite partial_load_run. run_simpl.
        do 2 eexists. split; [reflexivity|]. simpl.
        repeat split; try reflexivity; intros; tauto.
    + rewrite run_bind. run_simpl. rewrite partial_load_run. run_simpl.
      do 2 eexists. split; [reflexivity|]. simpl.
      repeat split; try reflexivity; intros; tauto.
Qed.

(** The run of the restore block once [torch.load] has returned. *)
Lemma restore_run ext c args amp w ck :
  restore_path args <> "" ->
  torch_load ext (restore_path args) = Returns ck ->
  exists w' l,
    restore ext c args amp w = (Ok (ck_step ck), w', l)
    /\ model_state w' = copy_matching (model_state w) (ck_model ck)
    /\ model_flows w' = model_flows w
    /\ model_wrapped w' = model_wrapped w
    /\ optimizer w' =
         reset_initial_lr (c_lr c)
           (if c_noam_schedule c then optimizer w
            else if groups_fit (param_groups (optimizer w))
                      (param_groups (ck_optimizer ck))
                 then ck_optimizer ck else optimizer w)
    /\ (In EvOptimizerLoadStateDict l -> c_noam_schedule c = false)
    /\ (loads_cleanly (model_state w) (ck_model ck) = false ->
        In (EvPrint partial_message) l).
Proof.
  intros Hpath Hload.
  destruct (restore_try_run c ck w)
    as (w1 & l1 & Htry & Hmodel & Hflows & Hwrapped & Hopt & Hl1 & Hpartial).
  unfold restore.
  apply String.eqb_neq in Hpath. rewrite Hpath. cbn [negb].
  rewrite run_bind, Hload. run_simpl.
  rewrite (run_bind_ok _ _ _ _ _ _ Htry). run_simpl.
  rewrite run_bind.
  assert (Hamp : exists la,
    when (amp && bool_decide (is_Some (ck_amp ck))) (emit EvAmpLoadStateDict) w1
      = (Ok tt, w1, la)
    /\ (la = [] \/ la = [EvAmpLoadStateDict])).
  { destruct (amp && _); eexists; (split; [reflexivity|]); auto. }
  destruct Hamp as (la & -> & Hla). run_simpl.
  do 2 (rewrite run_bind; run_simpl).
  do 2 eexists. split; [reflexivity|]. simpl.
  rewrite Hmodel, Hflows, Hwrapped, Hopt.
  repeat split; try reflexivity.
  - intros Hin. apply Hl1. rewrite !in_app_iff in Hin.
    destruct Hin as [Hin|[Hin|Hin]]; [exact Hin | |].
    + destruct Hla as [-> | ->]; [destruct Hin|].
      destruct Hin as [Hin|[]]; discriminate.
    + destruct Hin as [Hin|[]]; discriminate.
  - intros Hfit. apply in_app_iff. left. apply Hpartial, Hfit.
Qed.

(** Once [torch.load] has returned the checkpoint, the restore block of
    [main] returns the checkpoint's step whatever the full load does.
    Afterwards the model has the parameters it had, each one holding the
    checkpoint's value when the checkpoint has an entry of that name and
    shape and its fresh value otherwise; when the full load does not fit,
    the partial initialisation is announced. *)
Theorem restore_falls_back_to_partial_load ext c args amp w ck :
  restore_path args <> "" ->
  torch_load ext (restore_path args) = Returns ck ->
  let r := restore ext c args amp w in
  outcome_of r = Ok (ck_step ck)
  /\ (forall k v, model_state w !! k = Some v ->
       model_state (state_of r) !! k =
         Some match ck_model ck !! k with
              | Some t => if same_shape v t then t else v
              | None => v
              end)
  /\ dom (model_state (state_of r)) = dom (model_state w)
  /\ (loads_cleanly (model_state w) (ck_model ck) = false ->
      In (EvPrint partial_message) (log_of r)).
Proof.
  intros Hpath Hload r. subst r.
  destruct (restore_run ext c args amp w ck Hpath Hload)
    as (w' & l & -> & Hmodel & _ & _ & _ & _ & Hpartial).
  cbn [outcome_of state_of log_of fst snd]. rewrite Hmodel.
  split; [reflexivity|]. split; [|split].
  - intros k v Hk. rewrite lookup_copy_matching, Hk. reflexivity.
  - apply dom_copy_matching.
  - exact Hpartial.
Qed.

Lemma restore_from_older_architecture :
  let r := restore Samples.restore_externals Samples.plain_config
             Samples.restore_args false Samples.built_world in
  loads_cleanly Samples.fresh_state (ck_model (Samples.old_checkpoint 5))
  = false
  /\ outcome_of r = Ok 5
  /\ model_state (state_of r) !! "decoder.flows.0.logs"
     = Some (Samples.tensor [1; 80; 1]%nat 8)
  /\ model_state (state_of r) !! "encoder.emb.weight"
     = Some (Samples.tensor [10; 4]%nat 0)
  /\ In (EvPrint partial_message) (log_of r).
Proof.
  assert (Hfit : loads_cleanly Samples.fresh_state
                   (ck_model (Samples.old_checkpoint 5)) = false)
    by (vm_compute; reflexivity).
  destruct (restore_falls_back_to_partial_load Samples.restore_externals
              Samples.plain_config Samples.restore_args false
              Samples.built_world (Samples.old_checkpoint 5))
    as (Hout & Hparams & _ & Hpartial).
  - discriminate.
  - reflexivity.
  - split; [exact Hfit|]. split; [exact Hout|]. split; [|split].
    + rewrite (Hparams "decoder.flows.0.logs" (Samples.tensor [1; 80; 1]%nat 0))
        by (vm_compute; reflexivity).
      vm_compute. reflexivity.
    + rewrite (Hparams "encoder.emb.weight" (Samples.tensor [10; 4]%nat 0))
        by (vm_compute; reflexivity).
      vm_compute. reflexivity.
    + apply Hpartial, Hfit.
Defined.

(** ** A partial load with the optimizer state of the checkpoint *)

(** C4, at the failing input.  Fine-tuning with [noam_schedule] off from a
    checkpoint of an older architecture: the optimizer state of the
    checkpoint is loaded first and fits the parameter groups; the full load
    of the model then fails and the partial initialisation is announced and
    goes through, but the optimizer keeps the moments of the checkpoint,
    which are not of the shapes of the model's parameters.  Training does
    not continue: the first [optimizer.step()] raises, [main] ends in
    [RuntimeError], and the script removes the experiment folder and leaves
    with status 1.  With [noam_schedule] on, the same restore is followed
    by a training that runs to its end. *)
Theorem partial_load_is_fatal_with_the_optimizer_state_of_the_checkpoint :
  let c := Samples.constant_lr_config in
  let ck := Samples.old_checkpoint 5 in
  let r := main Samples.stale_externals c Samples.restore_args "out/glow"
             (Samples.world ["out"]) in
  let s := script Samples.stale_externals Samples.restore_args
             (Samples.world ["out"]) in
  c_noam_schedule c = false
  /\ torch_load Samples.stale_externals (restore_path Samples.restore_args)
     = Returns ck
  /\ loads_cleanly Samples.fresh_state (ck_model ck) = false
  /\ groups_fit (param_groups (RAdam 3 (c_lr c)))
       (param_groups (ck_optimizer ck)) = true
  /\ log_of r
     = [EvOptimizerLoadStateDict; EvPrint partial_message;
        EvPrint " > Model restored from step";
        EvPrint " > Model has parameters";
        EvConsoleLog "epoch_start" 0; EvConsoleLog "train_start" 5;
        EvZeroGrad; EvForward Train false (Samples.batch 1);
        EvCriterion Train; EvBackward (FFinite 1) false; EvCheckUpdate;
        EvOptimizerStep]
  /\ outcome_of r = Raise RuntimeError
  /\ opt_state (optimizer (state_of r))
     = OptLoaded (parameter_shapes (ck_model ck))
  /\ parameter_shapes (ck_model ck)
     = [[12; 4]; [1; 80; 1]; [1]]%nat
  /\ parameter_shapes (model_state (state_of r))
     = [[10; 4]; [1]; [1; 80; 1]]%nat
  /\ outcome_of s = Raise (SystemExit 1)
  /\ exit_status (outcome_of s) = 1
  /\ elements (dirs (state_of s)) = ["out"]
  /\ outcome_of (main Samples.restore_externals Samples.plain_config
                   Samples.restore_args "out/glow" (Samples.world ["out"]))
     = Ok tt.
Proof. repeat split; vm_compute; reflexivity. Qed.

(** ** Optimizer and scheduler after a restore *)

Lemma reset_initial_lr_all lr o :
  Forall (fun group => pg_initial_lr group = Some lr)
    (param_groups (reset_initial_lr lr o)).
Proof.
  unfold reset_initial_lr. simpl. apply Forall_forall. intros g Hg.
  apply list_elem_of_In, in_map_iff in Hg. destruct Hg as (g0 & <- & _).
  reflexivity.
Qed.

(** C9.  When [main] restores from [--restore_path] and its set-up
    returns: the step is the checkpoint's; [optimizer.load_state_dict] is
    called only with [noam_schedule] off; the optimizer is the new [RAdam]
    when [noam_schedule] is on, and the checkpoint's when it is off and its
    parameter groups fit; every parameter group has [initial_lr] set to
    [c.lr]; and the scheduler is a [NoamLR] built with [last_epoch] one
    less than the restored step exactly when [noam_schedule] is on. *)
Theorem restore_optimizer_and_scheduler ext c args w ck amp step sched :
  restore_path args <> "" ->
  torch_load ext (restore_path args) = Returns ck ->
  let r := main_setup ext c args w in
  outcome_of r = Ok (amp, step, sched) ->
  step = ck_step ck
  /\ (In EvOptimizerLoadStateDict (log_of r) -> c_noam_schedule c = false)
  /\ (exists fresh_state fresh_flows nparams,
        ext_setup_model ext = Returns (fresh_state, fresh_flows, nparams)
        /\ optimizer (state_of r) =
             reset_initial_lr (c_lr c)
               (if c_noam_schedule c then RAdam nparams (c_lr c)
                else if groups_fit (param_groups (RAdam nparams (c_lr c)))
                          (param_groups (ck_optimizer ck))
                     then ck_optimizer ck
                     else RAdam nparams (c_lr c)))
  /\ Forall (fun group => pg_initial_lr group = Some (c_lr c))
       (param_groups (optimizer (state_of r)))
  /\ sched = (if c_noam_schedule c
              then Some (MkNoamLR (c_warmup_steps c) (ck_step ck - 1))
              else None)
  /\ (c_noam_schedule c = true ->
      In (EvNoamLR (c_warmup_steps c) (ck_step ck - 1)) (log_of r)).
Proof.
  intros Hpath Hload r. subst r.
  destruct (main_setup ext c args w) as [[o w'] l] eqn:Hrun.
  cbn [outcome_of state_of log_of fst snd]. intros Ho. subst o.
  unfold main_setup in Hrun.
  destruct (ext_audio_processor ext) as [[]|e]; run_cbn in Hrun;
    [|discriminate].
  destruct (1 <? num_gpus ext) eqn:Hgpus; run_cbn in Hrun;
    (destruct (ext_setup_model ext) as [[[st fl] n]|e]; run_cbn in Hrun;
       [|discriminate]);
    (destruct (c_apex_amp_level c); run_cbn in Hrun);
    (match type of Hrun with
     | context [bind (restore ext c args ?a) ?f ?W] =>
         destruct (restore_run ext c args a W ck Hpath Hload)
           as (w1 & l1 & Hr & _ & _ & _ & Hopt & Hl1 & _);
         rewrite (bind_ok_let _ f _ _ _ _ Hr) in Hrun
     end);
    run_cbn in Hrun;
    (destruct (use_cuda ext); run_cbn in Hrun);
    try discriminate;
    (destruct (c_noam_schedule c) eqn:Hnoam; run_cbn in Hrun);
    inversion Hrun; subst; clear Hrun;
    cbn [optimizer set_optimizer set_model_wrapped] in Hopt |- *;
    (split; [reflexivity|]);
    (split; [intros Hin;
             repeat (destruct Hin as [Hin|Hin]; [discriminate|]);
             try (apply in_app_iff in Hin; destruct Hin as [Hin|Hin];
                  [auto | repeat (destruct Hin as [Hin|Hin];
                                   try discriminate); try contradiction]);
             auto|]);
    (split; [exists st, fl, n; split; [reflexivity | exact Hopt]|]);
    (split; [rewrite Hopt; apply reset_initial_lr_all|]);
    (split; [reflexivity|]);
    intros Hn; try discriminate;
    simpl; rewrite ?in_app_iff; simpl; auto 10.
Qed.

Lemma restore_optimizer_and_scheduler_at_step_5 :
  let r := main_setup Samples.restore_externals Samples.plain_config
             Samples.restore_args (Samples.world []) in
  outcome_of r = Ok (false, 5, Some (MkNoamLR 4000 4))
  /\ opt_state (optimizer (state_of r)) = OptEmpty
  /\ Forall (fun group => pg_initial_lr group = Some (FFinite (1 # 1000)))
       (param_groups (optimizer (state_of r)))
  /\ In (EvNoamLR 4000 4) (log_of r).
Proof.
  assert (H : outcome_of (main_setup Samples.restore_externals
                Samples.plain_config Samples.restore_args (Samples.world []))
              = Ok (false, 5, Some (MkNoamLR 4000 4)))
    by (vm_compute; reflexivity).
  destruct (restore_optimizer_and_scheduler Samples.restore_externals
              Samples.plain_config Samples.restore_args (Samples.world [])
              (Samples.old_checkpoint 5) false 5 (Some (MkNoamLR 4000 4)))
    as (_ & _ & (st & fl & n & _ & Hopt) & Hlr & _ & Hnoam).
  - discriminate.
  - reflexivity.
  - exact H.
  - split; [exact H|]. split; [|split].
    + cbv zeta. rewrite Hopt. reflexivity.
    + exact Hlr.
    + apply Hnoam. reflexivity.
Defined.

(** ** Test sentences *)

(** The [try] body for one sentence: it raises exactly when one of its
    calls does, and leaves the objects of the script alone. *)
Lemma synthesize_one_run ext OUT global_step idx sentence w :
  exists o l,
    synthesize_one ext OUT global_step idx sentence w = (o, w, l)
    /\ (if sentence_fails ext global_step idx sentence
        then exists e, o = Raise e else o = Ok tt)
    /\ List.filter is_synthesis l = [EvSynthesis idx]
    /\ List.filter is_error_report l = [].
Proof.
  unfold synthesize_one, sentence_fails.
  destruct (ext_synthesis ext global_step idx sentence) as [[]|e1];
    [destruct (ext_makedirs ext global_step idx) as [[]|e2];
     [destruct (ext_save_wav ext global_step idx) as [[]|e3];
      [destruct (ext_plot_spectrogram ext global_step idx) as [[]|e4];
       [destruct (ext_plot_alignment ext global_step idx) as [[]|e5]|]|]|]|];
    run_cbn; do 2 eexists; (split; [reflexivity|]); simpl; eauto.
Qed.

Lemma guarded_sentence_run ext OUT global_step idx sentence w :
  exists l,
    try_except (synthesize_one ext OUT global_step idx sentence)
      (fun _ => true)
      (fun _ => emit (EvPrintIdx test_sentence_error idx) ;; emit EvTraceback)
      w = (Ok tt, w, l)
    /\ List.filter is_synthesis l = [EvSynthesis idx]
    /\ List.filter is_error_report l =
         if sentence_fails ext global_step idx sentence
         then [EvPrintIdx test_sentence_error idx] else [].
Proof.
  destruct (synthesize_one_run ext OUT global_step idx sentence w)
    as (o & l & Hrun & Ho & Hs & He).
  unfold try_except. rewrite Hrun.
  destruct (sentence_fails ext global_step idx sentence).
  - destruct Ho as [e ->]. run_cbn. eexists. split; [reflexivity|].
    rewrite !List.filter_app, Hs, He. split; reflexivity.
  - subst o. eexists. split; [reflexivity|]. split; assumption.
Qed.

Lemma synthesize_from_run ext OUT global_step k sentences w :
  exists l,
    for_each (enumerate_from k sentences)
      (fun '(idx, test_sentence) =>
         try_except (synthesize_one ext OUT global_step idx test_sentence)
           (fun _ => true)
           (fun _ => emit (EvPrintIdx test_sentence_error idx) ;;
                     emit EvTraceback)) w = (Ok tt, w, l)
    /\ List.filter is_synthesis l = map EvSynthesis (seq k (length sentences))
    /\ List.filter is_error_report l =
         map (fun it => EvPrintIdx test_sentence_error it.1)
           (List.filter (fun it => sentence_fails ext global_step it.1 it.2)
              (enumerate_from k sentences)).
Proof.
  revert k. induction sentences as [|s rest IH]; intros k.
  - exists []. repeat split.
  - destruct (guarded_sentence_run ext OUT global_step k s w)
      as (l1 & H1 & Hs1 & He1).
    destruct (IH (S k)) as (l2 & H2 & Hs2 & He2).
    exists (l1 ++ l2). split; [|split].
    + cbn [enumerate_from for_each].
      rewrite (bind_ok_let _ _ _ _ _ _ H1), H2. reflexivity.
    + rewrite List.filter_app, Hs1, Hs2. reflexivity.
    + rewrite List.filter_app, He1, He2. cbn [enumerate_from List.filter fst snd].
      destruct (sentence_fails ext global_step k s); reflexivity.
Qed.


(** ** The entry point *)

Lemma inside_self folder : inside folder folder = true.
Proof. unfold inside. rewrite String.eqb_refl. reflexivity. Qed.

Lemma remove_experiment_folder_run path w :
  remove_experiment_folder path w =
    (Ok tt, set_dirs (filter (fun d => inside path d = false)) w,
     [EvRemoveExperimentFolder path]).
Proof. reflexivity. Qed.

Lemma removed_folder_is_gone path w :
  path ∉ dirs (set_dirs (filter (fun d => inside path d = false)) w).
Proof.
  cbn [dirs set_dirs]. intros Hin. apply elem_of_filter in Hin.
  destruct Hin as [Hin _]. rewrite inside_self in Hin. discriminate.
Qed.

(** The [try] statement for a body that raises. *)
Lemma guarded_run (body : Py unit) OUT w e :
  outcome_of (body w) = Raise e ->
  guarded body OUT w =
    if isinstance_KeyboardInterrupt e then
      (Exited 0,
       set_dirs (filter (fun d => inside OUT d = false)) (state_of (body w)),
       log_of (body w) ++ [EvRemoveExperimentFolder OUT])
    else if isinstance_Exception e then
      (Raise (SystemExit 1),
       set_dirs (filter (fun d => inside OUT d = false)) (state_of (body w)),
       log_of (body w) ++ [EvRemoveExperimentFolder OUT; EvTraceback])
    else body w.
Proof.
  intros Hbody. unfold guarded. rewrite run_try_except, Hbody.
  destruct e; cbn [isinstance_KeyboardInterrupt isinstance_Exception orb];
    try reflexivity.
Qed.

(** C7.  When start-up has returned and [main] raises: on
    [KeyboardInterrupt] the process is ended with status 0, on an exception
    derived from [Exception] it leaves through [sys.exit(1)] with status 1,
    and in both cases [remove_experiment_folder(OUT_PATH)] has been called
    and the folder is gone. *)
Theorem entry_point_exit_codes ext args w args' c OUT e :
  outcome_of (startup ext args w) = Ok (args', c, OUT) ->
  outcome_of (main ext c args' OUT (state_of (startup ext args w))) = Raise e ->
  let r := script ext args w in
  (e = KeyboardInterrupt ->
     outcome_of r = Exited 0 /\ exit_status (outcome_of r) = 0)
  /\ (isinstance_Exception e = true ->
     outcome_of r = Raise (SystemExit 1) /\ exit_status (outcome_of r) = 1)
  /\ (e = KeyboardInterrupt \/ isinstance_Exception e = true ->
     (OUT ∉ dirs (state_of r))
     /\ In (EvRemoveExperimentFolder OUT) (log_of r)).
Proof.
  intros Hstart Hmain r. subst r. unfold script.
  destruct (startup ext args w) as [[o w0] l0] eqn:Hrun.
  cbn [outcome_of state_of fst snd] in Hstart, Hmain. subst o.
  rewrite (bind_ok_let _ _ _ _ _ _ Hrun). cbv beta iota.
  rewrite (guarded_run _ OUT w0 e Hmain).
  split; [|split].
  - intros ->. split; reflexivity.
  - intros He. destruct e; try discriminate. split; reflexivity.
  - intros [-> | He].
    + split; [apply removed_folder_is_gone|].
      cbn [log_of isinstance_KeyboardInterrupt snd]. rewrite !in_app_iff.
      right. right. left. reflexivity.
    + destruct e; try discriminate.
      split; [apply removed_folder_is_gone|].
      cbn [log_of isinstance_KeyboardInterrupt isinstance_Exception snd].
      rewrite !in_app_iff. right. right. left. reflexivity.
Qed.

Lemma entry_point_interrupted :
  let r := script Samples.interrupted_externals Samples.plain_args
             (Samples.world ["out"]) in
  outcome_of (main Samples.interrupted_externals Samples.plain_config
                Samples.plain_args "out/glow"
                (state_of (startup Samples.interrupted_externals
                             Samples.plain_args (Samples.world ["out"]))))
  = Raise KeyboardInterrupt
  /\ exit_status (outcome_of r) = 0
  /\ ("out/glow" ∉ dirs (state_of r))
  /\ In (EvRemoveExperimentFolder "out/glow") (log_of r).
Proof.
  assert (Hmain : outcome_of (main Samples.interrupted_externals
                    Samples.plain_config Samples.plain_args "out/glow"
                    (state_of (startup Samples.interrupted_externals
                                 Samples.plain_args (Samples.world ["out"]))))
                  = Raise KeyboardInterrupt)
    by (vm_compute; reflexivity).
  destruct (entry_point_exit_codes Samples.interrupted_externals
              Samples.plain_args (Samples.world ["out"]) Samples.plain_args
              Samples.plain_config "out/glow" KeyboardInterrupt)
    as (Hki & _ & Hgone).
  - vm_compute. reflexivity.
  - exact Hmain.
  - split; [exact Hmain|]. split; [apply Hki; reflexivity|].
    apply Hgone. left. reflexivity.
Defined.

(** ** Continuing a run *)

Lemma max_from_spec {A} (key : A -> Z) xs : forall best,
  In (max_from key best xs) (best :: xs)
  /\ forall x, In x (best :: xs) -> key x <= key (max_from key best xs).
Proof.
  induction xs as [|y ys IH]; intros best; simpl.
  - split; [left; reflexivity|]. intros x [<-|[]]. lia.
  - destruct (key best <? key y) eqn:Hlt.
    + apply Z.ltb_lt in Hlt. destruct (IH y) as [Hin Hmax]. split.
      * right. exact Hin.
      * intros x [<-|Hx]; [|apply Hmax, Hx].
        specialize (Hmax y (or_introl eq_refl)). lia.
    + apply Z.ltb_ge in Hlt. destruct (IH best) as [Hin Hmax]. split.
      * destruct Hin as [Hin|Hin]; [left; exact Hin | right; right; exact Hin].
      * intros x [<-|[<-|Hx]].
        -- apply Hmax. left. reflexivity.
        -- specialize (Hmax best (or_introl eq_refl)). lia.
        -- apply Hmax. right. exact Hx.
Qed.

Lemma os_path_join_no_slash a b :
  a <> "" -> ends_with_slash a = false -> os_path_join a b = a +:+ "/" +:+ b.
Proof.
  intros Ha Hs. unfold os_path_join. destruct a; [contradiction|].
  rewrite Hs. reflexivity.
Qed.

(** C8.  With a non-empty [--continue_path]: whatever [--config_path]
    was given makes no difference; the configuration is read from
    [config.json] in that folder; the checkpoint restored is one of the
    files [glob] finds for [<continue_path>/*.pth.tar], with the greatest
    [getctime] among them; and when [glob] finds none the script ends in a
    [ValueError] before it has done anything. *)
Theorem continue_path_restores_latest_checkpoint ext args w :
  continue_path args <> "" ->
  let files := glob_glob ext (continue_path args +:+ "/*.pth.tar") in
  let conf := os_path_join (continue_path args) "config.json" in
  (forall p, continue_training ext (with_config_path p args) w
             = continue_training ext args w)
  /\ (ends_with_slash (continue_path args) = false ->
      conf = continue_path args +:+ "/config.json")
  /\ (files = [] ->
      outcome_of (script ext args w) = Raise ValueError
      /\ exit_status (outcome_of (script ext args w)) = 1
      /\ log_of (script ext args w) = [])
  /\ (files <> [] ->
      exists latest args',
        outcome_of (continue_training ext args w) = Ok args'
        /\ In latest files
        /\ (forall f, In f files ->
              os_path_getctime ext f <= os_path_getctime ext latest)
        /\ restore_path args' = latest
        /\ config_path args' = conf
        /\ continue_path args' = continue_path args
        /\ exists rest,
             log_of (script ext args w) =
               EvPrint (" > Training continues for " +:+ latest)
               :: EvLoadConfig conf :: rest).
Proof.
  intros Hpath files conf.
  pose proof Hpath as Hneq. apply String.eqb_neq in Hneq.
  split; [|split; [|split]].
  - intros p. unfold continue_training, with_config_path.
    cbn [continue_path debug rank group_id]. rewrite Hneq. reflexivity.
  - intros Hs. apply os_path_join_no_slash; assumption.
  - intros Hnone. unfold script, startup, continue_training.
    rewrite Hneq. cbn [negb]. fold files. rewrite Hnone.
    repeat split.
  - intros Hsome.
    destruct files as [|f0 rest0] eqn:Hfiles; [contradiction|].
    destruct (max_from_spec (os_path_getctime ext) rest0 f0) as [Hin Hmax].
    set (latest := max_from (os_path_getctime ext) f0 rest0) in *.
    assert (Hrun : continue_training ext args w =
      (Ok {| continue_path := continue_path args; restore_path := latest;
             config_path := conf; debug := debug args; rank := rank args;
             group_id := group_id args;
             output_path := Some (continue_path args) |}, w,
       [EvPrint (" > Training continues for " +:+ latest)])).
    { unfold continue_training. rewrite Hneq. cbn [negb].
      fold files. rewrite Hfiles. reflexivity. }
    eexists latest, _. rewrite Hrun.
    split; [reflexivity|]. split; [exact Hin|]. split; [exact Hmax|].
    repeat (split; [reflexivity|]).
    unfold script.
    destruct (log_bind_app (startup ext args)
                (fun r => let '(args, c, OUT_PATH) := r in
                          guarded (main ext c args OUT_PATH) OUT_PATH) w)
      as [after1 ->].
    unfold startup. rewrite (bind_ok_let _ _ _ _ _ _ Hrun).
    cbn [config_path].
    match goal with
    | |- context [bind (emit ?e) ?f ?s] =>
        destruct (log_bind_app (emit e) f s) as [after2 Hafter2];
        destruct (bind (emit e) f s) as [[o s'] l']
    end.
    cbn [log_of snd emit] in Hafter2 |- *. subst l'.
    eexists. reflexivity.
Qed.

Lemma continue_path_with_three_checkpoints :
  exists args',
    outcome_of (continue_training Samples.continue_externals
                  Samples.continue_args (Samples.world ["out/run"]))
    = Ok args'
    /\ restore_path args' = "out/run/best_model.pth.tar"
    /\ config_path args' = "out/run/config.json".
Proof.
  destruct (continue_path_restores_latest_checkpoint
              Samples.continue_externals Samples.continue_args
              (Samples.world ["out/run"]))
    as (_ & _ & _ & Hsome).
  - discriminate.
  - destruct Hsome as (latest & args' & Hrun & _ & _ & Hrestore & Hconf & _).
    + discriminate.
    + exists args'. split; [exact Hrun|].
      assert (Hargs : Ok args' = Ok
        {| continue_path := "out/run";
           restore_path := "out/run/best_model.pth.tar";
           config_path := "out/run/config.json"; debug := false; rank := 0;
           group_id := ""; output_path := Some "out/run" |})
        by (rewrite <- Hrun; vm_compute; reflexivity).
      inversion Hargs. split; reflexivity.
Defined.

(** ** Two more runs *)

(** Five test sentences of which the second and the fourth fail. *)
Example flaky_test_sentences :
  let r := synthesize_test_sentences Samples.flaky_externals "out/glow" 7
             default_test_sentences (Samples.world []) in
  outcome_of r = Ok tt
  /\ List.filter (fun e => is_synthesis e || is_error_report e) (log_of r)
     = [EvSynthesis 0; EvSynthesis 1; EvPrintIdx test_sentence_error 1;
        EvSynthesis 2; EvSynthesis 3; EvPrintIdx test_sentence_error 3;
        EvSynthesis 4].
Proof. split; vm_compute; reflexivity. Qed.

(** A run whose first forward pass raises [RuntimeError]. *)
Example failing_run :
  let r := script Samples.failing_externals Samples.plain_args
             (Samples.world ["out"]) in
  outcome_of r = Raise (SystemExit 1)
  /\ exit_status (outcome_of r) = 1
  /\ elements (dirs (state_of r)) = ["out"]
  /\ List.filter (fun e => is_optimizer_step e) (log_of r) = [].
Proof. repeat split; vm_compute; reflexivity. Qed.

End TrainGlowTTSFacts.

Module TacotronFacts.
Import Tacotron.
#[local] Open Scope Z_scope.

(** ** Speaker attributes *)

Ltac split_decoder :=
  repeat match goal with
         | |- context [flip_dim1 ?x] => destruct (flip_dim1 x) eqn:?
         | |- context [Decoder ?t ?v ?m ?x ?k ?p] =>
             destruct (Decoder t v m x k p) as [[? ?] ?] eqn:?
         | |- context [Decoder_inference ?t ?v ?m ?p] =>
             destruct (Decoder_inference t v m p) as [[? ?] ?] eqn:?
         end.

Ltac tac_unfold :=
  unfold forward, inference, compute_gst, _backward_inference, apply_layer,
    _init_states, set_speaker_embeddings_projected, attr,
    _concat_speaker_embedding.

Ltac tac_run :=
  unfold bind, ret, get, put, modify, emit, raise, lift;
  cbn [outcome_of state_of log_of get put modify emit ret raise lift
       fst snd app Tacotron.gst Tacotron.bidirectional_decoder
       Tacotron.decoder Tacotron.embedding Tacotron.encoder Tacotron.postnet
       Tacotron.last_linear Tacotron.gst_layer Tacotron.decoder_backward
       Tacotron.speaker_project_mel speaker_embeddings
       speaker_embeddings_projected without_speaker store].

Lemma forward_None torch self characters text_lengths mel_specs h :
  let r := forward torch self characters text_lengths mel_specs None h in
  Forall (fun call => call_speaker call = None) (log_of r)
  /\ speaker_embeddings (state_of r) = None
  /\ speaker_embeddings_projected (state_of r) = None.
Proof.
  tac_unfold.
  destruct self as [gst_ n bi emb enc dec decb post lin proj gl].
  destruct gst_; [destruct gl|]; destruct bi; try destruct decb;
    repeat (progress (tac_run; split_decoder));
    repeat split; repeat constructor.
Qed.

Lemma inference_None torch self characters style_mel h :
  let r := inference torch self characters None style_mel h in
  Forall (fun call => call_speaker call = None) (log_of r)
  /\ speaker_embeddings (state_of r) = None
  /\ speaker_embeddings_projected (state_of r) = None.
Proof.
  tac_unfold.
  destruct self as [gst_ n bi emb enc dec decb post lin proj gl].
  destruct style_mel; [destruct gst_; [destruct gl|]|];
    repeat (progress (tac_run; split_decoder));
    repeat split; repeat constructor.
Qed.

Lemma forward_None_calls_decoder torch self characters text_lengths mel_specs h :
  (gst self = true -> is_Some (gst_layer self)) ->
  exists memory rest,
    log_of (forward torch self characters text_lengths mel_specs None h)
    = CallDecoder decoder_ (decoder self) memory mel_specs
        (sequence_mask torch text_lengths) None :: rest.
Proof.
  tac_unfold.
  destruct self as [gst_ n bi emb enc dec decb post lin proj gl].
  cbn [Tacotron.gst Tacotron.gst_layer]. intros Hgst.
  destruct gst_; [destruct (Hgst eq_refl) as [layer ->]|];
    destruct bi; try destruct decb;
    repeat (progress (tac_run; split_decoder));
    do 2 eexists; reflexivity.
Qed.

Lemma inference_None_calls_decoder torch self characters style_mel h :
  (gst self = true -> is_Some style_mel -> is_Some (gst_layer self)) ->
  exists memory,
    log_of (inference torch self characters None style_mel h)
    = [CallDecoderInference decoder_ (decoder self) memory None].
Proof.
  tac_unfold.
  destruct self as [gst_ n bi emb enc dec decb post lin proj gl].
  cbn [Tacotron.gst Tacotron.gst_layer]. intros Hgst.
  destruct style_mel as [mel|];
    [destruct gst_; [destruct (Hgst eq_refl (mk_is_Some _ _ eq_refl)) as [layer ->]|]|];
    repeat (progress (tac_run; split_decoder));
    eexists; reflexivity.
Qed.

(** C10.  [forward] and [inference] behave from any heap as from the one
    with both speaker attributes [None].  Called without speaker
    embeddings, each passes [None] as projected speaker embedding in every
    call it makes to a decoder and leaves both attributes [None]; and the
    decoder is indeed called when the style layer the call needs exists. *)
Theorem speaker_state_is_reset_by_every_call
    torch self characters text_lengths mel_specs spk style_mel h :
  forward torch self characters text_lengths mel_specs spk h
  = forward torch self characters text_lengths mel_specs spk
      (without_speaker h)
  /\ inference torch self characters spk style_mel h
     = inference torch self characters spk style_mel (without_speaker h)
  /\ (let r := forward torch self characters text_lengths mel_specs None h in
      Forall (fun call => call_speaker call = None) (log_of r)
      /\ speaker_embeddings (state_of r) = None
      /\ speaker_embeddings_projected (state_of r) = None
      /\ ((gst self = true -> is_Some (gst_layer self)) ->
          exists memory rest,
            log_of r = CallDecoder decoder_ (decoder self) memory mel_specs
                         (sequence_mask torch text_lengths) None :: rest))
  /\ (let r := inference torch self characters None style_mel h in
      Forall (fun call => call_speaker call = None) (log_of r)
      /\ speaker_embeddings (state_of r) = None
      /\ speaker_embeddings_projected (state_of r) = None
      /\ ((gst self = true -> is_Some style_mel -> is_Some (gst_layer self)) ->
          exists memory,
            log_of r = [CallDecoderInference decoder_ (decoder self) memory
                          None])).
Proof.
  split; [reflexivity|]. split; [reflexivity|]. split.
  - destruct (forward_None torch self characters text_lengths mel_specs h)
      as (H1 & H2 & H3).
    repeat split; try assumption. apply forward_None_calls_decoder.
  - destruct (inference_None torch self characters style_mel h)
      as (H1 & H2 & H3).
    repeat split; try assumption. apply inference_None_calls_decoder.
Qed.

(** ** The backward decoder *)




(** And when it does not return, it is for a missing dimension. *)
Lemma flip_items_fails its :
  match flip_items its with
  | Ok _ => True
  | Raise e => e = IndexError
  | Exited _ => False
  end.
Proof.
  induction its as [|item its IH]; cbn [flip_items]; [exact I|].
  destruct item as [v|frames]; cbn [flip_item]; [reflexivity|].
  destruct (flip_items its); [exact I | exact IH | exact IH].
Qed.

Lemma flip_dim1_Raise x e : flip_dim1 x = Raise e -> e = IndexError.
Proof.
  destruct x as [v|its]; cbn [flip_dim1]; [intros [= <-]; reflexivity|].
  pose proof (flip_items_fails its) as H.
  destruct (flip_items its); [discriminate | | discriminate].
  intros [= <-]. exact H.
Qed.

Lemma flip_dim1_Exited x n : flip_dim1 x <> Exited n.
Proof.
  destruct x as [v|its]; cbn [flip_dim1]; [discriminate|].
  pose proof (flip_items_fails its) as H.
  destruct (flip_items its); [discriminate | discriminate | destruct H].
Qed.


(** Reading back the parameters a layer was created with. *)
Lemma omap_lookup_seq (vals : list Tensor) : forall pre post,
  omap (fun a => (pre ++ vals ++ post) !! a) (seq (length pre) (length vals))
  = vals.
Proof.
  induction vals as [|v vals IH]; intros pre post; [reflexivity|].
  cbn [length seq omap list_omap app].
  rewrite lookup_app_r by lia. rewrite Nat.sub_diag. cbn [lookup list_lookup].
  f_equal.
  specialize (IH (pre ++ [v]) post).
  rewrite <- !app_assoc, length_app in IH. cbn [app length] in IH.
  rewrite Nat.add_1_r in IH. exact IH.
Qed.

Lemma values_of_range st pre vals se sp :
  (exists post, st = pre ++ vals ++ post) ->
  values_of {| store := st; speaker_embeddings := se;
               speaker_embeddings_projected := sp |}
    {| parameters := seq (length pre) (length vals) |} = vals.
Proof. intros [post ->]. apply omap_lookup_seq. Qed.

Ltac store_range :=
  eexists; (etransitivity; [symmetry; apply app_nil_r|]);
  rewrite <- !app_assoc; reflexivity.




(** A bidirectional model on one utterance: the backward decoder is the
    second layer of two parameters, and it is given the frames in reverse. *)
Example forward_reverses_the_target :
  let r := (self <- __init__ TacotronSamples.toy_init 1 false true ;;
            forward TacotronSamples.toy_torch self TacotronSamples.characters
              TacotronSamples.text_lengths TacotronSamples.three_frames None)%py
             TacotronSamples.empty_heap in
  outcome_of r =
    Ok (TacotronSamples.three_frames, TacotronSamples.three_frames,
        TacotronSamples.characters, TacotronSamples.text_lengths,
        Some (Stack [Stack [Scalar 30; Scalar 20; Scalar 10]],
              TacotronSamples.characters))
  /\ map call_field (log_of r) = [decoder_; decoder_backward_]
  /\ store (state_of r) =
       [Scalar 1; Scalar 2; Scalar 3; Scalar 4; Scalar 3; Scalar 4;
        Scalar 5; Scalar 6].
Proof. repeat split; vm_compute; reflexivity. Qed.

End TacotronFacts.

(** * More of [train_glow_tts.py] *)

(** ** The weights of the speaker balancer *)

Module SpeakerBalancerFacts.
Import SpeakerBalancer.

Lemma elem_of_np_unique xs s : s ∈ np_unique xs <-> s ∈ xs.
Proof.
  unfold np_unique. rewrite merge_sort_Permutation. apply elem_of_remove_dups.
Qed.

Lemma index_from_found xs : forall k s,
  s ∈ xs -> exists i, index_from k xs s = Ok (k + i)%nat /\ xs !! i = Some s.
Proof.
  induction xs as [|x xs IH]; intros k s Hin; [inversion Hin|].
  cbn [index_from]. destruct (String.eqb x s) eqn:Heq.
  - apply String.eqb_eq in Heq. subst x. exists 0%nat.
    rewrite Nat.add_0_r. split; reflexivity.
  - apply String.eqb_neq in Heq.
    apply elem_of_cons in Hin. destruct Hin as [->|Hin]; [contradiction|].
    destruct (IH (S k) s Hin) as (i & Hi & Hlook). exists (S i).
    rewrite Hi. split; [f_equal; lia | exact Hlook].
Qed.

Lemma comprehension_relates {A B} (R : A -> B -> Prop) (f : A -> Outcome B) xs :
  (forall x, x ∈ xs -> exists y, f x = Ok y /\ R x y) ->
  exists ys, comprehension f xs = Ok ys /\ Forall2 R xs ys.
Proof.
  induction xs as [|x xs IH]; intros H.
  - exists []. split; [reflexivity | constructor].
  - destruct (H x) as (y & Hy & Hr); [left|].
    destruct IH as (ys & Hys & Hall).
    { intros z Hz. apply H. right. exact Hz. }
    exists (y :: ys). cbn [comprehension]. rewrite Hy, Hys.
    split; [reflexivity | constructor; assumption].
Qed.

Lemma count_speaker_positive speaker_names s :
  s ∈ speaker_names -> (1 <= count_speaker speaker_names s)%nat.
Proof.
  unfold count_speaker. induction speaker_names as [|x xs IH]; intros Hin.
  - inversion Hin.
  - cbn [List.filter]. destruct (String.eqb s x) eqn:Heq; [cbn; lia|].
    apply String.eqb_neq in Heq.
    apply elem_of_cons in Hin. destruct Hin as [->|Hin]; [contradiction|].
    apply IH, Hin.
Qed.

Lemma weights_of_ids (unique : list string) (count : string -> nat) names ids :
  Forall2 (fun s i => unique !! i = Some s) names ids ->
  comprehension (array_get (map OneOver (map count unique))) ids
  = Ok (map (fun s => OneOver (count s)) names).
Proof.
  induction 1 as [|s i names ids Hlook _ IH]; [reflexivity|].
  cbn [comprehension map]. unfold array_get at 1.
  rewrite !list_lookup_fmap, Hlook. cbn [fmap option_fmap option_map and_then].
  rewrite IH. reflexivity.
Qed.

(** X1.  The weights the speaker balancer of [setup_loader] computes for
    its sampler: whatever the speaker names of the dataset, computing them
    raises nothing (every name is found among the unique names, every index
    is within the weights, no count is zero), and the weight of each sample
    is one over the number of samples of its speaker. *)
Theorem samples_weight_is_one_over_the_speaker_count speaker_names :
  samples_weight speaker_names
  = Ok (map (fun s => OneOver (count_speaker speaker_names s)) speaker_names)
  /\ Forall (fun s => (1 <= count_speaker speaker_names s)%nat) speaker_names.
Proof.
  split.
  - unfold samples_weight.
    destruct (comprehension_relates
                (fun s i => np_unique speaker_names !! i = Some s)
                (py_index (np_unique speaker_names)) speaker_names)
      as (ids & -> & Hids).
    { intros s Hs. apply elem_of_np_unique in Hs.
      destruct (index_from_found (np_unique speaker_names) 0 s Hs)
        as (i & Hi & Hlook).
      exists i. split; assumption. }
    cbn [and_then]. apply weights_of_ids, Hids.
  - apply Forall_forall. intros s Hs. apply count_speaker_positive, Hs.
Qed.
End SpeakerBalancerFacts.

(** * More facts about the monad *)

Section MoreMonadFacts.
Context {S E : Type}.

Lemma outcome_bind_Ok {A B} (m : M S E A) (f : A -> M S E B) s b :
  outcome_of (bind m f s) = Ok b ->
  exists a, outcome_of (m s) = Ok a
            /\ outcome_of (f a (state_of (m s))) = Ok b.
Proof.
  rewrite run_bind. destruct (outcome_of (m s)) as [a|e|n]; try discriminate.
  intros H. exists a. split; [reflexivity | exact H].
Qed.

Lemma returns_only_ret {A} (Q : A -> Prop) a :
  Q a -> returns_only Q (ret a : M S E A).
Proof. intros H s a' Ha. inversion Ha. subst. exact H. Qed.

Lemma returns_only_raise {A} (Q : A -> Prop) e :
  returns_only Q (raise e : M S E A).
Proof. intros s a Ha. discriminate. Qed.

Lemma returns_only_bind {A B} (Q : B -> Prop) (m : M S E A)
    (f : A -> M S E B) :
  (forall a, returns_only Q (f a)) -> returns_only Q (bind m f).
Proof.
  intros Hf s b Hb. apply outcome_bind_Ok in Hb.
  destruct Hb as (a & _ & Hb). exact (Hf a _ _ Hb).
Qed.

Lemma emits_exactly_quiet (p : E -> bool) {A} (m : M S E A) :
  emits_only (fun e => p e = false) m -> emits_exactly p 0 m.
Proof. intros H s a _. rewrite (filter_quiet p _ (H s)). reflexivity. Qed.

Lemma emits_exactly_emit (p : E -> bool) ev :
  p ev = true -> emits_exactly p 1 (emit ev : M S E unit).
Proof. intros H s a _. cbn. rewrite H. reflexivity. Qed.

Lemma emits_exactly_bind (p : E -> bool) n1 n2 {A B} (m : M S E A)
    (f : A -> M S E B) :
  emits_exactly p n1 m -> (forall a, emits_exactly p n2 (f a)) ->
  emits_exactly p (n1 + n2) (bind m f).
Proof.
  intros Hm Hf s b Hb. destruct (outcome_bind_Ok _ _ _ _ Hb) as (a & Ha & Hfa).
  rewrite log_bind, Ha, List.filter_app, length_app.
  rewrite (Hm s a Ha), (Hf a _ b Hfa). reflexivity.
Qed.

Lemma emits_exactly_fold_each (p : E -> bool) {A B} (n : A -> nat)
    (body : B -> A -> M S E B) xs :
  (forall acc x, emits_exactly p (n x) (body acc x)) ->
  forall acc, emits_exactly p (list_sum (map n xs)) (fold_each xs acc body).
Proof.
  intros Hb. induction xs as [|x xs IH]; intros acc; cbn [fold_each map list_sum].
  - intros s a _. reflexivity.
  - apply emits_exactly_bind; [apply Hb | intros acc'; apply IH].
Qed.

(** A loop whose rounds each add one to a measure of the accumulator. *)
Lemma fold_each_counts {A B} (measure : B -> Z) (body : B -> A -> M S E B) xs :
  (forall acc x,
     returns_only (fun acc' => measure acc' = (measure acc + 1)%Z)
       (body acc x)) ->
  forall acc,
    returns_only
      (fun acc' => measure acc' = (measure acc + Z.of_nat (length xs))%Z)
      (fold_each xs acc body).
Proof.
  intros Hb. induction xs as [|x xs IH]; intros acc; cbn [fold_each length].
  - apply returns_only_ret. lia.
  - intros s acc' Hacc'. apply outcome_bind_Ok in Hacc'.
    destruct Hacc' as (acc1 & H1 & H2).
    apply Hb in H1. apply IH in H2. lia.
Qed.
Lemma returns_only_bind_with {A B} (Q1 : A -> Prop) (Q : B -> Prop)
    (m : M S E A) (f : A -> M S E B) :
  returns_only Q1 m -> (forall a, Q1 a -> returns_only Q (f a)) ->
  returns_only Q (bind m f).
Proof.
  intros Hm Hf s b Hb. apply outcome_bind_Ok in Hb.
  destruct Hb as (a & Ha & Hb). exact (Hf a (Hm _ _ Ha) _ _ Hb).
Qed.

(** What follows a computation that never returns does not matter. *)
Lemma returns_only_never {A B} (Q : B -> Prop) (m : M S E A)
    (f : A -> M S E B) :
  returns_only (fun _ => False) m -> returns_only Q (bind m f).
Proof.
  intros Hm. apply (returns_only_bind_with (fun _ => False)); [exact Hm|].
  intros a [].
Qed.

Lemma emits_exactly_after (p : E -> bool) n {A B} (m : M S E A)
    (f : A -> M S E B) :
  emits_only (fun e => p e = false) m ->
  (forall a, emits_exactly p n (f a)) -> emits_exactly p n (bind m f).
Proof.
  intros Hm Hf. apply (emits_exactly_bind p 0 n); [|exact Hf].
  apply emits_exactly_quiet, Hm.
Qed.

Lemma emits_exactly_before (p : E -> bool) n {A B} (m : M S E A)
    (f : A -> M S E B) :
  emits_exactly p n m ->
  (forall a, emits_only (fun e => p e = false) (f a)) ->
  emits_exactly p n (bind m f).
Proof.
  intros Hm Hf. rewrite <- (Nat.add_0_r n).
  apply (emits_exactly_bind p n 0); [exact Hm|].
  intros a. apply emits_exactly_quiet, Hf.
Qed.

Lemma emits_exactly_after_with (p : E -> bool) n {A B} (Q : A -> Prop)
    (m : M S E A) (f : A -> M S E B) :
  returns_only Q m ->
  emits_only (fun e => p e = false) m ->
  (forall a, Q a -> emits_exactly p n (f a)) -> emits_exactly p n (bind m f).
Proof.
  intros HQ Hm Hf s b Hb.
  destruct (outcome_bind_Ok _ _ _ _ Hb) as (a & Ha & Hfa).
  rewrite log_bind, Ha, List.filter_app, length_app.
  rewrite (filter_quiet p _ (Hm s)). cbn [length Nat.add].
  exact (Hf a (HQ _ _ Ha) _ _ Hfa).
Qed.
End MoreMonadFacts.

(** Breaks a goal [returns_only Q m] down to the places where [m] returns. *)
Ltac returns_only_step :=
  lazymatch goal with
  | |- returns_only _ (bind _ _) => apply returns_only_bind; intros; cbv beta
  | |- returns_only _ (raise _) => apply returns_only_raise
  | |- returns_only _ (if ?b then _ else _) => destruct b
  | |- returns_only _ (match ?x with _ => _ end) => destruct x
  end.

Module TrainingLoop.
Import TrainGlowTTS TrainGlowTTSFacts.
#[local] Open Scope Z_scope.

(** ** What only the worker of rank 0 does *)

Ltac emits_only_at_rank H :=
  repeat first
    [ lazymatch goal with
      | |- emits_only _ (if (rank _ =? 0) && _ then _ else _) =>
          rewrite H; cbn [andb]
      | |- emits_only _ (if (rank _ =? 0) then _ else _) => rewrite H
      end
    | emits_only_step
    | progress autounfold with script ].

(** X2.  On a worker whose rank is not 0, neither [train] nor [evaluate]
    writes to tensorboard, saves a checkpoint, runs the diagnostic
    inference, synthesises a test sentence or reports one that failed,
    whatever the collaborators answer. *)
Theorem other_ranks_leave_diagnostics_to_rank_0
    ext c args OUT data_loader amp sched global_step epoch w :
  rank args <> 0 ->
  Forall (fun e => is_rank0_event e = false)
    (log_of (train ext c args OUT data_loader amp sched global_step epoch w))
  /\ Forall (fun e => is_rank0_event e = false)
       (log_of (evaluate ext c args OUT data_loader global_step epoch w)).
Proof.
  intros Hrank. apply Z.eqb_neq in Hrank. split.
  - enough (H : emits_only (fun e => is_rank0_event e = false)
                  (train ext c args OUT data_loader amp sched global_step epoch))
      by apply H.
    emits_only_at_rank Hrank.
  - enough (H : emits_only (fun e => is_rank0_event e = false)
                  (evaluate ext c args OUT data_loader global_step epoch))
      by apply H.
    emits_only_at_rank Hrank.
Qed.

Lemma other_ranks_leave_diagnostics_at_rank_1 :
  Forall (fun e => is_rank0_event e = false)
    (log_of (train Samples.distributed_externals Samples.distributed_config
               Samples.rank1_args "out/glow"
               (Some (ext_loader Samples.distributed_externals false true))
               true (Some (MkNoamLR 4000 (-1))) 0 0%nat Samples.built_world))
  /\ Forall (fun e => is_rank0_event e = false)
       (log_of (evaluate Samples.distributed_externals
                  Samples.distributed_config Samples.rank1_args "out/glow"
                  (Some (ext_loader Samples.distributed_externals false true))
                  0 0%nat Samples.built_world)).
Proof.
  apply other_ranks_leave_diagnostics_to_rank_0. discriminate.
Defined.

(** ** What [evaluate] never does *)

(** X3.  [evaluate] never steps the scheduler or the optimizer, never
    clears or computes gradients, never writes a checkpoint, and every
    forward pass it makes is one without gradient. *)
Theorem evaluate_trains_nothing ext c args OUT data_loader global_step epoch w :
  Forall (fun e => is_training_event e = false)
    (log_of (evaluate ext c args OUT data_loader global_step epoch w)).
Proof.
  enough (H : emits_only (fun e => is_training_event e = false)
                (evaluate ext c args OUT data_loader global_step epoch))
    by apply H.
  emits_only_auto.
Qed.

(** ** Counting the steps *)

Lemma train_step_advances ext c args OUT amp sched epoch global_step keep_avg
    data :
  returns_only (fun acc' => acc'.1 = global_step + 1)
    (train_step ext c args OUT amp sched epoch (global_step, keep_avg) data).
Proof.
  unfold train_step, format_data. cbv beta iota.
  repeat returns_only_step.
  all: apply returns_only_ret; reflexivity.
Qed.

Lemma train_step_steps_once ext c args OUT amp sched epoch acc data :
  emits_exactly is_optimizer_step 1
    (train_step ext c args OUT amp sched epoch acc data).
Proof.
  unfold train_step, format_data. destruct acc as [global_step keep_avg].
  cbv beta iota.
  repeat (apply emits_exactly_after; [solve [emits_only_auto] | intros; cbv beta]).
  apply emits_exactly_before;
    [intros ? ? _; rewrite optimizer_step_run; reflexivity|].
  intros. emits_only_auto.
Qed.

Lemma list_sum_ones {A} (xs : list A) :
  list_sum (map (fun _ => 1%nat) xs) = length xs.
Proof.
  unfold list_sum. induction xs as [|x xs IH]; simpl; [reflexivity|].
  f_equal. exact IH.
Qed.

Lemma train_steps ext c args OUT loader amp sched global_step epoch :
  emits_exactly is_optimizer_step (length (loader epoch))
    (train ext c args OUT (Some loader) amp sched global_step epoch).
Proof.
  unfold train.
  apply emits_exactly_after; [solve [emits_only_auto] | intros; cbv beta].
  apply (emits_exactly_after_with _ _ (fun l => l = loader));
    [apply returns_only_ret; reflexivity | solve [emits_only_auto] |].
  intros l ->.
  apply emits_exactly_after; [solve [emits_only_auto] | intros; cbv beta].
  apply emits_exactly_before.
  - rewrite <- (list_sum_ones (loader epoch)).
    apply (emits_exactly_fold_each is_optimizer_step (fun _ => 1%nat)).
    intros. apply train_step_steps_once.
  - intros. emits_only_auto.
Qed.

Lemma train_advances ext c args OUT loader amp sched global_step epoch :
  returns_only
    (fun r => r.2 = global_step + Z.of_nat (length (loader epoch)))
    (train ext c args OUT (Some loader) amp sched global_step epoch).
Proof.
  unfold train.
  apply returns_only_bind; intros; cbv beta.
  apply (returns_only_bind_with (fun l => l = loader));
    [apply returns_only_ret; reflexivity|].
  intros l ->.
  apply returns_only_bind; intros; cbv beta.
  apply (returns_only_bind_with
           (fun acc' => acc'.1 = global_step + Z.of_nat (length (loader epoch)))).
  - apply (fold_each_counts fst). intros [gs ka] x. apply train_step_advances.
  - intros [gs ka] Hgs. cbn [fst] in Hgs.
    repeat returns_only_step; apply returns_only_ret; exact Hgs.
Qed.

(** X4.  A [train] that returns has taken exactly one optimizer step for
    every batch of the epoch's loader, and the global step it returns is the
    one it was given plus the number of batches. *)
Theorem train_takes_one_optimizer_step_a_batch
    ext c args OUT loader amp sched global_step epoch w avg global_step' :
  outcome_of (train ext c args OUT (Some loader) amp sched global_step epoch w)
  = Ok (avg, global_step') ->
  global_step' = global_step + Z.of_nat (length (loader epoch))
  /\ length (List.filter is_optimizer_step
               (log_of (train ext c args OUT (Some loader) amp sched
                          global_step epoch w)))
     = length (loader epoch).
Proof.
  intros H. split.
  - exact (train_advances ext c args OUT loader amp sched global_step epoch
             w _ H).
  - exact (train_steps ext c args OUT loader amp sched global_step epoch
             w _ H).
Qed.

Lemma train_takes_one_optimizer_step_a_batch_of_three :
  exists avg,
    outcome_of (train Samples.three_batch_externals Samples.plain_config
                  Samples.plain_args "out/glow"
                  (Some (ext_loader Samples.three_batch_externals false true))
                  false (Some (MkNoamLR 4000 (-1))) 0 0%nat
                  Samples.built_world) = Ok (avg, 3)
    /\ length (List.filter is_optimizer_step
                 (log_of (train Samples.three_batch_externals
                            Samples.plain_config Samples.plain_args "out/glow"
                            (Some (ext_loader Samples.three_batch_externals
                                     false true))
                            false (Some (MkNoamLR 4000 (-1))) 0 0%nat
                            Samples.built_world))) = 3%nat.
Proof.
  eexists.
  assert (H : outcome_of (train Samples.three_batch_externals
                Samples.plain_config Samples.plain_args "out/glow"
                (Some (ext_loader Samples.three_batch_externals false true))
                false (Some (MkNoamLR 4000 (-1))) 0 0%nat
                Samples.built_world) = Ok (_, 3))
    by (vm_compute; reflexivity).
  split; [exact H|].
  exact (proj2 (train_takes_one_optimizer_step_a_batch _ _ _ _ _ _ _ _ _ _ _ _ H)).
Defined.

Lemma main_epoch_steps ext c args OUT amp sched loader eval_loader acc epoch :
  emits_exactly is_optimizer_step (length (loader epoch))
    (main_epoch ext c args OUT amp sched (Some loader) eval_loader acc epoch).
Proof.
  unfold main_epoch. destruct acc as [global_step best_loss].
  apply emits_exactly_after; [solve [emits_only_auto] | intros; cbv beta].
  apply emits_exactly_before; [apply train_steps|].
  intros. emits_only_auto.
Qed.

Lemma setup_loader_train_returns ext c verbose :
  returns_only (fun l => l = Some (ext_loader ext false verbose))
    (setup_loader ext c false verbose).
Proof.
  unfold setup_loader. cbn [andb].
  apply returns_only_bind; intros. apply returns_only_ret. reflexivity.
Qed.

Lemma main_run_steps ext c args OUT amp step sched :
  emits_exactly is_optimizer_step
    (list_sum (map (fun epoch => length (ext_loader ext false true epoch))
                 (seq 0 (c_epochs c))))
    (main_run ext c args OUT amp step sched).
Proof.
  unfold main_run.
  apply emits_exactly_after; [solve [emits_only_auto] | intros; cbv beta].
  apply (emits_exactly_after_with _ _ _ _ _ (setup_loader_train_returns ext c true));
    [solve [emits_only_auto]|].
  intros l ->.
  apply emits_exactly_after; [solve [emits_only_auto] | intros; cbv beta].
  apply emits_exactly_before.
  - apply (emits_exactly_fold_each is_optimizer_step
             (fun epoch => length (ext_loader ext false true epoch))).
    intros. apply main_epoch_steps.
  - intros. emits_only_auto.
Qed.

(** X5.  A [main] that returns has taken as many optimizer steps as the
    training loader yields batches over the epochs [0 .. c.epochs - 1]:
    none in the set-up, the data-dependent initialisation or [evaluate]. *)
Theorem main_takes_one_optimizer_step_a_batch ext c args OUT w :
  outcome_of (main ext c args OUT w) = Ok tt ->
  length (List.filter is_optimizer_step (log_of (main ext c args OUT w)))
  = list_sum (map (fun epoch => length (ext_loader ext false true epoch))
                (seq 0 (c_epochs c))).
Proof.
  revert w.
  enough (H : emits_exactly is_optimizer_step
                (list_sum (map (fun epoch =>
                                  length (ext_loader ext false true epoch))
                             (seq 0 (c_epochs c))))
                (main ext c args OUT))
    by (intros w Hw; exact (H w tt Hw)).
  unfold main.
  apply emits_exactly_after; [solve [emits_only_auto]|].
  intros [[amp step] sched]. apply main_run_steps.
Qed.

Lemma main_takes_three_optimizer_steps :
  outcome_of (main Samples.three_batch_externals Samples.plain_config
                Samples.plain_args "out/glow" (Samples.world [])) = Ok tt
  /\ length (List.filter is_optimizer_step
               (log_of (main Samples.three_batch_externals Samples.plain_config
                          Samples.plain_args "out/glow" (Samples.world []))))
     = 3%nat.
Proof.
  assert (H : outcome_of (main Samples.three_batch_externals
                Samples.plain_config Samples.plain_args "out/glow"
                (Samples.world [])) = Ok tt) by (vm_compute; reflexivity).
  split; [exact H|].
  exact (main_takes_one_optimizer_step_a_batch _ _ _ _ _ H).
Defined.

End TrainingLoop.

Module Initialisation.
Import TrainGlowTTS TrainGlowTTSFacts.
#[local] Open Scope Z_scope.

(** ** The flag of the data-dependent initialisation *)

Lemma with_ddi_twice on on' flows :
  with_ddi on' (with_ddi on flows) = with_ddi on' flows.
Proof.
  unfold with_ddi. rewrite map_map. apply map_ext. intros f.
  destruct (has_set_ddi f) eqn:Hf; [reflexivity | rewrite Hf; reflexivity].
Qed.

Lemma set_ddi_flows_state on w :
  exists l, set_ddi_flows on w
            = (Ok tt, set_model_flows (with_ddi on) w, l).
Proof.
  destruct (set_ddi_flows_run on w) as (l & H & _). exists l. exact H.
Qed.

(** X6.  When [data_depended_init] returns, every flow that has [set_ddi]
    has its flag off again and the model is in training mode.  When the
    forward pass over the first batch raises, [data_depended_init] ends in
    that exception with the flag still on: there is no [finally]. *)
Theorem data_depended_init_switches_the_flag_back ext c w :
  let r := data_depended_init ext c w in
  (forall a, outcome_of r = Ok a ->
     model_flows (state_of r) = with_ddi false (model_flows w)
     /\ model_training (state_of r) = true)
  /\ (forall data rest e,
        ext_loader ext false false 0%nat = data :: rest ->
        ext_forward ext DDI 0 data = Raises e ->
        outcome_of r = Raise e
        /\ model_flows (state_of r) = with_ddi true (model_flows w)).
Proof.
  destruct (set_ddi_flows_state true w) as (l1 & H1).
  set (w1 := set_model_flows (with_ddi true) w) in H1.
  destruct (setup_loader_train_run ext c false w1) as (l2 & H2 & _).
  destruct (set_ddi_flows_state false (set_model_training true w1))
    as (l3 & H3).
  unfold data_depended_init.
  rewrite run_bind. run_simpl. rewrite !if_same.
  rewrite (bind_ok_let _ _ _ _ _ _ H1).
  rewrite (bind_ok_let _ _ _ _ _ _ H2).
  run_cbn.
  destruct (ext_loader ext false false 0%nat) as [|data rest]; run_cbn.
  - rewrite if_same, H3. cbn [outcome_of state_of fst snd]. split.
    + intros _ _. unfold w1.
      cbn [model_flows model_training set_model_flows set_model_training].
      rewrite with_ddi_twice. split; reflexivity.
    + intros data rest e Hnil. discriminate.
  - unfold format_data.
    destruct (ext_forward ext DDI 0 data) as [out|e0] eqn:Hf; run_cbn.
    + rewrite if_same, H3. cbn [outcome_of state_of fst snd]. split.
      * intros _ _. unfold w1.
        cbn [model_flows model_training set_model_flows set_model_training].
        rewrite with_ddi_twice. split; reflexivity.
      * intros data' rest' e Hcons Hraise. inversion Hcons. subst data'.
        rewrite Hf in Hraise. discriminate.
    + cbn [outcome_of state_of fst snd]. split.
      * intros a Ha. discriminate.
      * intros data' rest' e Hcons Hraise. inversion Hcons. subst data'.
        rewrite Hf in Hraise. inversion Hraise. split; reflexivity.
Qed.

(** A first batch on which the forward pass fails. *)
Example data_depended_init_on_a_failing_batch :
  let r := data_depended_init Samples.failing_externals Samples.plain_config
             Samples.built_world in
  outcome_of r = Raise RuntimeError
  /\ map ddi (model_flows (state_of r)) = [true; false].
Proof. split; vm_compute; reflexivity. Qed.

End Initialisation.

Module EntryPoint.
Import TrainGlowTTS TrainGlowTTSFacts.
#[local] Open Scope Z_scope.

(** ** What the [try] around [main] lets through *)

Lemma main_never_cleans_up ext c args OUT :
  emits_only (fun e => is_cleanup e = false) (main ext c args OUT).
Proof. emits_only_auto. Qed.

Lemma startup_never_cleans_up ext args :
  emits_only (fun e => is_cleanup e = false) (startup ext args).
Proof.
  unfold startup, continue_training. emits_only_auto.
Qed.

Lemma no_cleanup_in l :
  Forall (fun e => is_cleanup e = false) l ->
  ~ Exists (fun e => is_cleanup e = true) l.
Proof.
  intros Hall Hex. apply Exists_exists in Hex. destruct Hex as (e & Hin & He).
  rewrite Forall_forall in Hall. rewrite (Hall e Hin) in He. discriminate.
Qed.

(** X7.  Once start-up has returned, the script calls
    [remove_experiment_folder] exactly when [main] raises
    [KeyboardInterrupt] or an exception derived from [Exception].  When
    [main] returns, or leaves through [sys.exit] or another exception that
    is no [Exception], the [try] changes nothing: outcome, objects and log
    are those of start-up followed by [main]. *)
Theorem experiment_folder_is_removed_only_when_main_fails
    ext args w args' c OUT :
  outcome_of (startup ext args w) = Ok (args', c, OUT) ->
  let m := main ext c args' OUT (state_of (startup ext args w)) in
  let r := script ext args w in
  (Exists (fun e => is_cleanup e = true) (log_of r)
   <-> exists e, outcome_of m = Raise e
                 /\ isinstance_KeyboardInterrupt e || isinstance_Exception e
                    = true)
  /\ ((forall e, outcome_of m = Raise e ->
         isinstance_KeyboardInterrupt e || isinstance_Exception e = false) ->
      outcome_of r = outcome_of m
      /\ state_of r = state_of m
      /\ log_of r = log_of (startup ext args w) ++ log_of m).
Proof.
  intros Hstart m r.
  pose proof (startup_never_cleans_up ext args w) as Hquiet.
  pose proof (main_never_cleans_up ext c args' OUT
                (state_of (startup ext args w))) as Hmain.
  fold m in Hmain.
  assert (Hr : r = (outcome_of (guarded (main ext c args' OUT) OUT
                                  (state_of (startup ext args w))),
                    state_of (guarded (main ext c args' OUT) OUT
                                (state_of (startup ext args w))),
                    log_of (startup ext args w)
                    ++ log_of (guarded (main ext c args' OUT) OUT
                                 (state_of (startup ext args w))))).
  { unfold r, script. rewrite run_bind, Hstart. reflexivity. }
  destruct (outcome_of m) as [[]|e|n] eqn:Hm.
  - (* main returns *)
    assert (Hg : guarded (main ext c args' OUT) OUT
                   (state_of (startup ext args w)) = m).
    { unfold guarded. rewrite run_try_except. fold m. rewrite Hm. reflexivity. }
    rewrite Hg in Hr. rewrite Hr. cbn [outcome_of state_of log_of fst snd].
    split.
    + split.
      * intros Hex. exfalso. apply (no_cleanup_in _ (proj2 (Forall_app _ _ _)
                                                    (conj Hquiet Hmain))).
        exact Hex.
      * intros (e & He & _). discriminate.
    + intros _. rewrite Hm. repeat split; reflexivity.
  - (* main raises *)
    pose proof (guarded_run (main ext c args' OUT) OUT
                  (state_of (startup ext args w)) e Hm) as Hg.
    fold m in Hg.
    destruct (isinstance_KeyboardInterrupt e) eqn:Hk;
      [|destruct (isinstance_Exception e) eqn:Hx].
    + rewrite Hg in Hr. rewrite Hr. cbn [outcome_of state_of log_of fst snd].
      split.
      * split.
        -- intros _. exists e. rewrite Hk. split; reflexivity.
        -- intros _. apply Exists_app. right. apply Exists_app. right.
           constructor. reflexivity.
      * intros H. specialize (H e eq_refl). rewrite Hk in H. discriminate.
    + rewrite Hg in Hr. rewrite Hr. cbn [outcome_of state_of log_of fst snd].
      split.
      * split.
        -- intros _. exists e. rewrite Hk, Hx. split; reflexivity.
        -- intros _. apply Exists_app. right. apply Exists_app. right.
           constructor. reflexivity.
      * intros H. specialize (H e eq_refl). rewrite Hk, Hx in H. discriminate.
    + rewrite Hg in Hr. rewrite Hr. cbn [outcome_of state_of log_of fst snd].
      split.
      * split.
        -- intros Hex. exfalso.
           apply (no_cleanup_in _ (proj2 (Forall_app _ _ _)
                                     (conj Hquiet Hmain))). exact Hex.
        -- intros (e' & He' & Hc). inversion He'. subst e'.
           rewrite Hk, Hx in Hc. discriminate.
      * intros _. rewrite Hm. repeat split; reflexivity.
  - (* main ends the process: it never does, but the [try] would let it *)
    assert (Hg : guarded (main ext c args' OUT) OUT
                   (state_of (startup ext args w)) = m).
    { unfold guarded. rewrite run_try_except. fold m. rewrite Hm. reflexivity. }
    rewrite Hg in Hr. rewrite Hr. cbn [outcome_of state_of log_of fst snd].
    split.
    + split.
      * intros Hex. exfalso. apply (no_cleanup_in _ (proj2 (Forall_app _ _ _)
                                                    (conj Hquiet Hmain))).
        exact Hex.
      * intros (e & He & _). discriminate.
    + intros _. rewrite Hm. repeat split; reflexivity.
Qed.

Lemma experiment_folder_is_kept_by_a_run_that_ends :
  let m := main Samples.fresh_externals Samples.plain_config
             Samples.plain_args "out/glow"
             (state_of (startup Samples.fresh_externals Samples.plain_args
                          (Samples.world ["out"]))) in
  let r := script Samples.fresh_externals Samples.plain_args
             (Samples.world ["out"]) in
  outcome_of (startup Samples.fresh_externals Samples.plain_args
                (Samples.world ["out"]))
  = Ok (Samples.plain_args, Samples.plain_config, "out/glow")
  /\ outcome_of m = Ok tt
  /\ outcome_of r = outcome_of m
  /\ state_of r = state_of m
  /\ log_of r = log_of (startup Samples.fresh_externals Samples.plain_args
                          (Samples.world ["out"])) ++ log_of m.
Proof.
  assert (H : outcome_of (startup Samples.fresh_externals Samples.plain_args
                            (Samples.world ["out"]))
              = Ok (Samples.plain_args, Samples.plain_config, "out/glow"))
    by (vm_compute; reflexivity).
  assert (Hm : outcome_of (main Samples.fresh_externals Samples.plain_config
                 Samples.plain_args "out/glow"
                 (state_of (startup Samples.fresh_externals Samples.plain_args
                              (Samples.world ["out"])))) = Ok tt)
    by (vm_compute; reflexivity).
  split; [exact H|]. split; [exact Hm|].
  apply (experiment_folder_is_removed_only_when_main_fails _ _ _ _ _ _ H).
  intros e He. rewrite Hm in He. discriminate.
Defined.

End EntryPoint.

Module Distributed.
Import TrainGlowTTS TrainGlowTTSFacts.
#[local] Open Scope Z_scope.

(** ** Several GPUs without apex *)

Lemma main_setup_without_apex ext c args :
  1 < num_gpus ext -> c_apex_amp_level c = None ->
  returns_only (fun _ => False) (main_setup ext c args).
Proof.
  intros Hgpus Hamp. apply Z.ltb_lt in Hgpus.
  unfold main_setup. rewrite Hamp, Hgpus.
  do 2 (apply returns_only_bind; intros; cbv beta).
  apply returns_only_bind. intros [[fresh_state fresh_flows] nparams].
  do 4 (apply returns_only_bind; intros; cbv beta).
  apply (returns_only_bind_with (fun amp => amp = false));
    [apply returns_only_ret; reflexivity|].
  intros amp ->.
  do 2 (apply returns_only_bind; intros; cbv beta).
  apply returns_only_never, returns_only_raise.
Qed.

Lemma main_setup_never_runs_the_model ext c args :
  emits_only (fun e => is_forward e = false /\ is_optimizer_step e = false)
    (main_setup ext c args).
Proof. emits_only_auto. Qed.

Lemma main_stops_with_its_setup ext c args OUT w :
  (forall r, outcome_of (main_setup ext c args w) <> Ok r) ->
  main ext c args OUT w = (match outcome_of (main_setup ext c args w) with
                           | Ok _ => Raise UnboundLocalError
                           | Raise e => Raise e
                           | Exited n => Exited n
                           end,
                           state_of (main_setup ext c args w),
                           log_of (main_setup ext c args w)).
Proof.
  intros Hno. unfold main. rewrite run_bind.
  destruct (outcome_of (main_setup ext c args w)) as [r|e|n];
    [destruct (Hno r eq_refl) | reflexivity | reflexivity].
Qed.

(** X8.  On several GPUs with no apex level configured, [main] never
    returns and never runs the model: the name [DDP] is bound by the import
    in the apex branch only, so wrapping the model fails.  When the audio
    processor, the model set-up and the loading of a checkpoint (if one is
    to be restored) return, [main] ends in that exception, which derives
    from [Exception]. *)
Theorem distributed_training_needs_apex ext c args OUT w :
  1 < num_gpus ext -> c_apex_amp_level c = None ->
  let r := main ext c args OUT w in
  (forall a, outcome_of r <> Ok a)
  /\ Forall (fun e => is_forward e = false /\ is_optimizer_step e = false)
       (log_of r)
  /\ (ext_audio_processor ext = Returns tt ->
      (exists model, ext_setup_model ext = Returns model) ->
      (restore_path args = ""
       \/ exists ck, torch_load ext (restore_path args) = Returns ck) ->
      exists e, outcome_of r = Raise e /\ isinstance_Exception e = true).
Proof.
  intros Hgpus Hamp r.
  pose proof (main_setup_without_apex ext c args Hgpus Hamp) as Hnever.
  assert (Hno : forall r0, outcome_of (main_setup ext c args w) <> Ok r0).
  { intros r0 H0. exact (Hnever w r0 H0). }
  pose proof (main_stops_with_its_setup ext c args OUT w Hno) as Hmain.
  fold r in Hmain. rewrite Hmain.
  cbn [outcome_of state_of log_of fst snd].
  split; [|split].
  - intros a. destruct (outcome_of (main_setup ext c args w)) as [r0|e|n];
      [destruct (Hno r0 eq_refl) | discriminate | discriminate].
  - apply main_setup_never_runs_the_model.
  - intros Haudio [[[fresh_state fresh_flows] nparams] Hmodel] Hrestore.
    exists UnboundLocalError. split; [|reflexivity].
    apply Z.ltb_lt in Hgpus.
    unfold main_setup. rewrite Haudio, Hmodel, Hamp, Hgpus.
    run_cbn.
    destruct Hrestore as [Hpath | [ck Hck]].
    + unfold restore. rewrite Hpath. run_cbn.
      destruct (use_cuda ext); reflexivity.
    + destruct (String.eqb (restore_path args) "") eqn:Hpath.
      * unfold restore. rewrite Hpath. run_cbn.
        destruct (use_cuda ext); reflexivity.
      * apply String.eqb_neq in Hpath.
        match goal with
        | |- context [bind (restore ext c args false) _ ?w0] =>
            destruct (restore_run ext c args false w0 ck Hpath Hck)
              as (w' & l & Hrun & _)
        end.
        rewrite (bind_ok_let _ _ _ _ _ _ Hrun). run_cbn.
        destruct (use_cuda ext); reflexivity.
Qed.

Lemma distributed_training_without_apex_on_two_gpus :
  let r := main Samples.no_apex_externals Samples.plain_config
             Samples.plain_args "out/glow" (Samples.world []) in
  1 < num_gpus Samples.no_apex_externals
  /\ c_apex_amp_level Samples.plain_config = None
  /\ (forall a, outcome_of r <> Ok a)
  /\ Forall (fun e => is_forward e = false /\ is_optimizer_step e = false)
       (log_of r)
  /\ exists e, outcome_of r = Raise e /\ isinstance_Exception e = true.
Proof.
  assert (Hgpus : 1 < num_gpus Samples.no_apex_externals) by reflexivity.
  assert (Hamp : c_apex_amp_level Samples.plain_config = None) by reflexivity.
  destruct (distributed_training_needs_apex Samples.no_apex_externals
              Samples.plain_config Samples.plain_args "out/glow"
              (Samples.world []) Hgpus Hamp) as (H1 & H2 & H3).
  split; [exact Hgpus|]. split; [exact Hamp|].
  split; [exact H1|]. split; [exact H2|].
  apply H3; [reflexivity | eexists; reflexivity | left; reflexivity].
Defined.

End Distributed.

Module Evaluation.
Import TrainGlowTTS TrainGlowTTSFacts.
#[local] Open Scope Z_scope.

(** ** The diagnostics of [evaluate] *)

(** What every round of a loop keeps, the loop keeps. *)
Lemma fold_each_invariant {S E A B} (I : B -> Prop)
    (body : B -> A -> M S E B) xs :
  (forall acc x, returns_only I (body acc x)) ->
  forall acc, I acc -> returns_only I (fold_each xs acc body).
Proof.
  intros Hb. induction xs as [|x xs IH]; intros acc Hacc; cbn [fold_each].
  - apply returns_only_ret, Hacc.
  - apply (returns_only_bind_with I); [apply Hb | exact IH].
Qed.

Lemma evaluate_step_speaker_ids ext c global_step acc data :
  c_use_speaker_embedding c = false ->
  returns_only (fun acc' => acc'.2 = None \/ acc'.2 = Some None)
    (evaluate_step ext c global_step acc data).
Proof.
  intros Hoff. unfold evaluate_step, format_data. rewrite Hoff.
  destruct acc as [keep_avg last]. cbv beta iota.
  repeat (apply returns_only_bind; intros; cbv beta).
  apply returns_only_ret. right. reflexivity.
Qed.

Lemma evaluate_loop_speaker_ids ext c global_step (batches : list Batch) :
  batches = [] \/ c_use_speaker_embedding c = false ->
  returns_only (fun acc' => acc'.2 = None \/ acc'.2 = Some None)
    (fold_each batches ([], None) (evaluate_step ext c global_step)).
Proof.
  intros [-> | Hoff].
  - apply returns_only_ret. left. reflexivity.
  - apply fold_each_invariant; [|left; reflexivity].
    intros acc x. apply evaluate_step_speaker_ids, Hoff.
Qed.

Lemma evaluate_loop_quiet ext c global_step (batches : list Batch) acc :
  emits_only (fun e => is_rank0_event e = false)
    (fold_each batches acc (evaluate_step ext c global_step)).
Proof. emits_only_auto. Qed.

(** The loop of [evaluate] followed by the diagnostics of rank 0. *)
Lemma evaluate_diagnostics_stop {A} ext c global_step (batches : list Batch)
    (diagnostics : Py A) w :
  batches = [] \/ c_use_speaker_embedding c = false ->
  let loop := fold_each batches ([], None) (evaluate_step ext c global_step) in
  let r := (acc <- loop ;;
            let '(keep_avg, last) := acc in
            (speaker_ids <- match last with
                            | Some ids => ret ids
                            | None => raise UnboundLocalError
                            end ;;
             _ <- slice_first speaker_ids ;;
             diagnostics) ;;
            ret keep_avg) w in
  (forall a, outcome_of r <> Ok a)
  /\ log_of r = log_of (loop w)
  /\ (batches = [] -> r = (Raise UnboundLocalError, w, [])).
Proof.
  intros Hids loop r.
  pose proof (evaluate_loop_speaker_ids ext c global_step batches Hids w)
    as Hlast.
  fold loop in Hlast. unfold r. rewrite run_bind.
  destruct (outcome_of (loop w)) as [[keep_avg last]|e|n] eqn:Hloop.
  - destruct (Hlast _ eq_refl) as [Hl | Hl]; cbn [snd] in Hl; subst last;
      run_cbn; cbn [slice_first]; run_cbn; rewrite ?app_nil_r.
    + split; [intros a; discriminate|]. split; [reflexivity|].
      intros ->. reflexivity.
    + split; [intros a; discriminate|]. split; [reflexivity|].
      intros ->. discriminate.
  - run_cbn. split; [intros a; discriminate|]. split; [reflexivity|].
    intros ->. discriminate.
  - run_cbn. split; [intros a; discriminate|]. split; [reflexivity|].
    intros ->. discriminate.
Qed.

(** X9.  At rank 0 the diagnostics of [evaluate] slice the speaker ids of
    the last batch.  Given a loader that yields no batch, or with
    [c.use_speaker_embedding] off, [evaluate] therefore never returns, and
    nothing of it reaches tensorboard or the test sentences; with no batch
    it ends in [UnboundLocalError] right after the start of the
    evaluation was logged. *)
Theorem evaluate_diagnostics_need_speaker_ids
    ext c args OUT loader global_step epoch w :
  rank args = 0 ->
  loader epoch = [] \/ c_use_speaker_embedding c = false ->
  let r := evaluate ext c args OUT (Some loader) global_step epoch w in
  (forall a, outcome_of r <> Ok a)
  /\ Forall (fun e => is_rank0_event e = false) (log_of r)
  /\ (loader epoch = [] ->
      r = (Raise UnboundLocalError, set_model_training false w,
           [EvConsoleLog "eval_start" global_step])).
Proof.
  intros Hrank Hids.
  pose proof (evaluate_loop_quiet ext c global_step (loader epoch) ([], None)
                (set_model_training false w)) as Hquiet.
  cbv zeta. unfold evaluate. rewrite Hrank. cbn [Z.eqb andb]. run_cbn.
  match goal with
  | |- context [bind (bind _ (fun acc => let '(_, _) := acc in
                                bind (bind _ (fun _ => bind _ (fun _ => ?d))) _))
                  _ _] =>
      destruct (evaluate_diagnostics_stop ext c global_step (loader epoch) d
                  (set_model_training false w) Hids) as (Hno & Hlog & Hnil)
  end.
  rewrite run_bind.
  match type of Hno with
  | forall a, outcome_of ?inner <> _ =>
      destruct (outcome_of inner) as [a|e|n] eqn:Hinner;
        [destruct (Hno a eq_refl) | |]
  end.
  - cbn [outcome_of state_of log_of fst snd].
    split; [intros a; discriminate|].
    split; [constructor; [reflexivity | rewrite Hlog; exact Hquiet]|].
    intros Hempty. clear Hlog Hno. rewrite (Hnil Hempty) in Hinner |- *.
    cbn [outcome_of state_of log_of fst snd] in Hinner |- *.
    inversion Hinner. reflexivity.
  - cbn [outcome_of state_of log_of fst snd].
    split; [intros a; discriminate|].
    split; [constructor; [reflexivity | rewrite Hlog; exact Hquiet]|].
    intros Hempty. rewrite (Hnil Hempty) in Hinner. discriminate.
Qed.

Lemma evaluate_without_speaker_embedding :
  let r := evaluate Samples.fresh_externals (Samples.config_with 25 true false)
             Samples.plain_args "out/glow"
             (Some (ext_loader Samples.fresh_externals true false)) 1 0%nat
             Samples.built_world in
  rank Samples.plain_args = 0
  /\ c_use_speaker_embedding (Samples.config_with 25 true false) = false
  /\ outcome_of r = Raise TypeError
  /\ (forall a, outcome_of r <> Ok a)
  /\ Forall (fun e => is_rank0_event e = false) (log_of r).
Proof.
  assert (Hrank : rank Samples.plain_args = 0) by reflexivity.
  assert (Hoff : c_use_speaker_embedding (Samples.config_with 25 true false)
                 = false) by reflexivity.
  destruct (evaluate_diagnostics_need_speaker_ids Samples.fresh_externals
              (Samples.config_with 25 true false) Samples.plain_args
              "out/glow" (ext_loader Samples.fresh_externals true false)
              1 0%nat Samples.built_world Hrank (or_intror Hoff))
    as (H1 & H2 & _).
  split; [exact Hrank|]. split; [exact Hoff|].
  split; [vm_compute; reflexivity|]. split; [exact H1 | exact H2].
Defined.

(** A loader that yields no batch. *)
Example evaluate_without_batches :
  evaluate Samples.no_batch_externals Samples.plain_config Samples.plain_args
    "out/glow" (Some (ext_loader Samples.no_batch_externals true false))
    1 0%nat Samples.built_world
  = (Raise UnboundLocalError, set_model_training false Samples.built_world,
     [EvConsoleLog "eval_start" 1]).
Proof. vm_compute. reflexivity. Qed.

End Evaluation.

(** Like [emits_only_bind], knowing what the first computation returns. *)
Lemma emits_only_bind_with {S E A B} (P : E -> Prop) (Q : A -> Prop)
    (m : M S E A) (f : A -> M S E B) :
  returns_only Q m -> emits_only P m ->
  (forall a, Q a -> emits_only P (f a)) -> emits_only P (bind m f).
Proof.
  intros HQ Hm Hf s. rewrite log_bind. apply Forall_app. split; [apply Hm|].
  destruct (outcome_of (m s)) as [a|e|n] eqn:Ha;
    [apply Hf, (HQ s a Ha) | constructor | constructor].
Qed.

Lemma py_mod_returns {S E} (a b : Z) :
  returns_only (fun m => b <> 0%Z /\ m = (a mod b)%Z) (py_mod a b : M S E Z).
Proof.
  intros s m. unfold py_mod. destruct (b =? 0)%Z eqn:Hb; [discriminate|].
  intros H. inversion H. split; [apply Z.eqb_neq, Hb | reflexivity].
Qed.

Module Schedule.
Import TrainGlowTTS TrainGlowTTSFacts.
#[local] Open Scope Z_scope.

(** ** When [train] saves a checkpoint *)

Ltac on_schedule_step :=
  lazymatch goal with
  | |- emits_only _ (bind (py_mod ?a ?b) _) =>
      apply (emits_only_bind_with _ (fun m => b <> 0 /\ m = a mod b));
        [apply py_mod_returns | solve [emits_only_auto] | intros ? [? ->]]
  | |- emits_only _ (if ?b then _ else _) => destruct b eqn:?
  | |- emits_only _ (emit (EvSaveCheckpoint _ _ _)) =>
      apply emits_only_emit; unfold saved_on_schedule;
        repeat match goal with
               | H : (_ =? _) = true |- _ => apply Z.eqb_eq in H
               end;
        repeat split; congruence
  | |- _ => emits_only_step
  end.

Lemma train_step_saves_on_schedule ext c args OUT amp sched epoch acc data :
  emits_only (saved_on_schedule c args OUT)
    (train_step ext c args OUT amp sched epoch acc data).
Proof.
  unfold train_step, format_data. destruct acc as [global_step keep_avg].
  cbv beta iota.
  repeat first [ on_schedule_step | progress autounfold with script ].
Qed.

(** X10.  Every checkpoint that [train] saves is saved by the worker of
    rank 0, into [OUT_PATH], with [c.checkpoint] on, and at a global step
    that is a multiple of [c.save_step]. *)
Theorem checkpoints_are_saved_on_schedule
    ext c args OUT data_loader amp sched global_step epoch w r p s :
  In (EvSaveCheckpoint r p s)
    (log_of (train ext c args OUT data_loader amp sched global_step epoch w)) ->
  r = 0 /\ rank args = 0 /\ p = OUT /\ c_checkpoint c = true
  /\ c_save_step c <> 0 /\ s mod c_save_step c = 0.
Proof.
  assert (H : emits_only (saved_on_schedule c args OUT)
                (train ext c args OUT data_loader amp sched global_step epoch)).
  { unfold train. repeat first [ apply train_step_saves_on_schedule
                               | emits_only_step ]. }
  intros Hin. exact (proj1 (List.Forall_forall _ _) (H w) _ Hin).
Qed.

Lemma checkpoint_is_saved_at_step_1000 :
  In (EvSaveCheckpoint 0 "out/glow" 1000)
    (log_of (train Samples.fresh_externals Samples.plain_config
               Samples.plain_args "out/glow"
               (Some (ext_loader Samples.fresh_externals false true))
               false (Some (MkNoamLR 4000 998)) 999 0%nat
               Samples.built_world))
  /\ rank Samples.plain_args = 0
  /\ c_checkpoint Samples.plain_config = true
  /\ c_save_step Samples.plain_config <> 0
  /\ 1000 mod c_save_step Samples.plain_config = 0.
Proof.
  assert (Hin : In (EvSaveCheckpoint 0 "out/glow" 1000)
                  (log_of (train Samples.fresh_externals Samples.plain_config
                             Samples.plain_args "out/glow"
                             (Some (ext_loader Samples.fresh_externals
                                      false true))
                             false (Some (MkNoamLR 4000 998)) 999 0%nat
                             Samples.built_world))).
  { vm_compute. repeat first [left; reflexivity | right]. }
  split; [exact Hin|].
  destruct (checkpoints_are_saved_on_schedule _ _ _ _ _ _ _ _ _ _ _ _ _ Hin)
    as (_ & Hrank & _ & Hck & Hstep & Hmod).
  repeat split; assumption.
Defined.

(** ** A period of zero *)

(** Proves that a computation never returns: somewhere on every path it
    raises. *)
Ltac never_returns :=
  lazymatch goal with
  | |- returns_only _ (raise _) => apply returns_only_raise
  | |- returns_only _ (bind _ _) =>
      first [ apply returns_only_never; solve [never_returns]
            | apply returns_only_bind; intros; cbv beta; never_returns ]
  | |- returns_only _ (if ?b then _ else _) => destruct b; never_returns
  | |- returns_only _ (match ?x with _ => _ end) => destruct x; never_returns
  end.

Lemma train_step_with_a_period_of_zero
    ext c args OUT amp sched epoch acc data :
  c_print_step c = 0
  \/ rank args = 0 /\ (c_tb_plot_step c = 0 \/ c_save_step c = 0) ->
  returns_only (fun _ => False)
    (train_step ext c args OUT amp sched epoch acc data).
Proof.
  intros Hzero. unfold train_step, format_data.
  destruct acc as [global_step keep_avg]. cbv beta iota.
  destruct Hzero as [-> | [-> [-> | ->]]];
    unfold py_mod; cbn [Z.eqb]; never_returns.
Qed.

(** X11.  The progress of [train] is printed, plotted and saved every so
    many steps with [global_step % period]: with [c.print_step] zero, or at
    rank 0 with [c.tb_plot_step] or [c.save_step] zero, a [train] over a
    loader that yields a batch never returns. *)
Theorem train_needs_periods_other_than_zero
    ext c args OUT loader amp sched global_step epoch w :
  c_print_step c = 0
  \/ rank args = 0 /\ (c_tb_plot_step c = 0 \/ c_save_step c = 0) ->
  loader epoch <> [] ->
  forall a,
    outcome_of (train ext c args OUT (Some loader) amp sched global_step
                  epoch w) <> Ok a.
Proof.
  intros Hzero Hbatch a Ha.
  enough (H : returns_only (fun _ => False)
                (train ext c args OUT (Some loader) amp sched global_step
                   epoch)) by exact (H w a Ha).
  unfold train. apply returns_only_bind; intros; cbv beta.
  apply (returns_only_bind_with (fun l => l = loader));
    [apply returns_only_ret; reflexivity|].
  intros l ->. apply returns_only_bind; intros; cbv beta.
  apply returns_only_never.
  destruct (loader epoch) as [|data rest]; [contradiction|].
  cbn [fold_each]. apply returns_only_never.
  apply train_step_with_a_period_of_zero, Hzero.
Qed.

Lemma train_with_print_step_zero :
  let r := train Samples.fresh_externals (Samples.config_with 0 false true)
             Samples.plain_args "out/glow"
             (Some (ext_loader Samples.fresh_externals false true))
             false (Some (MkNoamLR 4000 (-1))) 0 0%nat Samples.built_world in
  c_print_step (Samples.config_with 0 false true) = 0
  /\ outcome_of r = Raise ZeroDivisionError
  /\ List.filter is_optimizer_step (log_of r) = [EvOptimizerStep]
  /\ (outcome_of r = Ok (∅, 1) -> False).
Proof.
  split; [reflexivity|]. split; [vm_compute; reflexivity|].
  split; [vm_compute; reflexivity|].
  apply (train_needs_periods_other_than_zero Samples.fresh_externals
           (Samples.config_with 0 false true)).
  - left. reflexivity.
  - discriminate.
Defined.

End Schedule.

Module Restoring.
Import TrainGlowTTS TrainGlowTTSFacts.
#[local] Open Scope Z_scope.

(** ** When the full load goes through *)

(** A state dictionary that loads without complaint replaces every
    parameter. *)
Lemma copy_matching_full (model sd : gmap string Tensor) :
  loads_cleanly model sd = true -> copy_matching model sd = sd.
Proof.
  unfold loads_cleanly. rewrite andb_true_iff, !bool_decide_eq_true.
  intros [Hall Hdom]. apply map_eq. intros k.
  rewrite lookup_copy_matching.
  destruct (model !! k) as [v|] eqn:Hk.
  - specialize (Hall k v Hk). cbn beta in Hall. unfold entry_matches in Hall.
    destruct (sd !! k) as [t|]; [|discriminate]. rewrite Hall. reflexivity.
  - symmetry. apply not_elem_of_dom. intros Hin.
    apply Hdom in Hin. apply not_elem_of_dom in Hk. contradiction.
Qed.

(** The log of the [try] statement of the restore block. *)
Lemma restore_try_log (c : Config) (ck : Checkpoint) w :
  exists w1,
    try_except
      ((if negb (c_noam_schedule c)
        then optimizer_load_state_dict (ck_optimizer ck)
        else ret tt) ;;
       (match c_reinit_layers c with
        | [] => ret tt
        | _ => raise RuntimeError
        end) ;;
       model_load_state_dict (ck_model ck))
      (fun _ => true)
      (fun _ =>
         emit (EvPrint partial_message) ;;
         w0 <- get ;;
         model_load_state_dict (set_init_dict (model_state w0) (ck_model ck) c))
      w
    = (Ok tt, w1,
       (if c_noam_schedule c then [] else [EvOptimizerLoadStateDict])
       ++ (if negb (c_noam_schedule c)
              && negb (groups_fit (param_groups (optimizer w))
                         (param_groups (ck_optimizer ck)))
              || match c_reinit_layers c with [] => false | _ => true end
              || negb (loads_cleanly (model_state w) (ck_model ck))
           then [EvPrint partial_message] else [])).
Proof.
  rewrite run_try_except, run_bind.
  destruct (c_noam_schedule c); cbn [negb andb orb].
  - run_simpl. rewrite run_bind.
    destruct (c_reinit_layers c) as [|layer layers]; run_simpl.
    + rewrite model_load_state_dict_run.
      destruct (loads_cleanly (model_state w) (ck_model ck)); run_simpl.
      * eexists. reflexivity.
      * rewrite run_bind. run_simpl. rewrite partial_load_run. run_simpl.
        eexists. reflexivity.
    + rewrite run_bind. run_simpl. rewrite partial_load_run. run_simpl.
      eexists. reflexivity.
  - rewrite optimizer_load_state_dict_run.
    destruct (groups_fit _ _); run_simpl; cbn [negb andb orb].
    + rewrite run_bind.
      destruct (c_reinit_layers c) as [|layer layers]; run_simpl.
      * rewrite model_load_state_dict_run. cbn [model_state set_optimizer].
        destruct (loads_cleanly (model_state w) (ck_model ck)); run_simpl.
        -- eexists. reflexivity.
        -- rewrite run_bind. run_simpl. rewrite partial_load_run. run_simpl.
           eexists. reflexivity.
      * rewrite run_bind. run_simpl. rewrite partial_load_run. run_simpl.
        eexists. reflexivity.
    + rewrite run_bind. run_simpl. rewrite partial_load_run. run_simpl.
      eexists. reflexivity.
Qed.

Lemma restore_log ext c args amp w ck :
  restore_path args <> "" ->
  torch_load ext (restore_path args) = Returns ck ->
  log_of (restore ext c args amp w)
  = (if c_noam_schedule c then [] else [EvOptimizerLoadStateDict])
    ++ (if negb (c_noam_schedule c)
           && negb (groups_fit (param_groups (optimizer w))
                      (param_groups (ck_optimizer ck)))
           || match c_reinit_layers c with [] => false | _ => true end
           || negb (loads_cleanly (model_state w) (ck_model ck))
        then [EvPrint partial_message] else [])
    ++ (if amp && bool_decide (is_Some (ck_amp ck))
        then [EvAmpLoadStateDict] else [])
    ++ [EvPrint " > Model restored from step"].
Proof.
  intros Hpath Hload.
  destruct (restore_try_log c ck w) as (w1 & Htry).
  unfold restore.
  apply String.eqb_neq in Hpath. rewrite Hpath. cbn [negb].
  rewrite run_bind, Hload. run_simpl.
  rewrite (run_bind_ok _ _ _ _ _ _ Htry). run_simpl.
  rewrite run_bind.
  destruct (amp && bool_decide (is_Some (ck_amp ck))); cbn [when]; run_simpl;
    do 2 (rewrite run_bind; run_simpl);
    rewrite <- !app_assoc; reflexivity.
Qed.

(** X12.  Once [torch.load] has returned the checkpoint, the restore block
    of [main] announces a partial initialisation exactly when something in
    its [try] raised: the optimizer state did not fit (it is loaded with
    [noam_schedule] off only), [c.reinit_layers] is not empty, or the
    model's state did not load.  When none of these happens the block
    returns the checkpoint's step and the model holds exactly the
    checkpoint's state. *)
Theorem partial_initialization_is_announced_when_the_try_fails
    ext c args amp w ck :
  restore_path args <> "" ->
  torch_load ext (restore_path args) = Returns ck ->
  let r := restore ext c args amp w in
  (In (EvPrint partial_message) (log_of r)
   <-> (c_noam_schedule c = false
        /\ groups_fit (param_groups (optimizer w))
             (param_groups (ck_optimizer ck)) = false)
       \/ c_reinit_layers c <> []
       \/ loads_cleanly (model_state w) (ck_model ck) = false)
  /\ (c_noam_schedule c = true
       \/ groups_fit (param_groups (optimizer w))
            (param_groups (ck_optimizer ck)) = true ->
      c_reinit_layers c = [] ->
      loads_cleanly (model_state w) (ck_model ck) = true ->
      outcome_of r = Ok (ck_step ck)
      /\ model_state (state_of r) = ck_model ck).
Proof.
  intros Hpath Hload r. split.
  - unfold r. rewrite (restore_log ext c args amp w ck Hpath Hload).
    unfold partial_message.
    destruct (c_noam_schedule c), (groups_fit _ _),
      (c_reinit_layers c) as [|layer layers],
      (loads_cleanly (model_state w) (ck_model ck)),
      (amp && bool_decide (is_Some (ck_amp ck)));
      cbn [negb andb orb In app]; split;
      first
        [ (* the announcement is in the log *)
          intros _;
          first [ left; split; reflexivity
                | right; left; discriminate
                | right; right; reflexivity ]
        | intros _; solve [repeat first [left; reflexivity | right]]
        | (* or it is not *)
          intros H; exfalso;
          repeat (destruct H as [H | H]; [discriminate H|]); exact H
        | intros [[? ?] | [? | ?]]; congruence ].
  - intros _ _ Hfit.
    destruct (restore_run ext c args amp w ck Hpath Hload)
      as (w' & l & Hrun & Hmodel & _).
    unfold r. rewrite Hrun. cbn [outcome_of state_of fst snd].
    split; [reflexivity|]. rewrite Hmodel.
    apply copy_matching_full, Hfit.
Qed.

Lemma restore_of_the_same_architecture :
  let r := restore Samples.same_externals Samples.plain_config
             Samples.restore_args false Samples.built_world in
  restore_path Samples.restore_args <> ""
  /\ loads_cleanly Samples.fresh_state (ck_model (Samples.same_checkpoint 5))
     = true
  /\ model_state (state_of r) = ck_model (Samples.same_checkpoint 5)
  /\ log_of r = [EvPrint " > Model restored from step"].
Proof.
  assert (Hpath : restore_path Samples.restore_args <> "") by discriminate.
  assert (Hfit : loads_cleanly (model_state Samples.built_world)
                   (ck_model (Samples.same_checkpoint 5)) = true)
    by (vm_compute; reflexivity).
  destruct (partial_initialization_is_announced_when_the_try_fails
              Samples.same_externals Samples.plain_config Samples.restore_args
              false Samples.built_world (Samples.same_checkpoint 5)
              Hpath eq_refl) as [_ Hstate].
  split; [exact Hpath|]. split; [exact Hfit|].
  split; [exact (proj2 (Hstate (or_introl eq_refl) eq_refl Hfit))|].
  vm_compute. reflexivity.
Defined.

End Restoring.

Module StartUp.
Import TrainGlowTTS TrainGlowTTSFacts.
#[local] Open Scope Z_scope.

(** ** The newest checkpoint *)

(** [max] keeps the first of the greatest. *)
Lemma max_from_first {A} (key : A -> Z) xs : forall best,
  exists earlier later,
    best :: xs = earlier ++ max_from key best xs :: later
    /\ Forall (fun x => key x < key (max_from key best xs)) earlier
    /\ Forall (fun x => key x <= key (max_from key best xs)) later.
Proof.
  induction xs as [|x xs IH]; intros best; cbn [max_from].
  - exists [], []. repeat split; constructor.
  - destruct (key best <? key x) eqn:Hlt.
    + apply Z.ltb_lt in Hlt.
      destruct (IH x) as (earlier & later & Heq & Hbefore & Hafter).
      destruct (max_from_spec key xs x) as [_ Hmax].
      specialize (Hmax x (or_introl eq_refl)).
      remember (max_from key x xs) as m.
      exists (best :: earlier), later. rewrite Heq. split; [reflexivity|].
      split; [|exact Hafter]. constructor; [lia | exact Hbefore].
    + apply Z.ltb_ge in Hlt.
      destruct (IH best) as (earlier & later & Heq & Hbefore & Hafter).
      remember (max_from key best xs) as m.
      destruct earlier as [|first earlier]; cbn [app] in Heq;
        inversion Heq as [[Hbest Hxs]].
      * (* [best] stays the greatest *)
        exists [], (x :: later). cbn [app].
        split; [reflexivity|]. split; [constructor|].
        constructor; [rewrite <- Hbest; lia | exact Hafter].
      * rewrite <- Hbest in Hbefore.
        exists (best :: x :: earlier), later. cbn [app].
        split; [congruence|].
        inversion Hbefore as [|? ? Hb Hrest].
        split; [|exact Hafter].
        constructor; [exact Hb|]. constructor; [lia | exact Hrest].
Qed.

(** X13.  With [--continue_path], the checkpoint that is restored is the
    first, in the order in which [glob] lists the files, of those with the
    greatest creation time: every file listed before it is strictly older,
    none listed after it is newer. *)
Theorem newest_checkpoint_is_the_first_listed ext args w args' :
  continue_path args <> "" ->
  outcome_of (continue_training ext args w) = Ok args' ->
  exists earlier later,
    glob_glob ext (continue_path args +:+ "/*.pth.tar")
    = earlier ++ restore_path args' :: later
    /\ Forall (fun f => os_path_getctime ext f
                        < os_path_getctime ext (restore_path args')) earlier
    /\ Forall (fun f => os_path_getctime ext f
                        <= os_path_getctime ext (restore_path args')) later.
Proof.
  intros Hpath. apply String.eqb_neq in Hpath.
  unfold continue_training. rewrite Hpath. cbn [negb].
  destruct (glob_glob ext (continue_path args +:+ "/*.pth.tar"))
    as [|file files]; cbn [py_max]; run_cbn; [discriminate|].
  intros Hok. inversion Hok. cbn [restore_path].
  apply max_from_first.
Qed.

Lemma newest_of_two_checkpoints_of_the_same_instant :
  exists args',
    outcome_of (continue_training Samples.tied_externals Samples.continue_args
                  (Samples.world ["out/run"])) = Ok args'
    /\ restore_path args' = "out/run/checkpoint_10.pth.tar"
    /\ exists earlier later,
         glob_glob Samples.tied_externals "out/run/*.pth.tar"
         = earlier ++ restore_path args' :: later
         /\ Forall (fun f => os_path_getctime Samples.tied_externals f
                             < os_path_getctime Samples.tied_externals
                                 (restore_path args')) earlier
         /\ Forall (fun f => os_path_getctime Samples.tied_externals f
                             <= os_path_getctime Samples.tied_externals
                                  (restore_path args')) later.
Proof.
  eexists. split; [vm_compute; reflexivity|]. split; [reflexivity|].
  apply (newest_checkpoint_is_the_first_listed Samples.tied_externals
           Samples.continue_args (Samples.world ["out/run"])).
  - discriminate.
  - vm_compute. reflexivity.
Defined.

(** ** A start-up that fails *)

(** X14.  What the script does before its [try] is not guarded.  When
    start-up raises (no checkpoint to continue from, a configuration that
    cannot be read or does not pass [check_config_tts]), the script ends in
    that very exception, whatever it is; no folder has been created, none
    is removed, and nothing is logged after the failure. *)
Theorem startup_failures_are_not_guarded ext args w e :
  outcome_of (startup ext args w) = Raise e ->
  script ext args w = (Raise e, w, log_of (startup ext args w))
  /\ Forall (fun ev => is_cleanup ev = false) (log_of (script ext args w)).
Proof.
  intros Hraise.
  assert (Hstate : state_of (startup ext args w) = w).
  { revert Hraise. unfold startup.
    rewrite run_bind.
    assert (Hcont : state_of (continue_training ext args w) = w).
    { unfold continue_training.
      destruct (negb (String.eqb (continue_path args) "")); [|reflexivity].
      destruct (glob_glob ext _) as [|file files]; reflexivity. }
    destruct (outcome_of (continue_training ext args w)) as [args1|e1|n1];
      [|intros _; exact Hcont | intros _; exact Hcont].
    rewrite Hcont. run_cbn.
    destruct (load_config ext (config_path args1)) as [c|e1]; run_cbn;
      [|intros _; reflexivity].
    destruct (check_config_tts ext c) as [[]|e1]; run_cbn;
      [|intros _; reflexivity].
    destruct (bool_decide (is_Some (c_apex_amp_level c)));
      destruct (String.eqb (continue_path args1) "");
      destruct (rank args1 =? 0); run_cbn; discriminate. }
  assert (Hscript : script ext args w
                    = (Raise e, w, log_of (startup ext args w))).
  { unfold script. rewrite run_bind, Hraise, Hstate. reflexivity. }
  split; [exact Hscript|].
  rewrite Hscript. cbn [log_of snd].
  apply EntryPoint.startup_never_cleans_up.
Qed.

Lemma startup_without_a_configuration :
  let r := script Samples.no_config_externals Samples.plain_args
             (Samples.world ["out"]) in
  outcome_of (startup Samples.no_config_externals Samples.plain_args
                (Samples.world ["out"]))
  = Raise (PyException "FileNotFoundError")
  /\ r = (Raise (PyException "FileNotFoundError"), Samples.world ["out"],
          [EvLoadConfig "config.json"])
  /\ Forall (fun ev => is_cleanup ev = false) (log_of r).
Proof.
  assert (H : outcome_of (startup Samples.no_config_externals
                            Samples.plain_args (Samples.world ["out"]))
              = Raise (PyException "FileNotFoundError"))
    by (vm_compute; reflexivity).
  split; [exact H|].
  destruct (startup_failures_are_not_guarded _ _ _ _ H) as [Hrun Hlog].
  split; [|exact Hlog].
  rewrite Hrun. reflexivity.
Defined.

(** ** Where the outputs go *)

(** X15.  When start-up returns, [OUT_PATH] is the folder given with
    [--continue_path], or without one the folder that
    [create_experiment_folder] names for [c.output_path] and [c.run_name].
    The configuration is copied to [config.json] in [OUT_PATH] by the
    worker of rank 0 and by no other; when a run is continued, that is the
    very file the configuration was read from. *)
Theorem startup_sends_the_outputs_to_the_continued_folder
    ext args w args' c OUT :
  outcome_of (startup ext args w) = Ok (args', c, OUT) ->
  OUT = (if String.eqb (continue_path args) ""
         then create_experiment_folder ext (c_output_path c) (c_run_name c)
                (debug args)
         else continue_path args)
  /\ List.filter (fun e => match e with EvCopyConfig _ _ => true | _ => false end)
       (log_of (startup ext args w))
     = (if rank args =? 0
        then [EvCopyConfig (config_path args') (os_path_join OUT "config.json")]
        else [])
  /\ (continue_path args <> "" ->
      config_path args' = os_path_join OUT "config.json"
      /\ In (EvLoadConfig (os_path_join OUT "config.json"))
           (log_of (startup ext args w))).
Proof.
  unfold startup, continue_training.
  destruct (String.eqb (continue_path args) "") eqn:Hcont; cbn [negb].
  - (* a new run *)
    run_cbn.
    destruct (load_config ext (config_path args)) as [c0|e]; run_cbn;
      [|discriminate].
    destruct (check_config_tts ext c0) as [[]|e]; run_cbn; [|discriminate].
    rewrite Hcont.
    destruct (bool_decide (is_Some (c_apex_amp_level c0)));
      destruct (rank args =? 0); run_cbn;
      intros Hok; inversion Hok; subst; clear Hok;
      (split; [reflexivity|]); (split; [reflexivity|]);
      intros Hne; apply String.eqb_eq in Hcont; contradiction.
  - (* a run that is continued *)
    destruct (glob_glob ext (continue_path args +:+ "/*.pth.tar"))
      as [|file files]; cbn [py_max]; run_cbn; [discriminate|].
    cbn [config_path continue_path rank debug].
    destruct (load_config ext (os_path_join (continue_path args) "config.json"))
      as [c0|e]; run_cbn; [|discriminate].
    destruct (check_config_tts ext c0) as [[]|e]; run_cbn; [|discriminate].
    rewrite Hcont.
    destruct (bool_decide (is_Some (c_apex_amp_level c0)));
      destruct (rank args =? 0); run_cbn;
      intros Hok; inversion Hok; subst; clear Hok;
      cbn [config_path];
      (split; [reflexivity|]); (split; [reflexivity|]);
      intros _; (split; [reflexivity|]);
      cbn [In]; auto.
Qed.

Lemma startup_of_a_continued_run :
  let r := startup Samples.continue_externals Samples.continue_args
             (Samples.world ["out/run"]) in
  (exists args', outcome_of r = Ok (args', Samples.plain_config, "out/run"))
  /\ List.filter (fun e => match e with EvCopyConfig _ _ => true | _ => false end)
       (log_of r)
     = [EvCopyConfig "out/run/config.json" "out/run/config.json"].
Proof.
  assert (H : exists args',
            outcome_of (startup Samples.continue_externals
                          Samples.continue_args (Samples.world ["out/run"]))
            = Ok (args', Samples.plain_config, "out/run")
            /\ config_path args' = "out/run/config.json")
    by (eexists; split; vm_compute; reflexivity).
  destruct H as (args' & H & Hconf).
  split; [exists args'; exact H|].
  destruct (startup_sends_the_outputs_to_the_continued_folder _ _ _ _ _ _ H)
    as (_ & Hcopy & _).
  rewrite Hcopy, Hconf. reflexivity.
Defined.

End StartUp.

Module Epochs.
Import TrainGlowTTS TrainGlowTTSFacts.
#[local] Open Scope Z_scope.

(** ** Training without evaluation *)

Lemma setup_loader_eval_returns ext c verbose :
  c_run_eval c = false ->
  returns_only (fun l => l = None) (setup_loader ext c true verbose).
Proof.
  intros Hoff. unfold setup_loader. rewrite Hoff. cbn [negb andb].
  apply returns_only_ret. reflexivity.
Qed.

Lemma evaluate_without_a_loader ext c args OUT global_step epoch :
  emits_only (fun e => is_evaluation_pass e = false)
    (evaluate ext c args OUT None global_step epoch).
Proof. unfold evaluate. emits_only_auto. Qed.

(** X16.  With [c.run_eval] off [setup_loader] gives [main] no evaluation
    loader, and [main] never runs the model on evaluation data: no forward
    pass, criterion or diagnostic inference of [evaluate], in any epoch and
    whatever the collaborators answer. *)
Theorem main_without_run_eval_evaluates_nothing ext c args OUT w :
  c_run_eval c = false ->
  Forall (fun e => is_evaluation_pass e = false)
    (log_of (main ext c args OUT w)).
Proof.
  intros Hoff. revert w.
  change (emits_only (fun e => is_evaluation_pass e = false)
            (main ext c args OUT)).
  unfold main. apply emits_only_bind; [solve [emits_only_auto]|].
  intros [[amp step] sched]. unfold main_run.
  apply emits_only_bind; [solve [emits_only_auto]|]. intros _.
  apply emits_only_bind; [solve [emits_only_auto]|]. intros train_loader.
  apply (emits_only_bind_with _ (fun l => l = None));
    [apply setup_loader_eval_returns, Hoff | solve [emits_only_auto] |].
  intros l ->.
  apply emits_only_bind; [|intros; apply emits_only_ret].
  apply emits_only_fold_each. intros [global_step best_loss] epoch.
  unfold main_epoch.
  apply emits_only_bind; [solve [emits_only_auto]|]. intros _.
  apply emits_only_bind; [solve [emits_only_auto]|]. intros [avg gs].
  apply emits_only_bind; [apply evaluate_without_a_loader|]. intros.
  emits_only_auto.
Qed.

Lemma main_without_run_eval_on_one_batch :
  c_run_eval Samples.plain_config = false
  /\ outcome_of (main Samples.fresh_externals Samples.plain_config
                   Samples.plain_args "out/glow" (Samples.world [])) = Ok tt
  /\ Forall (fun e => is_evaluation_pass e = false)
       (log_of (main Samples.fresh_externals Samples.plain_config
                  Samples.plain_args "out/glow" (Samples.world []))).
Proof.
  split; [reflexivity|]. split; [vm_compute; reflexivity|].
  apply main_without_run_eval_evaluates_nothing. reflexivity.
Defined.

(** ** The test sentences *)

Lemma synthesize_test_sentences_attempts ext OUT global_step sentences :
  emits_exactly is_synthesis (length sentences)
    (synthesize_test_sentences ext OUT global_step sentences).
Proof.
  intros w a _.
  destruct (synthesize_from_run ext OUT global_step 0 sentences w)
    as (l & Hrun & Hsyn & _).
  unfold synthesize_test_sentences, enumerate. rewrite Hrun.
  cbn [log_of snd]. rewrite Hsyn, length_map, length_seq. reflexivity.
Qed.

(** X17.  [evaluate] synthesises test sentences at rank 0 once
    [c.test_delay_epochs] epochs have passed, and not otherwise.  When it
    does and returns, it has attempted every sentence once: the five
    built-in ones without [c.test_sentences_file], the lines of that file
    with it. *)
Theorem evaluate_attempts_every_test_sentence
    ext c args OUT data_loader global_step epoch w avg sentences :
  outcome_of (evaluate ext c args OUT data_loader global_step epoch w)
  = Ok avg ->
  match c_test_sentences_file c with
  | None => sentences = default_test_sentences
  | Some f => ext_read_sentences ext f = Returns sentences
  end ->
  length (List.filter is_synthesis
            (log_of (evaluate ext c args OUT data_loader global_step epoch w)))
  = if (rank args =? 0) && (c_test_delay_epochs c <=? Z.of_nat epoch)
    then length sentences else 0%nat.
Proof.
  intros Hok Hsentences. revert w avg Hok.
  change (emits_exactly is_synthesis
            (if (rank args =? 0) && (c_test_delay_epochs c <=? Z.of_nat epoch)
             then length sentences else 0%nat)
            (evaluate ext c args OUT data_loader global_step epoch)).
  unfold evaluate.
  do 3 (apply emits_exactly_after; [solve [emits_only_auto] | intros; cbv beta]).
  apply emits_exactly_before; [|intros; emits_only_auto].
  destruct ((rank args =? 0) && (c_test_delay_epochs c <=? Z.of_nat epoch)).
  - apply (emits_exactly_after_with _ _ (fun ts => ts = sentences)).
    + destruct (c_test_sentences_file c) as [f|].
      * rewrite Hsentences. apply returns_only_ret. reflexivity.
      * apply returns_only_ret. symmetry. exact Hsentences.
    + emits_only_auto.
    + intros ts ->.
      do 3 (apply emits_exactly_after;
            [solve [emits_only_auto] | intros; cbv beta]).
      apply emits_exactly_before;
        [apply synthesize_test_sentences_attempts | intros; emits_only_auto].
  - apply emits_exactly_quiet. emits_only_auto.
Qed.

Lemma evaluate_attempts_the_five_test_sentences :
  let r := evaluate Samples.flaky_externals Samples.plain_config
             Samples.plain_args "out/glow" None 7 0%nat (Samples.world []) in
  (exists avg, outcome_of r = Ok avg)
  /\ c_test_sentences_file Samples.plain_config = None
  /\ length (List.filter is_synthesis (log_of r)) = 5%nat
  /\ length (List.filter is_error_report (log_of r)) = 2%nat.
Proof.
  assert (H : outcome_of (evaluate Samples.flaky_externals Samples.plain_config
                            Samples.plain_args "out/glow" None 7 0%nat
                            (Samples.world [])) = Ok ∅)
    by (vm_compute; reflexivity).
  split; [eexists; exact H|]. split; [reflexivity|].
  split; [|vm_compute; reflexivity].
  exact (evaluate_attempts_every_test_sentence _ _ _ _ _ _ _ _ _
           default_test_sentences H eq_refl).
Defined.

End Epochs.

(** * More of [models/tacotron.py] *)

Module TacotronMore.
Import Tacotron TacotronFacts.
#[local] Open Scope Z_scope.

(** ** The layers the constructor creates *)

Ltac layer_values :=
  first [ apply values_of_range; store_range
        | intros ? [= <-]; apply values_of_range; store_range
        | intros ? [=] ].

(** X18.  [Tacotron.__init__] leaves the parameters that were there alone
    and appends those of its layers; the layers divide the new parameters
    among them, in the order of their creation and without sharing any; the
    backward decoder, the speaker projection and the style layer exist
    exactly when asked for; and every layer starts from the values its
    constructor gives, the backward decoder from those of the decoder. *)
Theorem constructed_layers_have_parameters_of_their_own init n g bi h0 :
  exists self h new,
    __init__ init n g bi h0 = (Ok self, h, [])
    /\ store h = store h0 ++ new
    /\ all_parameters self = seq (length (store h0)) (length new)
    /\ NoDup (all_parameters self)
    /\ (is_Some (decoder_backward self) <-> bi = true)
    /\ (is_Some (speaker_project_mel self) <-> 1 < n)
    /\ (is_Some (gst_layer self) <-> g = true)
    /\ values_of h (embedding self) = init_embedding init
    /\ values_of h (encoder self) = init_encoder init
    /\ values_of h (decoder self) = init_decoder init
    /\ values_of h (postnet self) = init_postnet init
    /\ values_of h (last_linear self) = init_last_linear init
    /\ (forall l, decoder_backward self = Some l ->
          values_of h l = init_decoder init)
    /\ (forall l, speaker_project_mel self = Some l ->
          values_of h l = init_speaker_project_mel init)
    /\ (forall l, gst_layer self = Some l ->
          values_of h l = init_gst_layer init).
Proof.
  unfold __init__, deepcopy, new_layer.
  destruct (1 <? n) eqn:Hn; destruct g; destruct bi; tac_run;
    unfold without_speaker; repeat (progress cbn [store]).
  all: try (rewrite (values_of_range _ ((store h0 ++ init_embedding init)
                                  ++ init_encoder init) (init_decoder init))
       by store_range).
  all: eexists _, _, _; split; [reflexivity|].
  all: unfold all_parameters, optional_parameters.
  all: cbn [store parameters
            Tacotron.embedding Tacotron.encoder Tacotron.decoder
            Tacotron.decoder_backward Tacotron.postnet Tacotron.last_linear
            Tacotron.speaker_project_mel Tacotron.gst_layer].
  all: split; [rewrite <- !app_assoc; reflexivity|].
  all: match goal with
       | |- ?l = ?r /\ _ =>
           assert (Hall : l = r)
             by (rewrite !length_app, !seq_app, ?app_nil_r; cbn [app];
                 rewrite ?app_nil_r; reflexivity)
       end.
  all: split; [exact Hall|].
  all: split; [rewrite Hall; apply NoDup_seq|].
  all: split; [split; [intros [? ?]; congruence
                      | intros ?; first [eexists; reflexivity | discriminate]]|].
  all: split; [split; [intros [? ?];
                       first [apply Z.ltb_lt, Hn | discriminate]
                      | intros Hlt;
                        first [eexists; reflexivity
                              | apply Z.ltb_ge in Hn; lia]]|].
  all: split; [split; [intros [? ?]; congruence
                      | intros ?; first [eexists; reflexivity | discriminate]]|].
  all: repeat split; layer_values.
Qed.

(** ** Speaker embeddings *)

Ltac run_method :=
  tac_unfold; repeat (progress (tac_run; split_decoder)).

(** X19.  A model built for at most one speaker has no
    [speaker_project_mel]: given speaker embeddings, [forward] and
    [inference] both end in [AttributeError] before any decoder is called,
    the speaker attributes reset.  On a model built for more than one
    speaker, or called without speaker embeddings, neither method ever ends
    in [AttributeError]: [__init__] has created every layer they touch. *)
Theorem speaker_embeddings_need_a_model_of_several_speakers
    torch init n g bi h0 :
  exists self h,
    __init__ init n g bi h0 = (Ok self, h, [])
    /\ forall characters text_lengths mel_specs style_mel h',
         (n <= 1 ->
          forall spk,
            forward torch self characters text_lengths mel_specs (Some spk) h'
            = (Raise AttributeError, without_speaker h', [])
            /\ inference torch self characters (Some spk) style_mel h'
               = (Raise AttributeError, without_speaker h', []))
         /\ (forall spk,
               1 < n \/ spk = None ->
               outcome_of (forward torch self characters text_lengths
                             mel_specs spk h') <> Raise AttributeError
               /\ outcome_of (inference torch self characters spk
                                style_mel h') <> Raise AttributeError).
Proof.
  unfold __init__, deepcopy, new_layer.
  destruct (1 <? n) eqn:Hn; destruct g; destruct bi; tac_run;
    unfold without_speaker; repeat (progress cbn [store]).
  all: eexists _, _; split; [reflexivity|].
  all: intros characters text_lengths mel_specs style_mel h'.
  all: first [apply Z.ltb_lt in Hn | apply Z.ltb_ge in Hn].
  all: split; [intros Hle; try lia; intros spk|].
  all: try (split; [run_method; reflexivity
                   | destruct style_mel; run_method; reflexivity]).
  all: intros spk Hspk.
  all: assert (Hcase : spk = None \/ exists s, spk = Some s /\ 1 < n)
         by (destruct spk as [s|]; [right; exists s; split; [reflexivity|];
                                    destruct Hspk as [?|?]; [assumption|discriminate]
                                   | left; reflexivity]).
  all: destruct Hcase as [-> | (s & -> & Hlt)]; try lia.
  all: split; [run_method | destruct style_mel; run_method].
  all: intros Habs;
    first [ discriminate Habs
          | injection Habs as ->;
            match goal with
            | H : flip_dim1 _ = Raise _ |- _ =>
                apply flip_dim1_Raise in H; discriminate H
            end ].
Qed.

(** ** Training and synthesis agree *)

(** X20.  [inference] conditions the decoder as [forward] does: called on
    the same characters and speaker embeddings, with the style taken from
    the mel target of [forward] when the model has a style layer, it hands
    the decoder the same memory and the same speaker projection as
    [forward] hands it first, or neither reaches the decoder, and both
    leave the same speaker attributes behind.  Without a style layer
    [style_mel] is never looked at. *)
Theorem inference_conditions_the_decoder_as_forward
    torch self characters text_lengths mel_specs spk style_mel h :
  (gst self = true -> style_mel = Some mel_specs) ->
  let f := forward torch self characters text_lengths mel_specs spk h in
  let i := inference torch self characters spk style_mel h in
  hd_error (map (fun c => (call_memory c, call_speaker c)) (log_of f))
  = hd_error (map (fun c => (call_memory c, call_speaker c)) (log_of i))
  /\ state_of f = state_of i
  /\ (gst self = false ->
      i = inference torch self characters spk None h).
Proof.
  tac_unfold.
  destruct self as [gst_ n bi emb enc dec decb post lin proj gl].
  cbn [Tacotron.gst]. intros Hstyle.
  destruct gst_.
  - rewrite (Hstyle eq_refl).
    destruct gl; destruct spk; try destruct proj; destruct bi;
      try destruct decb;
      repeat (progress (tac_run; split_decoder));
      repeat split; try reflexivity; intros; discriminate.
  - destruct style_mel; destruct spk; try destruct proj; destruct bi;
      try destruct decb;
      repeat (progress (tac_run; split_decoder));
      repeat split; try reflexivity; intros; discriminate.
Qed.

Lemma inference_conditions_the_decoder_as_forward_with_a_style :
  exists self h,
    __init__ TacotronSamples.toy_init 2 true false TacotronSamples.empty_heap
    = (Ok self, h, [])
    /\ gst self = true
    /\ hd_error (map (fun c => (call_memory c, call_speaker c))
                   (log_of (forward TacotronSamples.toy_torch self
                              TacotronSamples.characters
                              TacotronSamples.text_lengths
                              TacotronSamples.three_frames
                              (Some (Scalar 9)) h)))
       = hd_error (map (fun c => (call_memory c, call_speaker c))
                     (log_of (inference TacotronSamples.toy_torch self
                                TacotronSamples.characters (Some (Scalar 9))
                                (Some TacotronSamples.three_frames) h))).
Proof.
  eexists _, _. split; [vm_compute; reflexivity|]. split; [reflexivity|].
  apply (inference_conditions_the_decoder_as_forward
           TacotronSamples.toy_torch).
  intros _. reflexivity.
Defined.

(** ** What comes back from the decoder *)

(** X21.  Without [bidirectional_decoder], a [forward] that returns has
    called one decoder once, the forward one, on the mel target as it was
    given, and returns no backward outputs; an [inference] that returns
    has made one call to the same decoder's [inference].  Both return the
    decoder's outputs with the last two dimensions swapped, those outputs
    put through the postnet and the last linear layer, and the decoder's
    alignments and stop tokens as they are. *)
Theorem outputs_are_those_of_one_decoder_call
    torch self characters text_lengths mel_specs spk style_mel h :
  (bidirectional_decoder self = false ->
   forall out,
     outcome_of (forward torch self characters text_lengths mel_specs spk h)
     = Ok out ->
     exists memory p o a s,
       log_of (forward torch self characters text_lengths mel_specs spk h)
       = [CallDecoder decoder_ (decoder self) memory mel_specs
            (sequence_mask torch text_lengths) p]
       /\ Decoder torch (values_of h (decoder self)) memory mel_specs
            (sequence_mask torch text_lengths) p = (o, a, s)
       /\ out = (transpose_1_2 torch o,
                 Linear torch (values_of h (last_linear self))
                   (PostCBHG torch (values_of h (postnet self)) o),
                 a, s, None))
  /\ (forall out,
        outcome_of (inference torch self characters spk style_mel h) = Ok out ->
        exists memory p o a s,
          log_of (inference torch self characters spk style_mel h)
          = [CallDecoderInference decoder_ (decoder self) memory p]
          /\ Decoder_inference torch (values_of h (decoder self)) memory p
             = (o, a, s)
          /\ out = (transpose_1_2 torch o,
                    Linear torch (values_of h (last_linear self))
                      (PostCBHG torch (values_of h (postnet self)) o),
                    a, s)).
Proof.
  tac_unfold.
  destruct self as [gst_ n bi emb enc dec decb post lin proj gl].
  cbn [Tacotron.bidirectional_decoder Tacotron.decoder Tacotron.last_linear
       Tacotron.postnet].
  split.
  - intros ->.
    destruct gst_; [destruct gl|]; destruct spk; try destruct proj;
      repeat (progress (tac_run; split_decoder));
      intros out Hout; try discriminate; inversion Hout; subst; clear Hout;
      do 5 eexists; (split; [reflexivity|]); (split; [eassumption|]);
      reflexivity.
  - destruct style_mel; [destruct gst_; [destruct gl|]|];
      destruct spk; try destruct proj;
      repeat (progress (tac_run; split_decoder));
      intros out Hout; try discriminate; inversion Hout; subst; clear Hout;
      do 5 eexists; (split; [reflexivity|]); (split; [eassumption|]);
      reflexivity.
Qed.

End TacotronMore.
